(** * Non-use evidence suite: scan controller, time anchors, dedup, risk engine

    A shallow embedding of the algorithmic core of
    [auto_recognize_and_generate.py] and [generate_suite_v2.py], with the
    properties of its specification stated and settled over it.

    Conventions of the embedding:
    - a Python [str] is a list of Unicode code points ([text]); literals are
      written [u "..."] and decoded from the UTF-8 bytes of the source file;
    - a [datetime.date] is its proleptic Gregorian ordinal ([date.toordinal()]),
      so comparison is comparison on [Z] and [(a - b).days] is subtraction;
      [ymd] builds an ordinal the way CPython's [_ymd2ord] does;
    - Python [float] is IEEE binary64 ([PrimFloat]);
    - Python [dict] with [.get(k, default)] is a [gmap] with [!!]. *)

From Stdlib Require Import ZArith NArith Ascii String Floats.
From stdpp Require Import prelude gmap strings sorting.

Set Warnings "-inexact-float".

Local Open Scope Z_scope.

(** ** Python numbers *)

Module Num.

Definition float_of_Z (z : Z) : float :=
  if z <? 0 then PrimFloat.opp (PrimFloat.of_uint63 (Uint63.of_Z (- z)))
  else PrimFloat.of_uint63 (Uint63.of_Z z).

(** [a / b] on two [int]s (counts, far below 2^53). *)
Definition int_div (a b : Z) : float :=
  PrimFloat.div (float_of_Z a) (float_of_Z b).

(** [clamp]: [max(lo, min(hi, x))] with the defaults 0.0 and 100.0; Python's
    [min] and [max] keep their first argument unless the second is strictly
    smaller, respectively larger. *)
Definition clamp (x : float) : float :=
  let hi := float_of_Z 100 in
  let lo := float_of_Z 0 in
  let m := if PrimFloat.ltb x hi then x else hi in
  if PrimFloat.ltb lo m then m else lo.

Definition round_half_even (n d : Z) : Z :=
  let q := n / d in
  let r := n mod d in
  if 2 * r <? d then q
  else if d <? 2 * r then q + 1
  else if Z.even q then q else q + 1.

(** [round(x, 1)]: the exact value of [x] is rounded half-even to one decimal,
    and the decimal is read back as the nearest float (values below 2^49). *)
Definition round1 (x : float) : float :=
  match Prim2SF x with
  | S754_finite s m e =>
      if 0 <=? e then x
      else
        let k := round_half_even (10 * Z.pos m) (2 ^ (- e)) in
        let r := PrimFloat.div (float_of_Z k) (float_of_Z 10) in
        if s then PrimFloat.opp r else r
  | _ => x
  end.

End Num.

Import Num.

(** ** Python strings *)

Module Py.

Abbreviation text := (list N).

(** Bytes of a source literal. *)
Fixpoint bytes_of (s : string) : list N :=
  match s with
  | EmptyString => []
  | String a r => N_of_ascii a :: bytes_of r
  end.

(** UTF-8 decoding (well-formed input of 1 to 4 bytes per code point). *)
Fixpoint utf8_decode (bs : list N) : text :=
  match bs with
  | [] => []
  | b :: r =>
      if (b <? 128)%N then b :: utf8_decode r
      else if (b <? 224)%N then
        match r with
        | c :: r1 => ((b - 192) * 64 + (c - 128))%N :: utf8_decode r1
        | _ => []
        end
      else if (b <? 240)%N then
        match r with
        | c :: d :: r2 =>
            ((b - 224) * 4096 + (c - 128) * 64 + (d - 128))%N :: utf8_decode r2
        | _ => []
        end
      else
        match r with
        | c :: d :: e :: r3 =>
            ((b - 240) * 262144 + (c - 128) * 4096 + (d - 128) * 64 + (e - 128))%N
              :: utf8_decode r3
        | _ => []
        end
  end.

Definition u (s : string) : text := utf8_decode (bytes_of s).

Definition text_eqb (a b : text) : bool := bool_decide (a = b).

(** [x in (a, b, ...)] on strings. *)
Definition text_in (x : text) (l : list text) : bool := bool_decide (x ∈ l).

Fixpoint starts_with (p s : text) : bool :=
  match p, s with
  | [], _ => true
  | a :: p', b :: s' => (a =? b)%N && starts_with p' s'
  | _ :: _, [] => false
  end.

(** [sub in s]. *)
Fixpoint contains (sub s : text) : bool :=
  starts_with sub s ||
  match s with
  | [] => false
  | _ :: s' => contains sub s'
  end.

(** [any(k in s for k in kws)]. *)
Definition any_in (kws : list text) (s : text) : bool :=
  existsb (fun k => contains k s) kws.

(** [str.isspace] on one character, which is also what [\s] matches in a
    [str] pattern. *)
Definition is_space (c : N) : bool :=
  ((9 <=? c) && (c <=? 13) || (28 <=? c) && (c <=? 32) || (c =? 133)
   || (c =? 160) || (c =? 5760) || (8192 <=? c) && (c <=? 8202)
   || (c =? 8232) || (c =? 8233) || (c =? 8239) || (c =? 8287)
   || (c =? 12288))%N.

Fixpoint lstrip (s : text) : text :=
  match s with
  | c :: r => if is_space c then lstrip r else s
  | [] => []
  end.

(** [s.strip()]. *)
Definition strip (s : text) : text := rev (lstrip (rev (lstrip s))).

(** [str.upper] restricted to the ASCII letters; used where a concrete row is
    evaluated.  The engine itself is stated over an arbitrary [upper]. *)
Definition ascii_upper (s : text) : text :=
  map (fun c => if ((97 <=? c) && (c <=? 122))%N then (c - 32)%N else c) s.

Definition is_linebreak (c : N) : bool :=
  ((10 <=? c) && (c <=? 13) || (28 <=? c) && (c <=? 30) || (c =? 133)
   || (c =? 8232) || (c =? 8233))%N.

(** [s.splitlines()]; [cur] is the current line, reversed, and [after_cr]
    tells that the previous character was a carriage return that closed a
    line, so that a line feed right after it belongs to the same break. *)
Fixpoint split_lines (cur : text) (after_cr : bool) (s : text) : list text :=
  match s with
  | [] => match cur with [] => [] | _ => [rev cur] end
  | c :: r =>
      if (c =? 10)%N && after_cr then split_lines cur false r
      else if is_linebreak c then rev cur :: split_lines [] (c =? 13)%N r
      else split_lines (c :: cur) false r
  end.

Definition splitlines (s : text) : list text := split_lines [] false s.

(** [sep.join(parts)]. *)
Fixpoint join (sep : text) (parts : list text) : text :=
  match parts with
  | [] => []
  | [x] => x
  | x :: rest => x ++ sep ++ join sep rest
  end.

(** Decimal digits of a natural number, most significant first. *)
Fixpoint digits_from (fuel : nat) (n : N) (acc : text) : text :=
  match fuel with
  | O => acc
  | S f =>
      let acc' := (48 + n mod 10)%N :: acc in
      if (n <? 10)%N then acc' else digits_from f (n / 10)%N acc'
  end.

(** [str(n)] for an [int]. *)
Definition str_of_Z (z : Z) : text :=
  let n := Z.to_N (Z.abs z) in
  let ds := digits_from (S (N.to_nat (N.log2 n))) n [] in
  if z <? 0 then 45%N :: ds else ds.

(** ["%0<w>d" % n] for [n >= 0]. *)
Definition zero_pad (w : nat) (z : Z) : text :=
  let ds := str_of_Z z in
  replicate (w - length ds) 48%N ++ ds.

(** [normalize_text]: whitespace runs, [|] and 丨 are removed. *)
Definition normalize_text (s : text) : text :=
  filter (fun c => c ≠ 20008%N)
    (filter (fun c => c ≠ 124%N) (filter (fun c => is_space c = false) s)).

(** The class [[\u4e00-\u9fa5A-Za-z0-9]]. *)
Definition is_word (c : N) : bool :=
  ((19968 <=? c) && (c <=? 40869) || (65 <=? c) && (c <=? 90)
   || (97 <=? c) && (c <=? 122) || (48 <=? c) && (c <=? 57))%N.

(** [normalize_for_dedup]. *)
Definition normalize_for_dedup (s : text) : text :=
  filter (fun c => is_word c = true) (normalize_text s).

(** A [pathlib.Path] is its string; [name] is the last component and [stem]
    the name without its last suffix. *)
Fixpoint path_name_from (cur : text) (s : text) : text :=
  match s with
  | [] => rev cur
  | c :: r => if (c =? 47)%N then path_name_from [] r else path_name_from (c :: cur) r
  end.

Definition path_name (p : text) : text := path_name_from [] p.

(** Index of the last [.] of [s], if any. *)
Fixpoint rfind_dot (i : nat) (s : text) : option nat :=
  match s with
  | [] => None
  | c :: r =>
      match rfind_dot (S i) r with
      | Some j => Some j
      | None => if (c =? 46)%N then Some i else None
      end
  end.

Definition path_stem (p : text) : text :=
  let name := path_name p in
  match rfind_dot 0 name with
  | Some i =>
      if bool_decide (0 < i)%nat && bool_decide (i < length name - 1)%nat
      then take i name else name
  | None => name
  end.


(** Truthiness of a list or string. *)
Definition nonempty {A} (l : list A) : bool :=
  match l with [] => false | _ => true end.

(** [a or b] on strings. *)
Definition or_else (a b : text) : text := if nonempty a then a else b.

(** [+= 1] under a condition. *)
Definition one_if (b : bool) : Z := if b then 1 else 0.

(** [a <= b] on 4-tuples of integers, as Python compares tuples. *)
Definition key_leb (a b : Z * Z * Z * Z) : bool :=
  let '(a1, a2, a3, a4) := a in
  let '(b1, b2, b3, b4) := b in
  (a1 <? b1) || ((a1 =? b1) &&
    ((a2 <? b2) || ((a2 =? b2) &&
      ((a3 <? b3) || ((a3 =? b3) && (a4 <=? b4)))))).

End Py.

Import Py.

(** ** Dates *)

Module Date.

Abbreviation date := Z (only parsing).

Definition is_leap (y : Z) : bool :=
  (y mod 4 =? 0) && (negb (y mod 100 =? 0) || (y mod 400 =? 0)).

Definition days_before_year (y : Z) : Z :=
  let y1 := y - 1 in y1 * 365 + y1 / 4 - y1 / 100 + y1 / 400.

Definition days_in_month (y m : Z) : Z :=
  if m =? 2 then (if is_leap y then 29 else 28)
  else if (m =? 4) || (m =? 6) || (m =? 9) || (m =? 11) then 30 else 31.

Definition days_before_month (y m : Z) : Z :=
  foldr (fun k acc => days_in_month y k + acc) 0
        (map Z.of_nat (seq 1 (Z.to_nat (m - 1)))).

(** [datetime.date(y, m, d).toordinal()]. *)
Definition ymd (y m d : Z) : date :=
  days_before_year y + days_before_month y m + d.

(** [_ord2ymd] of CPython's [datetime]. *)
Definition ord2ymd (n : Z) : Z * Z * Z :=
  let n := n - 1 in
  let n400 := n / 146097 in let n := n mod 146097 in
  let n100 := n / 36524 in let n := n mod 36524 in
  let n4 := n / 1461 in let n := n mod 1461 in
  let n1 := n / 365 in let n := n mod 365 in
  let year := n400 * 400 + 1 + n100 * 100 + n4 * 4 + n1 in
  if (n1 =? 4) || (n100 =? 4) then (year - 1, 12, 31)
  else
    let leapyear := (n1 =? 3) && (negb (n4 =? 24) || (n100 =? 3)) in
    let month := (n + 50) / 32 in
    let preceding :=
      days_before_month 1 month + (if (2 <? month) && leapyear then 1 else 0) in
    if n <? preceding then
      let month := month - 1 in
      let preceding :=
        preceding - (days_in_month 1 month
                     + (if (month =? 2) && leapyear then 1 else 0)) in
      (year, month, n - preceding + 1)
    else (year, month, n - preceding + 1).

(** [d.isoformat()]. *)
Definition isoformat (d : date) : text :=
  let '(y, m, dd) := ord2ymd d in
  zero_pad 4 y ++ [45%N] ++ zero_pad 2 m ++ [45%N] ++ zero_pad 2 dd.

(** [sorted(set(xs))] on dates. *)
Definition sorted_set (xs : list date) : list date :=
  merge_sort Z.le (remove_dups xs).

End Date.

Import Date.

(** ** Confidence tiers *)

Inductive confidence := HIGH | MEDIUM | LOW.

#[global] Instance confidence_eq_dec : EqDecision confidence.
Proof. solve_decision. Defined.

(** ** Noise normalizer ([auto_recognize_and_generate.py]) *)

Module Normalizer.

Local Open Scope N_scope.

(** Code points of the characters the normalizer names. *)
Definition c_nian : N := 24180.   (* 年 *)
Definition c_yue : N := 26376.    (* 月 *)
Definition c_ri : N := 26085.     (* 日 *)
Definition c_hao : N := 21495.    (* 号 *)

(** The [str.maketrans] table of [normalize_ocr_digits]:
    O o -> 0, I l | -> 1, S s -> 5, B -> 8. *)
Definition trans (c : N) : N :=
  if (c =? 79) || (c =? 111) then 48
  else if (c =? 73) || (c =? 108) || (c =? 124) then 49
  else if (c =? 83) || (c =? 115) then 53
  else if (c =? 66) then 56
  else c.

(** [normalize_ocr_digits]: [s.translate(trans)] (the empty string is returned
    as it is, which [map] also does). *)
Definition normalize_ocr_digits (s : text) : text := map trans s.

(** [s.replace(old, new)] for a non-empty [old]: occurrences are replaced from
    the left and do not overlap; [skip] counts the characters of a replaced
    occurrence still to be dropped. *)
Fixpoint replace_from (old new : text) (skip : nat) (s : text) : text :=
  match s with
  | [] => []
  | c :: r =>
      match skip with
      | S k => replace_from old new k r
      | O =>
          if starts_with old s
          then new ++ replace_from old new (length old - 1) r
          else c :: replace_from old new 0 r
      end
  end.

Definition replace (old new s : text) : text := replace_from old new 0 s.

(** *** The fragment of regular expressions the normalizer uses

    Each pattern is a sequence of greedy repetitions [cls{lo,hi}] of a
    character class (a literal is a class repeated once).  [match_atoms]
    matches at the start of [s] with the backtracking order of Python's [re]:
    the longest repetition first, then shorter ones, and returns how many
    characters each atom consumed in the first match found. *)
Record atom := Atom { cls : N -> bool; lo : nat; hi : nat }.

(** Number of leading characters of [s] in class [p], at most [n]. *)
Fixpoint run (p : N -> bool) (n : nat) (s : text) : nat :=
  match n, s with
  | S k, c :: r => if p c then S (run p k r) else O
  | _, _ => O
  end.

Section Backtrack.
Variable rest : text -> option (list nat).

(** Try to consume [n] characters, then [n - 1], ... down to [lo]. *)
Fixpoint try_from (lo n : nat) (s : text) : option (list nat) :=
  match (if bool_decide (lo <= n)%nat then rest (drop n s) else None) with
  | Some ks => Some (n :: ks)
  | None =>
      match n with
      | S k => if bool_decide (lo <= k)%nat then try_from lo k s else None
      | O => None
      end
  end.
End Backtrack.

Fixpoint match_atoms (atoms : list atom) (s : text) : option (list nat) :=
  match atoms with
  | [] => Some []
  | a :: more =>
      try_from (match_atoms more) (lo a) (run (cls a) (hi a) s) s
  end.

(** [re.sub(pattern, repl, s)]: at each position from the left the pattern is
    tried; [repl] receives the matched text and the per-atom lengths. *)
Fixpoint re_sub (atoms : list atom) (repl : text -> list nat -> text)
    (skip : nat) (s : text) : text :=
  match s with
  | [] => []
  | c :: r =>
      match skip with
      | S k => re_sub atoms repl k r
      | O =>
          match match_atoms atoms s with
          | Some ks =>
              repl s ks ++ re_sub atoms repl (sum_list ks - 1) r
          | None => c :: re_sub atoms repl 0 r
          end
      end
  end.

Definition is_ascii_digit (c : N) : bool := ((48 <=? c) && (c <=? 57))%N.

Definition lit (c : N) : atom := Atom (fun x => (x =? c)%N) 1 1.

(** [\s*]; the bound is the length of the subject. *)
Definition ws_star (s : text) : atom := Atom is_space 0 (length s).

(** [[^0-9X./-]{0,n}] with [X] the characters in [excl]. *)
Definition noise_cls (excl : list N) (n : nat) : atom :=
  Atom (fun c => negb (is_ascii_digit c || bool_decide (c ∈ excl)
                       || (c =? 46) || (c =? 47) || (c =? 45))%N) 0 n.

(** A text without the date-unit characters 年 月 日 号. *)
Definition unit_free (s : text) : Prop :=
  Forall (fun c => c ∉ [c_nian; c_yue; c_ri; c_hao]) s.

(** The date-unit characters 年 月 日 号. *)
Definition is_unit (c : N) : bool :=
  (c =? c_nian) || (c =? c_yue) || (c =? c_ri) || (c =? c_hao).



Section Runtime.
(** [\d] in a [str] pattern: the Unicode decimal digits of the Python
    runtime ([str.isdecimal] on one character). *)
Variable is_decimal : N -> bool.

(** [(20\d{2})\s*[^0-9年月./-]{0,3}\s*年] *)
Definition re_year (s : text) : list atom :=
  [lit 50; lit 48; Atom is_decimal 2 2;
   ws_star s; noise_cls [c_nian; c_yue] 3; ws_star s; lit c_nian].

(** [([0-9]{1,2})\s*[^0-9月./-]{0,2}\s*月] *)
Definition re_month (s : text) : list atom :=
  [Atom is_ascii_digit 1 2;
   ws_star s; noise_cls [c_yue] 2; ws_star s; lit c_yue].

(** [([0-9]{1,2})\s*[^0-9日号./-]{0,2}\s*(日|号)] *)
Definition re_day (s : text) : list atom :=
  [Atom is_ascii_digit 1 2;
   ws_star s; noise_cls [c_ri; c_hao] 2; ws_star s;
   Atom (fun c => (c =? c_ri) || (c =? c_hao))%N 1 1].

(** Replacement [\1X]: the first [n] matched characters, then [X]. *)
Definition keep_then (n : nat) (x : N) (m : text) : text := take n m ++ [x].

(** [re.sub(r"\s+", " ", s)]: every maximal run of whitespace becomes one
    space; [in_run] tells that the previous character was whitespace. *)
Fixpoint collapse_ws (in_run : bool) (s : text) : text :=
  match s with
  | [] => []
  | c :: r =>
      if is_space c
      then (if in_run then collapse_ws true r else 32%N :: collapse_ws true r)
      else c :: collapse_ws false r
  end.

(** [normalize_ocr_date_text]. *)
Definition normalize_ocr_date_text (s : text) : text :=
  let src := normalize_ocr_digits s in
  let src := replace (u "年年") (u "年")
               (replace (u "入年") (u "年") (replace (u "人年") (u "年") src)) in
  let src := replace (u "日日") (u "日") (replace (u "月月") (u "月") src) in
  let src := re_sub (re_year src) (fun m _ => keep_then 4 c_nian m) 0 src in
  let src := re_sub (re_month src)
               (fun m ks => keep_then (hd O ks) c_yue m) 0 src in
  let src := re_sub (re_day src)
               (fun m ks => keep_then (hd O ks) c_ri m) 0 src in
  collapse_ws false src.
End Runtime.

End Normalizer.

Import Normalizer.

(** ** Time-anchor resolver ([auto_recognize_and_generate.py]) *)

Module Resolver.

(** [confidence_from_dates]. *)
Definition confidence_from_dates
    (dates : list date) (mark_time_lines : list text)
    (review_dates : list date) (meta_used : bool)
    (time_channels : list text) : confidence :=
  let strong_scene_hit :=
    existsb (fun ch => text_in ch [u "评价"; u "交易"; u "物流"]) time_channels in
  if (1 <=? Z.of_nat (length dates)) && strong_scene_hit && negb meta_used then HIGH
  else if (2 <=? Z.of_nat (length dates))
          && (nonempty mark_time_lines || nonempty review_dates) then HIGH
  else if 2 <=? Z.of_nat (length dates) then HIGH
  else if (Z.of_nat (length dates) =? 1) && nonempty review_dates then MEDIUM
  else if (Z.of_nat (length dates) =? 1) && meta_used then LOW
  else if Z.of_nat (length dates) =? 1 then MEDIUM
  else LOW.

(** The derivation as the specification words it: HIGH with at least two
    dates, or one scene-backed date without metadata fallback; MEDIUM with
    exactly one date that is scene-backed or metadata-derived; LOW otherwise. *)
Definition confidence_as_specified
    (dates : list date) (meta_used : bool) (time_channels : list text)
    : confidence :=
  let n := Z.of_nat (length dates) in
  let scene :=
    existsb (fun ch => text_in ch [u "评价"; u "交易"; u "物流"]) time_channels in
  if (2 <=? n) || ((n =? 1) && scene && negb meta_used) then HIGH
  else if (n =? 1) && (scene || meta_used) then MEDIUM
  else LOW.

(** The four extraction channels, named 基础, 评价, 交易, 物流 in the code. *)
Inductive channel := Base | Review | Order | Logistics.

#[global] Instance channel_eq_dec : EqDecision channel.
Proof. solve_decision. Defined.

Definition channel_name (ch : channel) : text :=
  match ch with
  | Base => u "基础" | Review => u "评价" | Order => u "交易" | Logistics => u "物流"
  end.

Definition channel_priority (ch : channel) : Z :=
  match ch with Review => 4 | Order => 3 | Logistics => 2 | Base => 1 end.

Definition channel_weight (ch : channel) : Z :=
  match ch with Review => 8 | Order => 7 | Logistics => 6 | Base => 3 end.

Inductive anchor_kind :=
  transaction_date | system_generated | content_claimed | uncertain.

#[global] Instance anchor_kind_eq_dec : EqDecision anchor_kind.
Proof. solve_decision. Defined.

Definition anchor_kind_name (k : anchor_kind) : text :=
  match k with
  | transaction_date => u "transaction_date"
  | system_generated => u "system_generated"
  | content_claimed => u "content_claimed"
  | uncertain => u "uncertain"
  end.

Definition TIME_NOISE_EXCLUDE_KEYWORDS : list text :=
  map u ["截至"; "截止"; "活动时间"; "有效期"; "保质期"; "生产日期"; "出厂日期";
         "检验日期"; "打印日期"; "系统时间"; "模板日期"; "公告日期";
         "体检"; "体检通知"; "培训通知"; "放假通知"; "节假日"; "活动截止"].

Definition TIME_TRANSACTION_HINT_KEYWORDS : list text :=
  map u ["签订日期"; "开票日期"; "发票日期"; "支付时间"; "付款时间"; "交易时间";
         "下单时间"; "发货时间"; "签收时间"; "物流时间"; "到账时间"; "合同日期"].

Definition TIME_SYSTEM_HINT_KEYWORDS : list text :=
  map u ["评价时间"; "评论时间"; "追评时间"; "创建时间"; "更新时间"; "发布时间";
         "入驻时间"; "订单创建"; "系统生成"; "平台时间"].

(** [TIME_NOISE_EXCLUDE_BY_KIND.get(kind, [])]. *)
Definition TIME_NOISE_EXCLUDE_BY_KIND (kind : text) : list text :=
  if text_eqb kind (u "交易凭证") then
    map u ["保质期"; "生产日期"; "出厂日期"; "检验日期"; "有效期"; "批号日期"]
  else if text_eqb kind (u "线上店铺展示") || text_eqb kind (u "商品展示页") then
    map u ["活动时间"; "截至"; "截止"; "模板日期"; "系统当前时间"; "打印日期"]
  else if text_eqb kind (u "程序文件") then
    map u ["通知日期"; "送达日期"; "决定日期"; "立案日期"; "须知日期"; "体检日期";
           "放假日期"; "活动日期"]
  else [].

(** One row of [cand_rows]. *)
Record cand := Cand {
  c_date : date;
  c_channels : list channel;
  c_score : Z;
  c_in_period : bool;
  c_channel_best : Z;
  c_confidence : confidence;
  c_anchor_type : anchor_kind;
  c_anchor_source : channel;
  c_excluded : bool
}.

(** The dictionary [build_time_anchor_candidates] returns; [anchor_types] is
    absent from the dictionary of the no-candidate return. *)
Record pick := Pick {
  selected_dates : list date;
  channels_used : list channel;
  anchor_types : option (list anchor_kind);
  selected_anchor_type : anchor_kind;
  selected_anchor_source : channel;
  note : text;
  conflict_flag : bool;
  selection_rule : text;
  candidates : list cand
}.

(** [period_start <= d <= period_end] under [if period_start and period_end]. *)
Definition within (ps pe : option date) (d : date) : option bool :=
  match ps, pe with
  | Some s, Some e => Some ((s <=? d) && (d <=? e))
  | _, _ => None
  end.

(** A set of channels listed by descending priority (the priorities are
    pairwise distinct, so the order is the one [sorted(..., key=-priority)]
    gives). *)
Definition by_priority (chs : list channel) : list channel :=
  filter (fun c => c ∈ chs) [Review; Order; Logistics; Base].

Definition kinds_by_priority (ks : list anchor_kind) : list anchor_kind :=
  filter (fun k => k ∈ ks)
         [transaction_date; system_generated; content_claimed; uncertain].

(** The sort key [(0 if in_period else 1, -channel_best, -score, date)]. *)
Definition cand_key (c : cand) : Z * Z * Z * Z :=
  ((if c_in_period c then 0 else 1), - c_channel_best c, - c_score c, c_date c).

Definition cand_le (a b : cand) : Prop := key_leb (cand_key a) (cand_key b).

#[global] Instance cand_le_dec : RelDecision cand_le.
Proof. intros a b. unfold cand_le. apply _. Defined.

Section Collaborators.
(** Unicode decimal digits of the runtime (see [Normalizer]). *)
Variable is_decimal : N -> bool.
(** [extract_dates_advanced(text, period_start, period_end)] where the call
    returns: the dates the date patterns find in a text, sorted and without
    repetition.  The call raises where [infer_year_for_month_day] does, on a
    month-day date under a period within a year of the first or of the last
    date; that path is in [Years.infer_year_for_month_day]. *)
Variable extract_dates_advanced : text -> option date -> option date -> list date.

(** The loop over the context lines: it fills [date_type_hint] and
    [date_excluded]. *)
Definition classify_line (kind_noise : list text) (ps pe : option date)
    (st : gmap date anchor_kind * gmap date bool) (ln : text)
    : gmap date anchor_kind * gmap date bool :=
  let nln := normalize_ocr_date_text is_decimal ln in
  let ds := extract_dates_advanced nln ps pe in
  match ds with
  | [] => st
  | _ =>
      let is_noise :=
        any_in TIME_NOISE_EXCLUDE_KEYWORDS nln || any_in kind_noise nln
        || any_in (map u ["体检"; "培训"; "放假"; "节假日"; "活动预告"; "报名截止"]) nln in
      let is_tx := any_in TIME_TRANSACTION_HINT_KEYWORDS nln in
      let is_sys := any_in TIME_SYSTEM_HINT_KEYWORDS nln in
      let hint :=
        if is_tx then transaction_date
        else if is_sys then system_generated
        else if is_noise then content_claimed
        else uncertain in
      foldl (fun '(th, ex) d =>
               (<[d := hint]> th, if is_noise then <[d := true]> ex else ex))
            st ds
  end.

(** The inner function [add(ds, ch)]; the state is
    [(date_channels, date_score)]. *)
Definition add (ps pe : option date) (evidence_kind : text)
    (date_type_hint : gmap date anchor_kind) (date_excluded : gmap date bool)
    (st : gmap date (list channel) * gmap date Z)
    (ds : list date) (ch : channel)
    : gmap date (list channel) * gmap date Z :=
  let w := channel_weight ch in
  foldl (fun '(date_channels, date_score) d =>
    let old := default [] (date_channels !! d) in
    let date_channels :=
      <[d := if bool_decide (ch ∈ old) then old else old ++ [ch]]> date_channels in
    let score := w in
    let score :=
      match within ps pe d with
      | Some true => score + 3
      | Some false => score - 2
      | None => score
      end in
    let score :=
      match date_type_hint !! d with
      | Some transaction_date => score + 4
      | Some system_generated => score + 2
      | Some content_claimed => score - 4
      | Some uncertain => score - 1
      | None => score
      end in
    let score := if default false (date_excluded !! d) then score - 6 else score in
    let score :=
      if text_eqb (strip evidence_kind) (u "程序文件") then score - 6 else score in
    (date_channels, <[d := default 0 (date_score !! d) + score]> date_score))
    st ds.

Definition cand_row (ps pe : option date)
    (date_channels : gmap date (list channel))
    (date_type_hint : gmap date anchor_kind) (date_excluded : gmap date bool)
    (item : date * Z) : cand :=
  let '(d, score) := item in
  let channels := by_priority (default [] (date_channels !! d)) in
  let in_period := default false (within ps pe d) in
  let channel_best := foldr Z.max 0 (map channel_priority channels) in
  let anchor_type :=
    if bool_decide (Order ∈ channels) || bool_decide (Logistics ∈ channels)
    then transaction_date
    else if bool_decide (Review ∈ channels) then system_generated
    else default uncertain (date_type_hint !! d) in
  let anchor_source := hd Base channels in
  let conf := if 11 <=? score then HIGH else if 7 <=? score then MEDIUM else LOW in
  Cand d channels score in_period channel_best conf anchor_type anchor_source
       (default false (date_excluded !! d)).

(** [build_time_anchor_candidates]. *)
Definition build_time_anchor_candidates
    (base_dates review_dates order_dates logistics_dates : list date)
    (period_start period_end : option date) (top_k : Z)
    (context_text evidence_kind : text) : pick :=
  let lines :=
    filter (fun ln => nonempty ln = true) (map strip (splitlines context_text)) in
  let kind_noise := TIME_NOISE_EXCLUDE_BY_KIND (strip evidence_kind) in
  let '(date_type_hint, date_excluded) :=
    foldl (classify_line kind_noise period_start period_end) (∅, ∅) lines in
  let add := add period_start period_end evidence_kind date_type_hint date_excluded in
  let st := add (∅, ∅) base_dates Base in
  let st := add st review_dates Review in
  let st := add st order_dates Order in
  let '(date_channels, date_score) := add st logistics_dates Logistics in
  if bool_decide (date_score = ∅) then
    Pick [] [] None uncertain Base [] false (u "无候选日期") []
  else
    let cand_rows :=
      map (cand_row period_start period_end date_channels date_type_hint date_excluded)
          (map_to_list date_score) in
    let cand_rows := merge_sort cand_le cand_rows in
    let top := take (Z.to_nat (Z.max 1 top_k)) cand_rows in
    let conflict_flag := existsb c_in_period top && existsb (fun c => negb (c_in_period c)) top in
    let in_period_top := filter (fun c => c_in_period c = true) top in
    let selected := if nonempty in_period_top then in_period_top else top in
    let selected_dates := sorted_set (map c_date selected) in
    let channels_used := by_priority (concat (map c_channels selected)) in
    let anchor_types := kinds_by_priority (map c_anchor_type selected) in
    let selected_anchor_source := hd Base (map c_anchor_source selected) in
    let note_parts :=
      (if nonempty channels_used
       then [u "候选通道：" ++ join (u "、") (map channel_name channels_used)] else [])
      ++ (if conflict_flag && nonempty in_period_top
          then [u "检测到期内/期外冲突，已优先采用期内候选"] else [])
      ++ (if existsb c_excluded top
          then [u "已对活动/检验/有效期等噪声日期降权"] else [])
      ++ (if nonempty anchor_types
          then [u "时间来源类型：" ++ join (u "、") (map anchor_kind_name anchor_types)]
          else [])
      ++ [u "时间来源通道：" ++ channel_name selected_anchor_source] in
    Pick selected_dates channels_used (Some anchor_types)
         (hd uncertain anchor_types) selected_anchor_source
         (join (u "；") note_parts) conflict_flag
         (u "通道优先(评价>交易>物流>基础)+期内优先+噪声降权+分值排序") top.
End Collaborators.

End Resolver.

(** ** Deduplication engine ([auto_recognize_and_generate.py]) *)

Module Dedup.

Definition bar : N := 124.   (* | *)

(** Number of [|] separators in a text. *)
Definition bars (s : text) : nat := length (filter (fun c => c = bar) s).

Section Collaborators.
(** [extract_dates_advanced], as in [Resolver]. *)
Variable extract_dates_advanced : text -> option date -> option date -> list date.
(** [pdf_page_count]: pages of the file, 0 when it cannot be read. *)
Variable pdf_page_count : text -> Z.
(** [hashlib.sha1(raw.encode("utf-8", errors="ignore")).hexdigest()]. *)
Variable sha1_hex : text -> text.

(** [time_fp]: the ISO forms of the first three dates, joined by [|]. *)
Definition time_fp (text_ : text) : text :=
  join [bar] (map isoformat (take 3 (extract_dates_advanced text_ None None))).

(** The string [raw] that [dedup_signature] hashes. *)
Definition dedup_raw (pdf text_ : text) : text :=
  let norm := normalize_for_dedup text_ in
  let time_fp := time_fp text_ in
  if Z.of_nat (length norm) <? 80 then
    let pc := pdf_page_count pdf in
    path_stem pdf ++ [bar] ++ str_of_Z pc ++ [bar]
      ++ str_of_Z (Z.of_nat (length norm)) ++ [bar] ++ time_fp
  else
    take (Z.to_nat 20000) norm ++ [bar] ++ time_fp.

(** [dedup_signature]. *)
Definition dedup_signature (pdf text_ : text) : text :=
  sha1_hex (dedup_raw pdf text_).

(** The two signature inputs as the specification names them: the fallback
    tuple (name stem, page count, normalized length, date fingerprint) and
    the normalized text cut at 20000 characters with the date fingerprint. *)
Definition fallback_tuple (pdf text_ : text) : text :=
  join [bar] [path_stem pdf; str_of_Z (pdf_page_count pdf);
              str_of_Z (Z.of_nat (length (normalize_for_dedup text_)));
              time_fp text_].

Definition content_form (text_ : text) : text :=
  join [bar] [take (Z.to_nat 20000) (normalize_for_dedup text_); time_fp text_].
End Collaborators.

End Dedup.

(** ** Risk-scoring engine ([generate_suite_v2.py]) *)

Module Risk.

(** *** Casebook rows *)

(** A cell of a [pandas] row: [None], a float NaN, a date-like object (date,
    datetime, Timestamp) with the date it denotes, or any other value; [shown]
    is [str(x)].  The blank cell of a datetime column, [NaT], is none of
    these: it denotes no date and its ordering against a date raises.  Rows
    that hold it are read in [NaTRows]. *)
Inductive cell :=
  | CNone
  | CNaN
  | CDate (d : date) (shown : text)
  | CVal (shown : text).

Abbreviation row := (gmap string cell).

Inductive validity := VALID | INVALID | NA.

#[global] Instance validity_eq_dec : EqDecision validity.
Proof. solve_decision. Defined.

Inductive field_kind := F_date | F_amount | F_party | F_goods | F_mark_presence.

(** [safe_str]. *)
Definition safe_str (x : cell) : text :=
  match x with
  | CNone | CNaN => []
  | CDate _ s | CVal s => strip s
  end.

(** [r.get(col)], and [r.get(col, x)] as [default x (get r col)]. *)
Definition get (r : row) (col : string) : option cell := r !! col.

(** [safe_str(r.get(col, ""))]. *)
Definition get_str (r : row) (col : string) : text :=
  safe_str (default (CVal []) (get r col)).

(** [overlap]. *)
Definition overlap (a_start a_end b_start b_end : option date) : bool :=
  match a_start, a_end, b_start, b_end with
  | Some a1, Some a2, Some b1, Some b2 => negb ((a2 <? b1) || (b2 <? a1))
  | _, _, _, _ => false
  end.

Definition evidence_in_period := overlap.

(** [range_label]. *)
Definition range_label (d1 d2 : option date) : text :=
  match d1, d2 with
  | None, None => u "时间不明"
  | Some a, Some b =>
      if a =? b then isoformat a else isoformat a ++ u " ~ " ++ isoformat b
  | Some a, None => isoformat a
  | None, Some b => isoformat b
  end.

(** The separators of [_RANGE_SPLIT]: 至 到 ~ — - － –. *)
Definition is_range_sep (c : N) : bool :=
  bool_decide (c ∈ [33267; 21040; 126; 8212; 45; 65293; 8211]%N).

(** The pieces of [s] between separators. *)
Fixpoint split_range (cur : text) (s : text) : list text :=
  match s with
  | [] => [rev cur]
  | c :: r =>
      if is_range_sep c then rev cur :: split_range [] r
      else split_range (c :: cur) r
  end.

(** The result of [infer_time_anchor_row]. *)
Record anchor := Anchor {
  formation_date : option date;
  anchor_start : option date;
  anchor_end : option date;
  anchor_text : text;
  a_confidence : confidence;
  contradiction : bool
}.

Definition conf_of_text (s : text) : option confidence :=
  if text_eqb s (u "HIGH") then Some HIGH
  else if text_eqb s (u "MEDIUM") then Some MEDIUM
  else if text_eqb s (u "LOW") then Some LOW
  else None.

Section Parsing.
(** [str.upper] of the runtime. *)
Variable upper : text -> text.
(** The string branch of [_to_date_obj], on a stripped non-empty string: the
    three [strptime] formats, then a search with [_DATE_RE_1] and
    [_DATE_RE_2]. *)
Variable parse_date_str : text -> option date.
(** The valid dates that [_DATE_RE_1.finditer] and then
    [_DATE_RE_2.finditer] find in a text, in that order. *)
Variable date_matches : text -> list date.

(** [_to_date_obj] on the cells above; for [NaT] see [NaTRows.to_date_obj]. *)
Definition to_date_obj (x : cell) : option date :=
  match x with
  | CNone | CNaN => None
  | CDate d _ => Some d
  | CVal s => let s := strip s in if nonempty s then parse_date_str s else None
  end.

(** [extract_dates_from_text]. *)
Definition extract_dates_from_text (t : text) : list date :=
  if nonempty t then sorted_set (date_matches t) else [].

(** [parse_range_from_text]. *)
Definition parse_range_from_text (t : text) : option date * option date :=
  if negb (nonempty t) then (None, None)
  else
    let s := strip t in
    if negb (nonempty s) then (None, None)
    else
      let parts :=
        filter (fun p => nonempty p = true) (map strip (split_range [] s)) in
      let by_parts :=
        match parts with
        | p0 :: p1 :: _ =>
            match to_date_obj (CVal p0), to_date_obj (CVal p1) with
            | Some d1, Some d2 => Some (Z.min d1 d2, Z.max d1 d2)
            | _, _ => None
            end
        | _ => None
        end in
      match by_parts with
      | Some (a, b) => (Some a, Some b)
      | None =>
          let ds := extract_dates_from_text s in
          match ds with
          | [] =>
              match to_date_obj (CVal s) with
              | Some d => (Some d, Some d)
              | None => (None, None)
              end
          | [d] => (Some d, Some d)
          | d :: _ => (Some d, Some (List.last ds d))
          end
      end.

(** [infer_time_anchor_row]. *)
Definition infer_time_anchor_row (r : row) : anchor :=
  let c_start :=
    match get r "Evidence Date Start" with
    | Some c => c
    | None => default CNone (get r "Date Start")
    end in
  let c_end :=
    match get r "Evidence Date End" with
    | Some c => c
    | None => default CNone (get r "Date End")
    end in
  let c_anchor_text :=
    or_else (get_str r "Time Anchor Text")
      (or_else (get_str r "Content Summary") (get_str r "Evidence Name")) in
  let d_start := to_date_obj c_start in
  let d_end := to_date_obj c_end in
  let formation := to_date_obj (default CNone (get r "Formation Date")) in
  let confidence := conf_of_text (upper (get_str r "Date Confidence")) in
  let label := get_str r "Time Anchor Text" in
  let '(anchor_start, anchor_end, conf, anchor_text) :=
    match d_start, d_end with
    | Some s, Some e =>
        let a := Z.min s e in
        let b := Z.max s e in
        (Some a, Some b, default HIGH confidence,
         or_else label
           (u "EXPLICIT_RANGE(" ++ range_label (Some a) (Some b) ++ u ")"))
    | _, _ =>
        match formation with
        | Some f =>
            (Some f, Some f, default MEDIUM confidence,
             or_else label (u "FORMATION_DATE(" ++ isoformat f ++ u ")"))
        | None =>
            let '(p_start, p_end) := parse_range_from_text c_anchor_text in
            match p_start, p_end with
            | Some _, Some _ =>
                (p_start, p_end, default MEDIUM confidence,
                 or_else label
                   (u "PARSED_TEXT(" ++ range_label p_start p_end ++ u ")"))
            | _, _ =>
                (p_start, p_end, default LOW confidence,
                 or_else label (u "NO_TIME_ANCHOR"))
            end
        end
    end in
  let contradiction :=
    match formation, anchor_start, anchor_end with
    | Some f, Some a, Some b =>
        negb ((a <=? f) && (f <=? b))
        && (30 <? Z.abs (f - a)) && (30 <? Z.abs (f - b))
    | _, _, _ => false
    end in
  Anchor formation anchor_start anchor_end anchor_text conf contradiction.

(** [normalize_yesno]; the result is ["Y"], ["N"] or [""]. *)
Definition normalize_yesno (x : cell) : text :=
  let s := upper (safe_str x) in
  if text_in s (map u ["Y"; "YES"; "1"; "是"; "TRUE"]) then u "Y"
  else if text_in s (map u ["N"; "NO"; "0"; "否"; "FALSE"]) then u "N"
  else [].

Definition get_yesno (r : row) (col : string) : text :=
  normalize_yesno (default (CVal []) (get r col)).

(** [time_anchor_allowed_row]. *)
Definition time_anchor_allowed_row (r : row) : bool :=
  let allowed := upper (get_str r "Time Anchor Allowed") in
  if text_in allowed [u "Y"; u "N"] then text_eqb allowed (u "Y")
  else if text_eqb
            (upper (safe_str (default (CVal (u "Y")) (get r "Time Gate Scope"))))
            (u "N")
  then false
  else negb (text_eqb (get_str r "Type") (u "程序文件")).

Definition validity_column (key : field_kind) : string :=
  match key with
  | F_date => "Date Validity"%string
  | F_amount => "Amount Validity"%string
  | F_party => "Party Validity"%string
  | F_goods => "Goods Validity"%string
  | F_mark_presence => "Mark Presence Validity"%string
  end.

Definition validity_of_text (s : text) : option validity :=
  if text_eqb s (u "VALID") then Some VALID
  else if text_eqb s (u "INVALID") then Some INVALID
  else if text_eqb s (u "N/A") then Some NA
  else None.

Definition is_trade (r : row) : bool :=
  contains (u "交易") (get_str r "Type") || contains (u "合同") (get_str r "Type").

(** [_field_validity]. *)
Definition field_validity (r : row) (key : field_kind) : validity :=
  match validity_of_text (upper (get_str r (validity_column key))) with
  | Some v => v
  | None =>
      match key with
      | F_date =>
          let ti := infer_time_anchor_row r in
          if negb (time_anchor_allowed_row r) then NA
          else
            match anchor_start ti, anchor_end ti with
            | Some _, Some _ =>
                if bool_decide (a_confidence ti ∈ [HIGH; MEDIUM])
                then VALID else INVALID
            | _, _ => INVALID
            end
      | F_goods =>
          if text_in (upper (get_str r "Goods Match Level")) [u "G1"; u "G2"]
          then VALID else INVALID
      | F_mark_presence =>
          let mark_ok := text_eqb (get_yesno r "Mark Shown (Y/N)") (u "Y") in
          let conf := upper (get_str r "Mark Name Confidence") in
          if mark_ok && text_in conf [[]; u "HIGH"; u "MEDIUM"; u "N/A"]
          then VALID else INVALID
      | F_amount | F_party =>
          if negb (is_trade r) then NA
          else
            let src_col :=
              match key with
              | F_amount => "Trade Amount"%string
              | _ => "Trade Counterparty"%string
              end in
            if nonempty (get_str r src_col) then VALID else INVALID
      end
  end.

(** The target codes T1..T6, by their number. *)
Definition T_codes : list Z := [1; 2; 3; 4; 5; 6].
Definition T_name (i : Z) : text := u "T" ++ str_of_Z i.

Definition claimed_targets (r : row) : list Z :=
  filter (fun i => contains (T_name i) (get_str r "Proof Target (T1-T6)") = true)
         T_codes.

(** [_targets_for_scoring]. *)
Definition targets_for_scoring (r : row) : list Z :=
  filter
    (fun i =>
       (if i =? 4 then bool_decide (field_validity r F_date = VALID)
        else if i =? 3 then bool_decide (field_validity r F_goods = VALID)
        else if i =? 2 then bool_decide (field_validity r F_mark_presence = VALID)
        else if i =? 6 then
          bool_decide (field_validity r F_amount = VALID)
          && bool_decide (field_validity r F_party = VALID)
        else true) = true)
    (claimed_targets r).
End Parsing.

(** *** Diagnostics *)

(** The counters of [build_defense_diagnostics]; the two coverage dictionaries
    hold one count per target T1..T6. *)
Record tally := Tally {
  eligible_time_rows : Z;
  in_period_reference : Z;
  program_in_period : Z;
  contradictions : Z;
  unknown_time : Z;
  in_period_highmed : Z;
  in_period_low : Z;
  out_period : Z;
  goods_nonempty_total : Z;
  goods_nonempty_allowed : Z;
  goods_matched_total : Z;
  goods_matched_allowed : Z;
  mark_yes_total : Z;
  mark_yes_allowed : Z;
  subject_yes_total : Z;
  subject_yes_allowed : Z;
  loop_yes_total : Z;
  loop_yes_allowed : Z;
  verifiable_yes_total : Z;
  verifiable_yes_allowed : Z;
  t_coverage_total : list Z;
  t_coverage_allowed : list Z
}.

Definition tally_zero : tally :=
  Tally 0 0 0 0 0 0 0 0 0 0 0 0 0 0 0 0 0 0 0 0
        (map (fun _ => 0) T_codes) (map (fun _ => 0) T_codes).

Definition tally_add (a b : tally) : tally :=
  Tally (eligible_time_rows a + eligible_time_rows b)
        (in_period_reference a + in_period_reference b)
        (program_in_period a + program_in_period b)
        (contradictions a + contradictions b)
        (unknown_time a + unknown_time b)
        (in_period_highmed a + in_period_highmed b)
        (in_period_low a + in_period_low b)
        (out_period a + out_period b)
        (goods_nonempty_total a + goods_nonempty_total b)
        (goods_nonempty_allowed a + goods_nonempty_allowed b)
        (goods_matched_total a + goods_matched_total b)
        (goods_matched_allowed a + goods_matched_allowed b)
        (mark_yes_total a + mark_yes_total b)
        (mark_yes_allowed a + mark_yes_allowed b)
        (subject_yes_total a + subject_yes_total b)
        (subject_yes_allowed a + subject_yes_allowed b)
        (loop_yes_total a + loop_yes_total b)
        (loop_yes_allowed a + loop_yes_allowed b)
        (verifiable_yes_total a + verifiable_yes_total b)
        (verifiable_yes_allowed a + verifiable_yes_allowed b)
        (zip_with Z.add (t_coverage_total a) (t_coverage_total b))
        (zip_with Z.add (t_coverage_allowed a) (t_coverage_allowed b)).

(** A row of the evidence table, without its display-only columns. *)
Record ev_row := EvRow {
  ev_id : text;
  ev_anchor : text;
  ev_in_period : text;
  ev_confidence : confidence;
  ev_allowed : bool;
  ev_targets : list Z;
  ev_score_targets : list Z
}.

(** [gate_details]: the supporting strings of each gate. *)
Record gates := Gates {
  G1a : list text; G1b : list text; G1c : list text; G1d : list text;
  G2 : list text; G3 : list text; G4 : list text; G5 : list text; G6 : list text
}.

(** [gate_flags]: [bool(v)] of each entry of [gate_details]. *)
Definition flag (sel : gates -> list text) (g : gates) : bool := nonempty (sel g).

Record scores := Scores {
  Time : float; Mapping : float; Loop : float; Verifiability : float
}.

Inductive dimension := DTime | DMapping | DLoop | DVerifiability.

(** The entries of [top_risks], with the numbers their texts show. *)
Inductive risk_item :=
  | RiskG1b | RiskG1c | RiskG1d (n : Z) | RiskG5 | RiskG6 | RiskR1
  | Bottleneck (dim : dimension) (score : float).

(** The rule profile [RUNTIME_RULES]: one dictionary per block; a value read
    with [float(...)] is a float, one read with [int(...)] an integer, and an
    absent key is [None]. *)
Record rules := Rules {
  time_cfg : gmap string float;
  map_cfg : gmap string float;
  loop_cfg : gmap string float;
  weak_loop_proxy_min : option Z;
  ver_cfg : gmap string float;
  anchor_cfg : gmap string float;
  min_in_period_highmed : option Z;
  max_unknown_time : option Z;
  risk_cfg : gmap string float;
  degrade_cfg : gmap string text;
  hard_fail_level : option text
}.

(** [float(cfg.get(key, dflt))]. *)
Definition cfg_get (cfg : gmap string float) (key : string) (dflt : Z) : float :=
  default (float_of_Z dflt) (cfg !! key).

(** The dictionary [build_defense_diagnostics] returns. *)
Record diagnostics := Diagnostics {
  gate_details : gates;
  dim_scores : scores;
  evidence_rows : list ev_row;
  summary : tally;
  top_risks : list risk_item
}.

Definition gate_flags (d : diagnostics) (sel : gates -> list text) : bool :=
  flag sel (gate_details d).

Section Engine.
Variable upper : text -> text.
Variable parse_date_str : text -> option date.
Variable date_matches : text -> list date.
(** [evidence_id_display(eid, seq)]: the label of an evidence id. *)
Variable evidence_id_display : text -> Z -> text.
Variable cfg : rules.

Definition infer := infer_time_anchor_row upper parse_date_str date_matches.
Definition allowed_row := time_anchor_allowed_row upper.
Definition valid (r : row) (k : field_kind) : bool :=
  bool_decide (field_validity upper parse_date_str date_matches r k = VALID).

(** [in_period] of a row. *)
Definition row_in_period (ps pe : option date) (r : row) : bool :=
  let ti := infer r in
  match ps, pe, anchor_start ti, anchor_end ti with
  | Some _, Some _, Some _, Some _ =>
      evidence_in_period (anchor_start ti) (anchor_end ti) ps pe
  | _, _, _, _ => false
  end.

Definition has_anchor (r : row) : bool :=
  match anchor_start (infer r), anchor_end (infer r) with
  | Some _, Some _ => true
  | _, _ => false
  end.

(** What one pass of the loop body adds to the counters. *)
Definition row_tally (ps pe : option date) (r : row) : tally :=
  let ti := infer r in
  let conf := a_confidence ti in
  let allowed := allowed_row r in
  let date_valid := valid r F_date in
  let goods_valid := valid r F_goods in
  let mark_valid := valid r F_mark_presence in
  let amount_valid := valid r F_amount in
  let party_valid := valid r F_party in
  let trade_like := is_trade r in
  let in_period := row_in_period ps pe r in
  let scored := allowed && date_valid in
  let known := allowed && negb (negb date_valid || negb (has_anchor r)) in
  let gm := upper (get_str r "Goods Match Level") in
  let goods_hit := goods_valid && text_in gm [u "G1"; u "G2"] in
  let entity_level := upper (get_str r "Entity Consistency") in
  let subject :=
    text_eqb (get_yesno upper r "Subject Match (Y/N)") (u "Y")
    || text_in entity_level [u "E1"; u "E2"] in
  let loop := text_eqb (get_yesno upper r "Commercial Loop (Y/N)") (u "Y") in
  let verifiable :=
    text_eqb (get_yesno upper r "Original/Verifiable (Y/N)") (u "Y") in
  let targets := get_str r "Proof Target (T1-T6)" in
  let score_targets := targets_for_scoring upper parse_date_str date_matches r in
  Tally
    (one_if scored)
    (one_if (negb scored && in_period))
    (one_if (negb scored && in_period
             && text_eqb (get_str r "Type") (u "程序文件")))
    (one_if (contradiction ti))
    (one_if (allowed && negb known))
    (one_if (known && in_period && bool_decide (conf ∈ [HIGH; MEDIUM])))
    (one_if (known && in_period && negb (bool_decide (conf ∈ [HIGH; MEDIUM]))))
    (one_if (known && negb in_period))
    (one_if (nonempty (get_str r "Goods/Services")))
    (one_if (nonempty (get_str r "Goods/Services") && allowed))
    (one_if goods_hit)
    (one_if (goods_hit && allowed))
    (one_if mark_valid)
    (one_if (mark_valid && allowed))
    (one_if subject)
    (one_if (subject && allowed))
    (one_if loop)
    (one_if (loop && allowed && (negb trade_like || (amount_valid && party_valid))))
    (one_if verifiable)
    (one_if (verifiable && allowed))
    (map (fun i => one_if (contains (T_name i) targets)) T_codes)
    (map (fun i => one_if (contains (T_name i) targets && allowed
                           && bool_decide (i ∈ score_targets))) T_codes).

(** The rows the loop does not skip: those with a non-empty evidence id. *)
Definition has_id (r : row) : bool := nonempty (get_str r "Evidence ID").

Definition counted_rows (rows : list row) : list row :=
  filter (fun r => has_id r = true) rows.

(** The counters after the loop. *)
Definition tally_rows (ps pe : option date) (rows : list row) : tally :=
  foldl (fun acc r => tally_add acc (row_tally ps pe r)) tally_zero
        (counted_rows rows).

(** [eid_disp] of the [k]-th counted row; [seq] starts at 1. *)
Definition eid_disp (k : nat) (r : row) : text :=
  evidence_id_display (get_str r "Evidence ID") (Z.of_nat k + 1).

Definition ev_row_of (ps pe : option date) (k : nat) (r : row) : ev_row :=
  let ti := infer r in
  let in_period := row_in_period ps pe r in
  EvRow (eid_disp k r)
        (range_label (anchor_start ti) (anchor_end ti))
        (if in_period then u "是"
         else match anchor_start ti, anchor_end ti, ps, pe with
              | Some _, Some _, Some _, Some _ => u "否"
              | _, _, _, _ => u "不明"
              end)
        (a_confidence ti) (allowed_row r)
        (claimed_targets r)
        (targets_for_scoring upper parse_date_str date_matches r).

(** The ids appended to [gate_details["G1d"]]: those of the counted rows
    with a contradiction, each numbered by its place among the counted rows. *)
Definition g1d_ids (rows : list row) : list text :=
  map snd
    (filter (fun x => contradiction (infer x.1) = true)
            (zip (counted_rows rows) (imap eid_disp (counted_rows rows)))).

Definition resolved (ps pe : option date) : bool :=
  match ps, pe with Some _, Some _ => true | _, _ => false end.

(** [weak_loop_proxy] and the test shared by gate G5 and the loop penalty. *)
Definition weak_loop_proxy (t : tally) : Z :=
  Z.min (Z.min (Z.min (mark_yes_allowed t) (subject_yes_allowed t))
               (default 0 (t_coverage_allowed t !! 4%nat)))
        (in_period_highmed t).

Definition weak_loop (t : tally) : bool :=
  (loop_yes_allowed t =? 0)
  && (weak_loop_proxy t <? default 6 (weak_loop_proxy_min cfg)).

(** The gate block. *)
Definition gates_of (ps pe : option date) (rows : list row) (t : tally) : gates :=
  let hm := in_period_highmed t in
  let low := in_period_low t in
  Gates
    (if resolved ps pe then []
     else [u "案件信息中的指定期间起止日期缺失或不可解析"])
    (if resolved ps pe then
       (if (hm =? 0) && (low =? 0)
        then [u "无任何证据覆盖指定期间（含范围重叠）"] else [])
       ++ (if (hm =? 0) && (0 <? in_period_reference t)
           then [u "仅B线（程序/管理/参考）材料覆盖期内，不构成实质使用覆盖。"]
           else [])
     else [])
    (if resolved ps pe && negb ((hm =? 0) && (low =? 0))
        && (hm =? 0) && (0 <? low)
     then [u "仅存在低置信度的期内覆盖（截图/自述类高风险）"] else [])
    (g1d_ids rows)
    (if goods_matched_allowed t =? 0
     then [u "A线实质使用证据均未命中核定商品/服务（G1/G2均为0）"] else [])
    (if mark_yes_allowed t =? 0
     then [u "A线实质使用证据均未能确认商标标识呈现/绑定（商标呈现均非“是”）"] else [])
    (if subject_yes_allowed t =? 0
     then [u "A线实质使用证据均未能确认使用主体一致/授权链（主体一致均非“是”）"] else [])
    (if weak_loop t
     then [u "全案未见交易闭环证据，且替代链条不足（展示+主体+时间+场景未达最低锚定）。"]
     else [])
    (if verifiable_yes_allowed t =? 0
     then [u "全案缺乏可核验来源/原始载体（可核验均非“是”）"] else []).

(** The rows behind the three counters the period gates read: scored rows
    (coverage-allowed, date field VALID) whose anchor overlaps the period,
    with HIGH or MEDIUM confidence, or with another confidence; and rows
    outside the scored lane whose anchor overlaps the period. *)
Definition scored_in_period (ps pe : option date) (r : row) : bool :=
  allowed_row r && valid r F_date && row_in_period ps pe r.

Definition highmed_rows (ps pe : option date) (rows : list row) : list row :=
  filter (fun r => scored_in_period ps pe r
                   && bool_decide (a_confidence (infer r) ∈ [HIGH; MEDIUM]) = true)
         (counted_rows rows).

Definition low_rows (ps pe : option date) (rows : list row) : list row :=
  filter (fun r => scored_in_period ps pe r
                   && negb (bool_decide (a_confidence (infer r) ∈ [HIGH; MEDIUM]))
                   = true)
         (counted_rows rows).

Definition reference_rows (ps pe : option date) (rows : list row) : list row :=
  filter (fun r => negb (allowed_row r && valid r F_date)
                   && row_in_period ps pe r = true)
         (counted_rows rows).

(** The rows G1b counts as the specification words it: coverage-allowed
    rows whose anchor (of confidence HIGH, MEDIUM or LOW, which is every
    confidence an anchor has) lies inside the period. *)
Definition covering_as_specified (ps pe : option date) (rows : list row)
    : list row :=
  filter (fun r =>
            allowed_row r
            && match anchor_start (infer r), anchor_end (infer r), ps, pe with
               | Some a, Some b, Some s, Some e => (s <=? a) && (b <=? e)
               | _, _, _, _ => false
               end = true)
         (counted_rows rows).

Local Notation "x + y" := (PrimFloat.add x y) : float_scope.
Local Notation "x - y" := (PrimFloat.sub x y) : float_scope.
Local Notation "x * y" := (PrimFloat.mul x y) : float_scope.

(** The four dimension scores, before rounding. *)
Definition time_score (ps pe : option date) (t : tally) : float :=
  let time_ev := Z.max 1 (eligible_time_rows t) in
  let s := cfg_get (time_cfg cfg) "base" 40 in
  let s :=
    if resolved ps pe then
      let s := (s + cfg_get (time_cfg cfg) "in_period_highmed" 45
                    * int_div (in_period_highmed t) time_ev)%float in
      let s := (s + cfg_get (time_cfg cfg) "in_period_low" 15
                    * int_div (in_period_low t) time_ev)%float in
      let s := (s - cfg_get (time_cfg cfg) "unknown_penalty" 35
                    * int_div (unknown_time t) time_ev)%float in
      let s := (s - cfg_get (time_cfg cfg) "contradiction_penalty" 20
                    * int_div (contradictions t) time_ev)%float in
      (s - cfg_get (time_cfg cfg) "out_period_penalty" 10
           * int_div (out_period t) time_ev)%float
    else float_of_Z 0 in
  clamp s.

Definition covered_targets (t : tally) : Z :=
  Z.of_nat (length (filter (fun c => 0 < c) (t_coverage_allowed t))).

Definition mapping_score (t : tally) : float :=
  let allowed_ev := Z.max 1 (eligible_time_rows t) in
  let s := (cfg_get (map_cfg cfg) "base" 30
            + cfg_get (map_cfg cfg) "per_target" 10
              * float_of_Z (covered_targets t))%float in
  clamp (s + cfg_get (map_cfg cfg) "goods_ratio_bonus" 20
             * int_div (goods_matched_allowed t) allowed_ev)%float.

Definition loop_score (t : tally) : float :=
  let allowed_ev := Z.max 1 (eligible_time_rows t) in
  let s := (cfg_get (loop_cfg cfg) "base" 45
            + cfg_get (loop_cfg cfg) "loop_ratio_bonus" 30
              * int_div (loop_yes_allowed t) allowed_ev
            + cfg_get (loop_cfg cfg) "mark_ratio_bonus" 15
              * int_div (mark_yes_allowed t) allowed_ev
            + cfg_get (loop_cfg cfg) "subject_ratio_bonus" 10
              * int_div (subject_yes_allowed t) allowed_ev)%float in
  clamp (if weak_loop t
         then (s - cfg_get (loop_cfg cfg) "weak_loop_penalty" 10)%float else s).

Definition verif_score (t : tally) : float :=
  let allowed_ev := Z.max 1 (eligible_time_rows t) in
  let time_ev := Z.max 1 (eligible_time_rows t) in
  clamp (cfg_get (ver_cfg cfg) "base" 25
         + cfg_get (ver_cfg cfg) "verifiable_ratio_bonus" 70
           * int_div (verifiable_yes_allowed t) allowed_ev
         - cfg_get (ver_cfg cfg) "contradiction_penalty" 15
           * int_div (contradictions t) time_ev)%float.

Definition score_of (ds : scores) (d : dimension) : float :=
  match d with
  | DTime => Time ds | DMapping => Mapping ds
  | DLoop => Loop ds | DVerifiability => Verifiability ds
  end.

(** [min(dim_scores, key=lambda k: dim_scores[k])]: the first dimension, in
    the order of the dictionary, with the least score. *)
Definition bottleneck (ds : scores) : dimension :=
  foldl (fun best d =>
           if PrimFloat.ltb (score_of ds d) (score_of ds best) then d else best)
        DTime [DMapping; DLoop; DVerifiability].

Definition top_risks_of (g : gates) (t : tally) (ds : scores) : list risk_item :=
  let items :=
    (if flag G1b g then [RiskG1b] else [])
    ++ (if flag G1c g then [RiskG1c] else [])
    ++ (if 0 <? contradictions t then [RiskG1d (contradictions t)] else [])
    ++ (if flag G5 g then [RiskG5] else [])
    ++ (if flag G6 g then [RiskG6] else [])
    ++ (if (in_period_highmed t =? 0) && (0 <? program_in_period t)
        then [RiskR1] else []) in
  match items with
  | [] => [Bottleneck (bottleneck ds) (score_of ds (bottleneck ds))]
  | _ => items
  end.

(** [build_defense_diagnostics]. *)
Definition build_defense_diagnostics
    (df_def : list row) (period_start period_end : option date) : diagnostics :=
  let t := tally_rows period_start period_end df_def in
  let g := gates_of period_start period_end df_def t in
  let ds := Scores (round1 (time_score period_start period_end t))
                   (round1 (mapping_score t))
                   (round1 (loop_score t))
                   (round1 (verif_score t)) in
  Diagnostics g ds
    (imap (ev_row_of period_start period_end) (counted_rows df_def))
    t (top_risks_of g t ds).

(** [meets_anchor_minimum]. *)
Definition meets_anchor_minimum (d : diagnostics) : bool :=
  let s := summary d in
  let ds := dim_scores d in
  PrimFloat.leb (cfg_get (anchor_cfg cfg) "min_time_score" 45) (Time ds)
  && PrimFloat.leb (cfg_get (anchor_cfg cfg) "min_mapping_score" 85) (Mapping ds)
  && PrimFloat.leb (cfg_get (anchor_cfg cfg) "min_loop_score" 45) (Loop ds)
  && PrimFloat.leb (cfg_get (anchor_cfg cfg) "min_verif_score" 85) (Verifiability ds)
  && (default 8 (min_in_period_highmed cfg) <=? in_period_highmed s)
  && (unknown_time s <=? default 8 (max_unknown_time cfg)).

Definition degrade (key : string) (dflt : string) : text :=
  default (u dflt) (degrade_cfg cfg !! key).

(** [risk_level_from_case]. *)
Definition risk_level_from_case (d : diagnostics) : text :=
  let gf := gate_flags d in
  let ds := dim_scores d in
  let anchor_ok := meets_anchor_minimum d in
  let hard_fail := default (u "E") (hard_fail_level cfg) in
  if gf G1a || gf G1b then hard_fail
  else if gf G2 || gf G3 || gf G4 then hard_fail
  else if gf G5 && gf G6 then
    (if anchor_ok then degrade "both_g5_g6_if_anchor_ok" "C"
     else degrade "both_g5_g6_if_anchor_not_ok" "D")
  else if gf G5 || gf G6 then
    (if anchor_ok then degrade "one_of_g5_g6_if_anchor_ok" "B"
     else degrade "one_of_g5_g6_if_anchor_not_ok" "C")
  else
    let avg :=
      PrimFloat.div (Time ds + Mapping ds + Loop ds + Verifiability ds)%float
                    (float_of_Z 4) in
    let least := score_of ds (bottleneck ds) in
    if PrimFloat.leb (cfg_get (risk_cfg cfg) "avg_A_min" 85) avg
       && PrimFloat.leb (cfg_get (risk_cfg cfg) "min_dim_A_min" 75) least
    then u "A"
    else if PrimFloat.leb (cfg_get (risk_cfg cfg) "avg_B_min" 68) avg then u "B"
    else if PrimFloat.leb (cfg_get (risk_cfg cfg) "avg_C_min" 55) avg then u "C"
    else u "D".
End Engine.

(** The built-in profile: every block empty, so that every read falls back to
    the default written at its place of use. *)
Definition default_rules : rules :=
  Rules ∅ ∅ ∅ None ∅ ∅ None None ∅ ∅ None.

End Risk.

(** ** Rows with blank timestamps ([generate_suite_v2.py]) *)

(** [pandas] fills the blank cell of a datetime column with [NaT].  [NaT] is
    an instance of [datetime] and is not a float, so the guard of
    [_to_date_obj] and of [safe_str] lets it through; it is truthy, its
    [date()] and its [isoformat()] are [NaT] and ["NaT"], it is neither below
    nor equal to itself, and ordering it against a [datetime.date] raises
    [TypeError].  This module reads the functions of the time anchor on rows
    that may hold such cells; on the rows of [Risk.row] it agrees with
    [Risk]. *)
Module NaTRows.

(** A cell of a row: [NaT], or one of the cells of [Risk.cell]. *)
Inductive cell :=
  | CNaT
  | Cell (c : Risk.cell).

Abbreviation row := (gmap string cell).

(** What [_to_date_obj] returns when it does not return [None]. *)
Inductive stamp :=
  | Day (d : date)
  | NaT.

#[global] Instance stamp_eq_dec : EqDecision stamp.
Proof. solve_decision. Defined.

(** A call that returns, or raises [TypeError]. *)
Inductive outcome (A : Type) :=
  | Returned (a : A)
  | TypeError.
Arguments Returned {A} a.
Arguments TypeError {A}.

Definition bind {A B} (m : outcome A) (f : A -> outcome B) : outcome B :=
  match m with
  | Returned a => f a
  | TypeError => TypeError
  end.

Notation "'do' x <- m ; f" := (bind m (fun x => f))
  (at level 10, x name, m at level 100, f at level 200).

(** [a < b], [a <= b] and [a > b]. *)
Definition lt (a b : stamp) : outcome bool :=
  match a, b with
  | Day x, Day y => Returned (x <? y)
  | NaT, NaT => Returned false
  | _, _ => TypeError
  end.

Definition le (a b : stamp) : outcome bool :=
  match a, b with
  | Day x, Day y => Returned (x <=? y)
  | NaT, NaT => Returned false
  | _, _ => TypeError
  end.

Definition gt (a b : stamp) : outcome bool := lt b a.

(** [min(a, b)] and [max(a, b)]: the second argument is returned when it is
    below, respectively above, the first. *)
Definition min (a b : stamp) : outcome stamp :=
  do c <- lt b a; Returned (if c then b else a).

Definition max (a b : stamp) : outcome stamp :=
  do c <- gt b a; Returned (if c then b else a).

(** [d.isoformat()]. *)
Definition isoformat (d : stamp) : text :=
  match d with
  | Day x => Date.isoformat x
  | NaT => u "NaT"
  end.

(** [safe_str]. *)
Definition safe_str (x : cell) : text :=
  match x with
  | CNaT => u "NaT"
  | Cell c => Risk.safe_str c
  end.

Definition get (r : row) (col : string) : option cell := r !! col.

Definition get_str (r : row) (col : string) : text :=
  safe_str (default (Cell (Risk.CVal [])) (get r col)).

(** [range_label] on two dates that are both present; [d1 == d2] is false
    when one of them is [NaT]. *)
Definition range_label (d1 d2 : stamp) : text :=
  match d1, d2 with
  | Day a, Day b =>
      if a =? b then Date.isoformat a
      else Date.isoformat a ++ u " ~ " ++ Date.isoformat b
  | _, _ => isoformat d1 ++ u " ~ " ++ isoformat d2
  end.

(** [abs((f - x).days) > 30]; the [days] of a difference with [NaT] is nan,
    which is above no number.  A date and [NaT] never come here: the
    comparison before the difference raises. *)
Definition far (f x : stamp) : bool :=
  match f, x with
  | Day a, Day b => 30 <? Z.abs (a - b)
  | _, _ => false
  end.

(** The result of [infer_time_anchor_row]. *)
Record anchor := Anchor {
  formation_date : option stamp;
  anchor_start : option stamp;
  anchor_end : option stamp;
  anchor_text : text;
  a_confidence : confidence;
  contradiction : bool
}.

(** The anchor of [Risk], with its dates as stamps. *)
Definition of_anchor (a : Risk.anchor) : anchor :=
  Anchor (Day <$> Risk.formation_date a) (Day <$> Risk.anchor_start a)
         (Day <$> Risk.anchor_end a) (Risk.anchor_text a)
         (Risk.a_confidence a) (Risk.contradiction a).

Section Parsing.
Variable upper : text -> text.
Variable parse_date_str : text -> option date.
Variable date_matches : text -> list date.

(** [_to_date_obj]: [NaT] leaves through the [datetime] branch, as
    [x.date()]. *)
Definition to_date_obj (x : cell) : option stamp :=
  match x with
  | CNaT => Some NaT
  | Cell c => Day <$> Risk.to_date_obj parse_date_str c
  end.

(** [infer_time_anchor_row]. *)
Definition infer_time_anchor_row (r : row) : outcome anchor :=
  let c_start :=
    match get r "Evidence Date Start" with
    | Some c => c
    | None => default (Cell Risk.CNone) (get r "Date Start")
    end in
  let c_end :=
    match get r "Evidence Date End" with
    | Some c => c
    | None => default (Cell Risk.CNone) (get r "Date End")
    end in
  let c_anchor_text :=
    or_else (get_str r "Time Anchor Text")
      (or_else (get_str r "Content Summary") (get_str r "Evidence Name")) in
  let d_start := to_date_obj c_start in
  let d_end := to_date_obj c_end in
  let formation :=
    to_date_obj (default (Cell Risk.CNone) (get r "Formation Date")) in
  let confidence := Risk.conf_of_text (upper (get_str r "Date Confidence")) in
  let label := get_str r "Time Anchor Text" in
  do chosen <-
    match d_start, d_end with
    | Some s, Some e =>
        do a <- min s e;
        do b <- max s e;
        Returned
          (Some a, Some b, default HIGH confidence,
           or_else label (u "EXPLICIT_RANGE(" ++ range_label a b ++ u ")"))
    | _, _ =>
        match formation with
        | Some f =>
            Returned
              (Some f, Some f, default MEDIUM confidence,
               or_else label (u "FORMATION_DATE(" ++ isoformat f ++ u ")"))
        | None =>
            let '(p_start, p_end) :=
              Risk.parse_range_from_text parse_date_str date_matches
                c_anchor_text in
            match p_start, p_end with
            | Some _, Some _ =>
                Returned
                  (Day <$> p_start, Day <$> p_end, default MEDIUM confidence,
                   or_else label
                     (u "PARSED_TEXT(" ++ Risk.range_label p_start p_end
                      ++ u ")"))
            | _, _ =>
                Returned
                  (Day <$> p_start, Day <$> p_end, default LOW confidence,
                   or_else label (u "NO_TIME_ANCHOR"))
            end
        end
    end;
  let '(anchor_start, anchor_end, conf, anchor_text) := chosen in
  do contradiction <-
    match formation, anchor_start, anchor_end with
    | Some f, Some a, Some b =>
        do c1 <- le a f;
        do c2 <- (if c1 then le f b else Returned false);
        Returned (negb (c1 && c2) && far f a && far f b)
    | _, _, _ => Returned false
    end;
  Returned (Anchor formation anchor_start anchor_end anchor_text conf
              contradiction).

(** The anchors that the row loop of [build_defense_diagnostics] asks for:
    one call of [infer_time_anchor_row] for each row with an evidence id, in
    the order of the rows.  The loop has no handler, so an exception of one
    of these calls leaves [build_defense_diagnostics]. *)
Fixpoint counted_anchors (rows : list row) : outcome (list anchor) :=
  match rows with
  | [] => Returned []
  | r :: rest =>
      if nonempty (get_str r "Evidence ID") then
        do ti <- infer_time_anchor_row r;
        do tis <- counted_anchors rest;
        Returned (ti :: tis)
      else counted_anchors rest
  end.
End Parsing.

End NaTRows.

(** ** Adaptive scan controller ([auto_recognize_and_generate.py]) *)

Module Controller.

Definition ROUND_SIGNAL_KEYWORDS : list text :=
  map u ["商标"; "商品"; "服务"; "店铺"; "详情"; "评价"; "订单"; "支付"; "物流";
         "发票"; "合同"; "营业执照"; "主体"; "公告"; "注册号"; "程序"; "通知书"].

Definition MIX_DEEP_SCAN_KEYWORDS : list text :=
  map u ["合同"; "协议"; "发票"; "票据"; "订单"; "下单"; "支付"; "收款"; "转账";
         "物流"; "运单"; "签收"; "评价"; "评论"; "追评"; "后台"; "对账"; "结算"].

(** [_merge_scan_text]. *)
Definition merge_scan_text (old_text new_text : text) : text :=
  let old := strip old_text in
  let new := strip new_text in
  if negb (nonempty old) then new
  else if negb (nonempty new) then old
  else if contains new old then old
  else old ++ [10%N] ++ new.

(** [re.findall(r"[\u4e00-\u9fa5A-Za-z0-9]{2,8}", s)]: greedy runs of two to
    eight word characters, from the left; [skip] counts the characters of the
    current token still to be passed. *)
Fixpoint word_tokens (skip : nat) (s : text) : list text :=
  match s with
  | [] => []
  | c :: r =>
      match skip with
      | S k => word_tokens k r
      | O =>
          let n := Normalizer.run is_word 8 s in
          if bool_decide (2 <= n)%nat then take n s :: word_tokens (n - 1) r
          else word_tokens 0 r
      end
  end.

(** [list(dict.fromkeys(xs))]: the first occurrence of each element is kept. *)
Fixpoint unique_from (seen : list text) (xs : list text) : list text :=
  match xs with
  | [] => []
  | x :: r =>
      if bool_decide (x ∈ seen) then unique_from seen r
      else x :: unique_from (x :: seen) r
  end.

Definition merge_unique_targets (base boost : list text) : list text :=
  unique_from [] (base ++ boost).

(** [_rescan_priority]. *)
Definition rescan_priority (p : text) : Z :=
  let name := path_name p in
  if any_in (map u ["通知书"; "商标档案"; "合同"; "发票"; "dzfp"; "订单"; "转账";
                    "银行"; "企业详情"; "商品详情"]) name then 0
  else if any_in (map u ["宣传手册"; "展会"; "店铺"; "商品"; "平台"]) name then 1
  else if contains (u "微信图片") name then 2
  else 1.

(** [merge_case_info]. *)
Definition merge_case_info (primary backup : gmap string text) : gmap string text :=
  merge (fun a b =>
           match a, b with
           | Some x, Some y => if negb (nonempty x) && nonempty y then Some y else Some x
           | Some x, None => Some x
           | None, Some y => if nonempty y then Some y else None
           | None, None => None
           end) primary backup.

(** [case_info.get(k, "")]. *)
Definition case_get (case_info : gmap string text) (k : string) : text :=
  default [] (case_info !! k).

(** [_missing_case_keys]. *)
Definition missing_case_keys (case_info : gmap string text) : list string :=
  filter (fun k => nonempty (strip (case_get case_info k)) = false)
         ["reg_no"; "class"; "mark_name"; "respondent"; "applicant"]%string.

(** The [detail] text of a round entry, by its shape and the values it shows. *)
Inductive detail :=
  | DetailRound1 (notice_n fact_n : Z) (mark : text)
  | DetailEmpty
  | DetailTriggered (missing : list string) (low_ratio : float)
  | DetailNotTriggered (low_ratio : float).

(** [_round_entry]. *)
Record round_entry := RoundEntry {
  round_no : Z;
  title : text;
  goal : text;
  selected_count : Z;
  max_pages : Z;
  dpi_used : Z;
  round_detail : detail
}.

(** The two dictionaries the scan mutates. *)
Record scan_state := ScanState {
  scan_texts : gmap text text;
  resolved_mode_by_file : gmap text text
}.

(** The text, hints and case fields at the end of a round. *)
Record stage := Stage {
  st : scan_state;
  mark_hint : text;
  goods_hint : text;
  case_info : gmap string text
}.

Section Collaborators.
(** [str.lower] of the runtime. *)
Variable lower : text -> text.
(** [ocr_pdf_pages(p, cache_dir, max_pages, dpi)]: recognized text of a file
    for a page budget and a resolution. *)
Variable ocr_pdf_pages : text -> Z -> Z -> text.
Variable clean_ocr_text : text -> text.
Variable should_upgrade_to_full_by_content : text -> text -> bool.
(** [infer_case_info]: the case fields found in a text. *)
Variable infer_case_info : text -> gmap string text.
Variable extract_dates_advanced : text -> option date -> option date -> list date.
Variable pdf_page_count : text -> Z.

(** [_scan_text_signal_score]. *)
Definition scan_text_signal_score (src mark_hint goods_hint : text) : Z :=
  one_if (120 <=? Z.of_nat (length (normalize_text src)))
  + one_if (any_in ROUND_SIGNAL_KEYWORDS src)
  + one_if (nonempty mark_hint && contains mark_hint src)
  + one_if (nonempty goods_hint
            && any_in (take 8 (word_tokens 0 goods_hint)) src)
  + one_if (nonempty (extract_dates_advanced src None None)).

(** [_pick_rescan_candidates]. *)
Definition pick_rescan_candidates (files : list text) (texts : gmap text text)
    (mark_hint goods_hint : text) (min_score : Z) : list text :=
  filter (fun p => scan_text_signal_score (default [] (texts !! p))
                     mark_hint goods_hint < min_score) files.

(** The key [(priority, signal, len(name))] of [_limit_rescan_targets]; the
    position in the list is the last component, which is how a stable sort
    orders equal keys. *)
Definition rescan_key (texts : gmap text text) (mark_hint goods_hint : text)
    (ip : nat * text) : Z * Z * Z * Z :=
  (rescan_priority ip.2,
   scan_text_signal_score (default [] (texts !! ip.2)) mark_hint goods_hint,
   Z.of_nat (length (path_name ip.2)), Z.of_nat ip.1).

(** [_limit_rescan_targets]. *)
Definition limit_rescan_targets (targets : list text) (texts : gmap text text)
    (mark_hint goods_hint : text) (cap : Z) : list text :=
  if (cap <=? 0) || (Z.of_nat (length targets) <=? cap) then targets
  else
    let key := rescan_key texts mark_hint goods_hint in
    let ordered :=
      map snd (merge_sort (fun a b => Is_true (key_leb (key a) (key b)))
                          (imap (fun i p => (i, p)) targets)) in
    let is_wechat p := contains (u "微信图片") (path_name p) in
    let non_wechat := filter (fun p => is_wechat p = false) ordered in
    let wechat := filter (fun p => is_wechat p = true) ordered in
    if cap <=? Z.of_nat (length non_wechat) then take (Z.to_nat cap) non_wechat
    else non_wechat
         ++ take (Z.to_nat (Z.max 0 (cap - Z.of_nat (length non_wechat)))) wechat.

Section Run.
Variable files : list text.
Variables normal_pages notice_pages dpi notice_dpi : Z.
Variable prefilled_texts : gmap text text.
Variable scan_mode_by_file : gmap text text.

Definition fast_mode : bool :=
  if bool_decide (scan_mode_by_file = ∅)
  then (0 <? normal_pages) && (normal_pages <=? 2)
  else forallb (fun p => text_eqb (default (u "auto") (scan_mode_by_file !! p))
                                  (u "fast")) files.

Definition fact_candidates : list text :=
  filter (fun p => any_in (map u ["商标档案"; "商标信息"; "注册证"; "商标注册"])
                          (path_name p) = true) files.

Definition notice_candidates : list text :=
  let named :=
    filter (fun p => any_in (map u ["通知书"; "撤三"; "决定"; "裁定"])
                            (path_name p) = true) files in
  if nonempty named then named
  else take (Nat.min 3 (length files)) files.

Definition key_notice_or_fact : list text :=
  unique_from [] (notice_candidates ++ fact_candidates).

(** [_read_scan_text]: the text read, and the mode dictionary after it. *)
Definition read_scan_text (resolved : gmap text text) (p : text)
    (max_pages use_dpi : Z) : text * gmap text text :=
  let pre := clean_ocr_text (default [] (prefilled_texts !! p)) in
  if nonempty pre then (pre, resolved)
  else
    let mode :=
      lower (or_else (or_else (default [] (resolved !! p))
                              (default (u "auto") (scan_mode_by_file !! p)))
                     (u "auto")) in
    let mode := if text_eqb mode (u "uncategorized") then u "fast" else mode in
    let mode :=
      if text_eqb mode (u "mix")
      then (if any_in MIX_DEEP_SCAN_KEYWORDS (path_name p)
            then u "full" else u "fast")
      else mode in
    let mode :=
      if text_eqb mode (u "fast") then
        let probe_text :=
          ocr_pdf_pages p (Z.min 2 (if 0 <? max_pages then max_pages else 2))
                        (Z.min use_dpi 260) in
        if should_upgrade_to_full_by_content (path_name p) probe_text
        then u "full" else u "fast"
      else mode in
    let resolved := <[p := mode]> resolved in
    if text_eqb mode (u "fast") then
      let pages := if max_pages <=? 0 then 2 else max_pages in
      (ocr_pdf_pages p (Z.min pages 6) (Z.min use_dpi 340), resolved)
    else if text_eqb mode (u "full") then
      let pages := if max_pages <=? 0 then 16 else max_pages in
      (ocr_pdf_pages p (Z.min pages 24) (Z.max (Z.min use_dpi 360) 320),
       resolved)
    else (ocr_pdf_pages p max_pages use_dpi, resolved).

(** One pass of a round's loop: read [p] and merge the text into
    [scan_texts[p]]. *)
Definition scan_one (pages_of dpi_of : text -> Z) (s : scan_state) (p : text)
    : scan_state :=
  let '(t, resolved) :=
    read_scan_text (resolved_mode_by_file s) p (pages_of p) (dpi_of p) in
  ScanState
    (<[p := merge_scan_text (default [] (scan_texts s !! p)) t]> (scan_texts s))
    resolved.

Definition scan_round (pages_of dpi_of : text -> Z) (s : scan_state)
    (targets : list text) : scan_state :=
  foldl (scan_one pages_of dpi_of) s targets.

(** The case fields merged from the notice texts and from all texts. *)
Definition case_of (s : scan_state) : gmap string text :=
  let text_of p := default [] (scan_texts s !! p) in
  merge_case_info
    (infer_case_info (join [10%N] (map text_of notice_candidates)))
    (infer_case_info (join [10%N] (map text_of files))).

(** A hint is replaced when the new case has a non-blank value for it. *)
Definition refresh (old : text) (c : gmap string text) (k : string) : text :=
  if nonempty (strip (case_get c k)) then case_get c k else old.

(** [_low_signal_count] over [max(1, len(files))]. *)
Definition low_ratio (g : stage) (threshold : Z) : float :=
  int_div
    (Z.of_nat (length (pick_rescan_candidates files (scan_texts (st g))
                         (mark_hint g) (goods_hint g) threshold)))
    (Z.max 1 (Z.of_nat (length files))).

(** The trigger test at the end of a round: a required field is missing,
    or the low-signal ratio reaches the ratio of the mode. *)
Definition trigger_condition (g : stage) (threshold : Z)
    (fast_ratio full_ratio : float) : bool :=
  nonempty (missing_case_keys (case_info g))
  || PrimFloat.leb (if fast_mode then fast_ratio else full_ratio)
                   (low_ratio g threshold).

Definition stage_r1 : stage :=
  let is_notice p := bool_decide (p ∈ notice_candidates) in
  let is_fact p := bool_decide (p ∈ fact_candidates) in
  let s :=
    scan_round
      (fun p => if is_notice p then notice_pages
                else if is_fact p then Z.max 6 notice_pages else 1)
      (fun p => if is_notice p then notice_dpi else Z.max 220 (dpi - 40))
      (ScanState ∅ ∅) files in
  let c := case_of s in
  Stage s (case_get c "mark_name") (case_get c "goods_hint") c.

Definition stage_r2 : stage :=
  let is_fact p := bool_decide (p ∈ fact_candidates) in
  let s :=
    scan_round
      (fun p => if is_fact p && (0 <? normal_pages)
                then Z.max normal_pages 4 else normal_pages)
      (fun _ => dpi) (st stage_r1) files in
  let c := case_of s in
  Stage s (refresh (mark_hint stage_r1) c "mark_name")
          (refresh (goods_hint stage_r1) c "goods_hint") c.

(** The targets of a conditional round. *)
Definition rescan_targets (g : stage) (min_score cap : Z) : list text :=
  let raw := pick_rescan_candidates files (scan_texts (st g))
               (mark_hint g) (goods_hint g) min_score in
  let raw :=
    merge_unique_targets raw
      (if nonempty (missing_case_keys (case_info g))
       then key_notice_or_fact else []) in
  limit_rescan_targets raw (scan_texts (st g)) (mark_hint g) (goods_hint g) cap.

(** The stage after a conditional round with the given targets. *)
Definition rescan (g : stage) (pages_of : text -> Z) (rdpi : Z)
    (targets : list text) : stage :=
  let s := scan_round pages_of (fun _ => rdpi) (st g) targets in
  let c := case_of s in
  Stage s (refresh (mark_hint g) c "mark_name")
          (refresh (goods_hint g) c "goods_hint") c.

Definition trigger_r3 : bool :=
  trigger_condition stage_r2 2 0.55 0.45.

Definition r3_pages : Z :=
  if fast_mode
  then Z.max 3 (if 0 <? normal_pages then normal_pages * 2 else 3)
  else Z.max 6 (if 0 <? normal_pages then normal_pages * 2 else 6).

Definition r3_targets : list text :=
  if trigger_r3 then rescan_targets stage_r2 2 (if fast_mode then 8 else 24)
  else [].

Definition stage_r3 : stage :=
  rescan stage_r2 (fun _ => r3_pages) (Z.max dpi 360) r3_targets.

Definition trigger_r4 : bool :=
  trigger_r3 && trigger_condition stage_r3 3 0.40 0.30.

Definition r4_pages : Z :=
  if fast_mode
  then Z.max 4 (if 0 <? normal_pages then normal_pages * 2 else 4)
  else Z.max 10 (if 0 <? normal_pages then normal_pages * 3 else 10).

Definition r4_targets : list text :=
  if trigger_r4 then rescan_targets stage_r3 3 (if fast_mode then 5 else 12)
  else [].

Definition stage_r4 : stage :=
  rescan stage_r3 (fun _ => r4_pages) (Z.max dpi 390) r4_targets.

Definition trigger_r5 : bool :=
  trigger_r4 && trigger_condition stage_r4 4 0.30 0.22.

Definition r5_targets : list text :=
  if trigger_r5 then rescan_targets stage_r4 4 (if fast_mode then 3 else 6)
  else [].

Definition stage_r5 : stage :=
  let r5_cap_pages := if fast_mode then 4 else 16 in
  rescan stage_r4
    (fun p => let total_pages := pdf_page_count p in
              if negb (total_pages =? 0) && (total_pages <=? r5_cap_pages)
              then 0 else r5_cap_pages)
    (Z.max dpi 420) r5_targets.

Definition conditional_detail (trigger : bool) (g : stage) (threshold : Z)
    : detail :=
  if trigger
  then DetailTriggered (missing_case_keys (case_info g)) (low_ratio g threshold)
  else DetailNotTriggered (low_ratio g threshold).

(** The audit trail [rounds]. *)
Definition rounds : list round_entry :=
  [RoundEntry 1 (u "案情识别轮") (u "识别被撤销商标、被撤销商品/服务及指定期间")
     (Z.of_nat (length files)) notice_pages notice_dpi
     (DetailRound1 (Z.of_nat (length notice_candidates))
                   (Z.of_nat (length fact_candidates))
                   (or_else (mark_hint stage_r1) (u "未识别")));
   RoundEntry 2 (u "证据基线轮") (u "抽取每份证据的基础事实、时间线索与关键词")
     (Z.of_nat (length files)) normal_pages dpi DetailEmpty;
   RoundEntry 3 (u "证据细节轮") (u "对低信息量证据补扫详情页，提升单证据作用识别")
     (Z.of_nat (length r3_targets)) r3_pages (Z.max dpi 360)
     (conditional_detail trigger_r3 stage_r2 2);
   RoundEntry 4 (u "证据深扫轮") (u "对仍未提取充分要素的证据执行深度补扫")
     (Z.of_nat (length r4_targets)) r4_pages (Z.max dpi 390)
     (conditional_detail trigger_r4 stage_r3 3);
   RoundEntry 5 (u "收敛复核轮") (u "执行最终兜底扫描并输出五轮合并结果")
     (Z.of_nat (length r5_targets)) 16 (Z.max dpi 420)
     (conditional_detail trigger_r5 stage_r4 4)].

(** [run_fixed_five_round_scans]. *)
Definition run_fixed_five_round_scans
    : gmap text text * list text * list round_entry * gmap string text :=
  (scan_texts (st stage_r5), notice_candidates, rounds, case_info stage_r1).
End Run.
End Collaborators.

End Controller.

(** ** Duplicate scans ([deduplicate_scanned_files]) *)

Module Files.

(** The four containers the loop fills. *)
Record dedup_state := DedupState {
  unique_files : list text;
  sig_to_canonical : gmap text text;
  dup_map : gmap text (list text);
  sig_map : gmap text text
}.

Section Collaborators.
Variable extract_dates_advanced : text -> option date -> option date -> list date.
Variable pdf_page_count : text -> Z.
Variable sha1_hex : text -> text.
Variable scan_texts : gmap text text.

(** [dedup_signature(p, scan_texts.get(p, ""))]. *)
Definition signature_of (p : text) : text :=
  Dedup.dedup_signature extract_dates_advanced pdf_page_count sha1_hex
    p (default [] (scan_texts !! p)).

(** One turn of the loop over [files]. *)
Definition dedup_step (s : dedup_state) (p : text) : dedup_state :=
  let sig := signature_of p in
  match sig_to_canonical s !! sig with
  | None =>
      DedupState (unique_files s ++ [p])
                 (<[sig := p]> (sig_to_canonical s))
                 (<[p := []]> (dup_map s))
                 (<[p := sig]> (sig_map s))
  | Some can =>
      DedupState (unique_files s)
                 (sig_to_canonical s)
                 (<[can := default [] (dup_map s !! can) ++ [p]]> (dup_map s))
                 (sig_map s)
  end.

Definition dedup_run (files : list text) : dedup_state :=
  foldl dedup_step (DedupState [] ∅ ∅ ∅) files.

(** [deduplicate_scanned_files]. *)
Definition deduplicate_scanned_files (files : list text)
    : list text * gmap text (list text) * gmap text text :=
  let s := dedup_run files in (unique_files s, dup_map s, sig_map s).
End Collaborators.

End Files.

(** ** Conflicts between time channels ([resolve_time_conflicts]) *)

Module Conflicts.
Import Resolver.

(** [channel_weights]. *)
Definition conflict_weight (ch : channel) : Z :=
  match ch with Review => 6 | Order => 5 | Logistics => 5 | Base => 2 end.

(** The dictionaries [weighted] and [used_channels]. *)
Record tallies := Tallies {
  weighted : gmap Z Z;
  used_channels : gmap Z (list channel)
}.

(** One turn of the loop of [add_dates]. *)
Definition add_date (ps pe : option date) (ch : channel) (t : tallies) (d : date)
    : tallies :=
  let w := conflict_weight ch in
  let score :=
    match within ps pe d with
    | Some true => w + 2
    | Some false => w - 1
    | None => w
    end in
  let seen := default [] (used_channels t !! d) in
  Tallies (<[d := default 0 (weighted t !! d) + score]> (weighted t))
          (<[d := if bool_decide (ch ∈ seen) then seen else seen ++ [ch]]>
             (used_channels t)).

Definition add_dates (ps pe : option date) (ds : list date) (ch : channel)
    (t : tallies) : tallies :=
  foldl (add_date ps pe ch) t ds.

(** The dates of [weighted] whose score satisfies a test; the order of the
    dictionary does not matter, every use is under [sorted(set(...))]. *)
Definition dates_where (f : Z -> bool) (w : gmap Z Z) : list date :=
  (filter (fun kv => f kv.2 = true) (map_to_list w)).*1.

Definition inside (s e : date) (d : date) : bool := (s <=? d) && (d <=? e).

(** [resolve_time_conflicts]; the channels of the result are listed as
    [sorted] orders their names (交易, 基础, 物流, 评价). *)
Definition resolve_time_conflicts
    (base_dates review_dates order_dates logistics_dates : list date)
    (ps pe : option date) : list date * text * list channel :=
  let t :=
    add_dates ps pe logistics_dates Logistics
      (add_dates ps pe order_dates Order
         (add_dates ps pe review_dates Review
            (add_dates ps pe base_dates Base (Tallies ∅ ∅)))) in
  if bool_decide (weighted t = ∅) then ([], [], [])
  else
    let high := dates_where (fun s => 5 <=? s) (weighted t) in
    let positive := dates_where (fun s => 0 <? s) (weighted t) in
    let preferred :=
      if nonempty high then high
      else if nonempty positive then positive
      else dates_where (fun _ => true) (weighted t) in
    let preferred := sorted_set preferred in
    let channels_used :=
      concat (map (fun d => default [] (used_channels t !! d)) preferred) in
    let channel_txt :=
      join (u "、")
        (map channel_name
           (filter (fun c => c ∈ channels_used) [Review; Order; Logistics; Base])) in
    let note1 :=
      if nonempty channel_txt then [u "多通道识别命中：" ++ channel_txt] else [] in
    let '(preferred, note2) :=
      match ps, pe with
      | Some s, Some e =>
          let in_period := filter (fun d => inside s e d = true) preferred in
          let out_period := filter (fun d => inside s e d = false) preferred in
          if nonempty in_period && nonempty out_period
          then (in_period, [u "检测到期内/期外冲突，已优先采用期内时点"])
          else (preferred, [])
      | _, _ => (preferred, [])
      end in
    (sorted_set preferred, join (u "；") (note1 ++ note2),
     filter (fun c => c ∈ channels_used) [Order; Base; Logistics; Review]).

End Conflicts.

(** ** Page references ([merge_page_intervals]) *)

Module Pages.

(** The sort key [(x[0], x[1])]. *)
Definition iv_le (a b : Z * Z) : Prop :=
  a.1 < b.1 \/ (a.1 = b.1 /\ a.2 <= b.2).

#[global] Instance iv_le_dec : RelDecision iv_le.
Proof. intros a b. unfold iv_le. apply _. Defined.

(** The loop of [merge_page_intervals] with the interval in hand. *)
Fixpoint merge_from (cur_s cur_e : Z) (rest : list (Z * Z)) : list (Z * Z) :=
  match rest with
  | [] => [(cur_s, cur_e)]
  | (s, e) :: r =>
      if s <=? cur_e + 1 then merge_from cur_s (Z.max cur_e e) r
      else (cur_s, cur_e) :: merge_from s e r
  end.

(** [merge_page_intervals]. *)
Definition merge_page_intervals (intervals : list (Z * Z)) : list (Z * Z) :=
  match merge_sort iv_le
          (map (fun ab => (Z.min ab.1 ab.2, Z.max ab.1 ab.2)) intervals) with
  | [] => []
  | (s, e) :: r => merge_from s e r
  end.

(** A page lies in one of the intervals, read in either order. *)
Definition covers (intervals : list (Z * Z)) (n : Z) : Prop :=
  exists ab, ab ∈ intervals /\ Z.min ab.1 ab.2 <= n <= Z.max ab.1 ab.2.

End Pages.

(** ** Time gate of an evidence file ([should_time_gate_evaluate]) *)

Module Gate.

Definition WEB_VERIFIABILITY_STRONG : list text :=
  map u ["订单号"; "交易单号"; "支付时间"; "付款时间"; "物流单号"; "签收时间";
         "后台导出"].

Definition WEB_VERIFIABILITY_MEDIUM : list text :=
  map u ["评价"; "评论"; "追评"; "店铺名称"; "店铺主体"; "发布时间"; "更新时间"].

(** ["\n".join([text or "", *(key_lines or [])])]. *)
Definition gate_source (text_ : text) (key_lines : list text) : text :=
  join [10%N] (text_ :: key_lines).

(** [sum(1 for k in kws if k in src)]. *)
Definition hits (kws : list text) (src : text) : Z :=
  Z.of_nat (length (filter (fun k => contains k src = true) kws)).

(** [infer_web_verifiability]. *)
Definition infer_web_verifiability (kind text_ : text) (key_lines : list text)
    : text :=
  if negb (text_in kind [u "线上店铺展示"; u "商品展示页"]) then []
  else
    let src := gate_source text_ key_lines in
    let strong := hits WEB_VERIFIABILITY_STRONG src in
    let medium := hits WEB_VERIFIABILITY_MEDIUM src in
    if 2 <=? strong then u "S1"
    else if (1 <=? strong) || (2 <=? medium) then u "S2"
    else u "S3".

(** [should_time_gate_evaluate]. *)
Definition should_time_gate_evaluate (kind text_ : text)
    (time_channels key_lines : list text) (anchor_type web_verifiability : text)
    : bool :=
  let src := gate_source text_ key_lines in
  if text_eqb kind (u "程序文件") then false
  else if text_eqb kind (u "交易凭证") then true
  else if text_eqb kind (u "线上店铺展示") then
    if text_eqb web_verifiability (u "S1") then true
    else if existsb (fun ch => text_in ch [u "评价"; u "交易"; u "物流"]) time_channels
    then true
    else if any_in WEB_VERIFIABILITY_STRONG src then true
    else if text_eqb web_verifiability (u "S2")
            && text_in anchor_type [u "system_generated"; u "transaction_date"]
    then true
    else false
  else if text_eqb kind (u "商品展示页") then
    text_eqb anchor_type (u "transaction_date")
  else false.

Inductive name_confidence := NameUnknown | NameHigh | NameMedium | NameLow.

(** [mark_name_confidence]. *)
Definition mark_name_confidence (mark_name text_ filename : text)
    (key_lines : list text) (mark_shown_flag : text) : name_confidence :=
  if negb (nonempty mark_name) || contains (u "待补") mark_name then NameUnknown
  else
    let src := join [10%N] (filename :: take (Z.to_nat 8000) text_ :: key_lines) in
    let src_norm := normalize_text src in
    let mk_norm := normalize_text mark_name in
    if contains mark_name src || (nonempty mk_norm && contains mk_norm src_norm)
    then NameHigh
    else
      let prefix2 := take 2 mark_name in
      let prefix3 :=
        if (3 <=? Z.of_nat (length mark_name)) then take 3 mark_name
        else mark_name in
      if (nonempty prefix3 && contains prefix3 src)
         || (nonempty prefix2 && contains prefix2 src)
      then (if text_eqb mark_shown_flag (u "Y") then NameMedium else NameLow)
      else if text_eqb mark_shown_flag (u "Y") then NameMedium
      else NameLow.

End Gate.

(** ** Period segments ([get_period_segments]) *)

Module Segments.

(** [datetime.date.max.toordinal()]: 31 December 9999. *)
Definition MAXORDINAL : Z := 3652059.

(** [datetime.date(y, m, d)] accepts the month and the day. *)
Definition valid_month_day (y m d : Z) : bool :=
  (1 <=? m) && (m <=? 12) && (1 <=? d) && (d <=? days_in_month y m).

(** [datetime.date(y, m, d)] does not raise. *)
Definition valid_date (y m d : Z) : bool :=
  (1 <=? y) && (y <=? 9999) && valid_month_day y m d.

(** [d + datetime.timedelta(days=n)]: [None] is the [OverflowError]. *)
Definition add_days (d : date) (n : Z) : option date :=
  if (1 <=? d + n) && (d + n <=? MAXORDINAL) then Some (d + n) else None.

(** [add_year_safe]: [None] is the [ValueError] that leaves the function. *)
Definition add_year_safe (d : date) (years : Z) : option date :=
  let '(y, m, dd) := ord2ymd d in
  if valid_date (y + years) m dd then Some (ymd (y + years) m dd)
  else if (m =? 2) && (dd =? 29) then
    (if valid_date (y + years) 2 28 then Some (ymd (y + years) 2 28) else None)
  else None.

Inductive seg_label := P1 | P2 | P3.

Record segment := Segment {
  seg_name : seg_label;
  seg_start : date;
  seg_end : date
}.

(** [get_period_segments]; [None] is an exception of the date arithmetic. *)
Definition get_period_segments (period_start period_end : option date)
    : option (list segment) :=
  match period_start, period_end with
  | Some s, Some e =>
      if e <? s then Some []
      else
        a1 ← add_year_safe s 1;
        b1 ← add_days a1 (-1);
        let p1e := Z.min b1 e in
        p2s ← add_days p1e 1;
        p2e ← (if p2s <=? e
               then a2 ← add_year_safe p2s 1;
                    b2 ← add_days a2 (-1);
                    Some (Z.min b2 e)
               else Some e);
        p3s ← add_days p2e 1;
        Some ([Segment P1 s p1e]
              ++ (if p2s <=? e then [Segment P2 p2s p2e] else [])
              ++ (if p3s <=? e then [Segment P3 p3s e] else []))
  | _, _ => Some []
  end.

End Segments.

(** ** Year of a date written without one ([infer_year_for_month_day]) *)

Module Years.
Import Segments.

Inductive inferred := Year (y : Z) | NoYear | Overflow.

(** [d.year]. *)
Definition year_of (d : date) : Z := (ord2ymd d).1.1.

Definition between (s e d : date) : bool := (s <=? d) && (d <=? e).

Section Today.
(** [datetime.date.today().year]. *)
Variable today_year : Z.

(** [infer_year_for_month_day]; [Overflow] is the [OverflowError] of the
    date arithmetic in the test for a near date, which the function does not
    catch. *)
Definition infer_year_for_month_day (month day : Z) (ps pe : option date)
    : inferred :=
  if (month <? 1) || (12 <? month) || (day <? 1) || (31 <? day) then NoYear
  else
    match ps, pe with
    | Some s, Some e =>
        if s <=? e then
          let years := seqZ (year_of s - 1) (year_of e + 2 - (year_of s - 1)) in
          let dates :=
            map (fun y => ymd y month day)
                (filter (fun y => valid_date y month day = true) years) in
          let in_period := filter (fun d => between s e d = true) dates in
          let rest := filter (fun d => between s e d = false) dates in
          if existsb (fun d => (s - 365 <? 1)
                               || ((s - 365 <=? d) && (MAXORDINAL <? e + 365)))
                     rest
          then Overflow
          else
            let near_period :=
              filter (fun d => between (s - 365) (e + 365) d = true) rest in
            match last (merge_sort Z.le in_period),
                  last (merge_sort Z.le near_period) with
            | Some d, _ => Year (year_of d)
            | None, Some d => Year (year_of d)
            | None, None => Year today_year
            end
        else Year today_year
    | _, _ => Year today_year
    end.
End Today.

End Years.

(** ** Submission verdict ([generate_suite_v2.py]) *)

Module Verdict.
Import Risk.

Inductive verdict := PASS | WARN | FAIL.

(** [_derive_submission_verdict]: the verdict and its sentence. *)
Definition derive_submission_verdict (d : diagnostics) : verdict * text :=
  let gf := gate_flags d in
  let sm := summary d in
  let in_highmed := in_period_highmed sm in
  let goods_matched := goods_matched_allowed sm in
  if (0 <? in_highmed) && (0 <? goods_matched)
     && negb (gf G1a || gf G1b || gf G2 || gf G3 || gf G4)
  then (PASS, u "综合现有材料，已形成围绕指定期间的要件对应证明结构，具备提交基础。")
  else if 0 <? in_highmed
  then (WARN, u "现有材料具备提交条件，但仍存在薄弱环节，建议按风险报告补强后提交。")
  else (FAIL, u "当前仅形成证据目录与核对台账，尚不满足“指定期间实质使用”结论输出条件。").

End Verdict.

(** ** Concrete casebook rows *)

Module Scenarios.
Import Risk.

(** A parser that recognises no date in free text: the rows below carry their
    dates as date cells. *)
Definition no_parse (s : text) : option date := None.
Definition no_matches (s : text) : list date := [].
Definition plain_id (eid : text) (seq : Z) : text := eid.

(** A row with an explicit range inside the period and the confidence LOW. *)
Definition row_low : row :=
  list_to_map
    [("Evidence ID"%string, CVal (u "E1"));
     ("Evidence Date Start"%string, CDate (ymd 2023 1 1) (u "2023-01-01"));
     ("Evidence Date End"%string, CDate (ymd 2023 1 31) (u "2023-01-31"));
     ("Date Confidence"%string, CVal (u "LOW"))].


(** A row that shows the mark and has no mark-name confidence. *)
Definition row_mark : row :=
  list_to_map
    [("Evidence ID"%string, CVal (u "E3"));
     ("Mark Shown (Y/N)"%string, CVal (u "Y"))].

(** A row whose formation date lies five months after its explicit range. *)
Definition row_contradiction : row :=
  list_to_map
    [("Evidence ID"%string, CVal (u "E4"));
     ("Evidence Date Start"%string, CDate (ymd 2023 1 1) (u "2023-01-01"));
     ("Evidence Date End"%string, CDate (ymd 2023 1 31) (u "2023-01-31"));
     ("Formation Date"%string, CDate (ymd 2023 6 30) (u "2023-06-30"))].

(** A row without an evidence id. *)
Definition row_no_id : row :=
  list_to_map
    [("Evidence Name"%string, CVal (u "销售合同"));
     ("Mark Shown (Y/N)"%string, CVal (u "Y"))].

(** A row of the opponent sheet whose two date cells are blank cells of
    datetime columns. *)
Definition row_blank_range : NaTRows.row :=
  list_to_map
    [("Evidence ID"%string, NaTRows.Cell (CVal (u "O1")));
     ("Evidence Date Start"%string, NaTRows.CNaT);
     ("Evidence Date End"%string, NaTRows.CNaT)].

(** A row whose range has a start date and a blank end. *)
Definition row_blank_end : NaTRows.row :=
  list_to_map
    [("Evidence ID"%string, NaTRows.Cell (CVal (u "E5")));
     ("Evidence Date Start"%string,
      NaTRows.Cell (CDate (ymd 2023 3 1) (u "2023-03-01 00:00:00")));
     ("Evidence Date End"%string, NaTRows.CNaT)].

Definition period_2022_2024 : option date * option date :=
  (Some (ymd 2022 1 1), Some (ymd 2024 12 31)).

(** A trade row with an explicit range inside the period, the mark shown,
    the subject matched, a commercial loop, a verifiable source, matched
    goods, an amount and a counterparty, claiming the six targets. *)
Definition row_best : row :=
  list_to_map
    [("Evidence ID"%string, CVal (u "E9"));
     ("Type"%string, CVal (u "交易凭证"));
     ("Evidence Date Start"%string, CDate (ymd 2023 1 1) (u "2023-01-01"));
     ("Evidence Date End"%string, CDate (ymd 2023 1 31) (u "2023-01-31"));
     ("Mark Shown (Y/N)"%string, CVal (u "Y"));
     ("Subject Match (Y/N)"%string, CVal (u "Y"));
     ("Commercial Loop (Y/N)"%string, CVal (u "Y"));
     ("Original/Verifiable (Y/N)"%string, CVal (u "Y"));
     ("Goods/Services"%string, CVal (u "服装"));
     ("Goods Match Level"%string, CVal (u "G1"));
     ("Trade Amount"%string, CVal (u "1200.00"));
     ("Trade Counterparty"%string, CVal (u "乙有限公司"));
     ("Proof Target (T1-T6)"%string, CVal (u "T1,T2,T3,T4,T5,T6"))].

(** A three-file case for the scan controller: a notice whose text yields
    every required case field, and two chat images whose text shows the mark
    and one date and nothing else (signal score 2). *)
Definition notice_pdf : text := u "撤三通知书.pdf".
Definition image1_pdf : text := u "微信图片_1.pdf".
Definition image2_pdf : text := u "微信图片_2.pdf".
Definition case_files : list text := [notice_pdf; image1_pdf; image2_pdf].




Definition case_dates (t : text) (ps pe : option date) : list date :=
  (if contains (u "2020年1月1日") t then [ymd 2020 1 1] else [])
  ++ (if contains (u "2022年12月31日") t then [ymd 2022 12 31] else [])
  ++ (if contains (u "2023-05-01") t then [ymd 2023 5 1] else []).






End Scenarios.

(** * Properties *)

(** ** General facts on lists *)

Lemma filter_ext_elem {A} (P Q : A -> Prop)
    `{!forall x, Decision (P x), !forall x, Decision (Q x)} (l : list A) :
  (forall x, x ∈ l -> (P x <-> Q x)) -> filter P l = filter Q l.
Proof.
  induction l as [|a l IH]; intros HPQ; [done|].
  assert (Hl : forall x, x ∈ l -> (P x <-> Q x)).
  { intros x Hx. apply HPQ. by right. }
  specialize (HPQ a (list_elem_of_here a l)).
  destruct (decide (P a)) as [Ha|Ha].
  - rewrite !filter_cons_True by tauto. by rewrite IH.
  - rewrite !filter_cons_False by tauto. by rewrite IH.
Qed.

Lemma existsb_elem {A} (f : A -> bool) (l : list A) :
  existsb f l = true <-> exists x, x ∈ l /\ f x = true.
Proof.
  rewrite existsb_exists. split; intros (x & H1 & H2); exists x; split; auto;
    by apply list_elem_of_In.
Qed.

Lemma nonempty_true {A} (l : list A) : nonempty l = true <-> l <> [].
Proof. by destruct l. Qed.

Lemma nonempty_false {A} (l : list A) : nonempty l = false <-> l = [].
Proof. by destruct l. Qed.

Lemma filter_split_length {A} (f : A -> bool) (l : list A) :
  (length (filter (fun x => f x = false) l)
   + length (filter (fun x => f x = true) l) = length l)%nat.
Proof.
  induction l as [|x l IH]; [done|].
  rewrite !filter_cons.
  destruct (f x) eqn:E; repeat case_decide; simplify_eq; simpl; lia.
Qed.

Lemma nonempty_filter_existsb {A} (f : A -> bool) (l : list A) :
  nonempty (filter (fun c => f c = true) l) = existsb f l.
Proof.
  induction l as [|a l IH]; [done|].
  simpl. destruct (f a) eqn:E.
  - by rewrite filter_cons_True.
  - by rewrite filter_cons_False; [|congruence].
Qed.

(** ** The time-anchor resolver *)

Section ResolverProps.
Import Resolver.

(** C2 (as the code has it). The derived confidence is HIGH exactly when
    there are two dates or more, or at least one date with a scene channel
    (评价, 交易, 物流) and no metadata fallback; MEDIUM exactly when there is
    one date, the HIGH case does not apply, and review dates exist or the
    date is not metadata-derived; LOW exactly when there is no date, or one
    metadata-derived date without review dates. *)
Theorem confidence_from_dates_characterised
    (dates : list date) (mark_time_lines : list text)
    (review_dates : list date) (meta_used : bool) (time_channels : list text) :
  let n := Z.of_nat (length dates) in
  let scene :=
    existsb (fun ch => text_in ch [u "评价"; u "交易"; u "物流"]) time_channels in
  let c := confidence_from_dates dates mark_time_lines review_dates
             meta_used time_channels in
  (c = HIGH <-> 2 <= n \/ (1 <= n /\ scene = true /\ meta_used = false))
  /\ (c = MEDIUM <->
        n = 1 /\ (scene = false \/ meta_used = true)
        /\ (review_dates <> [] \/ meta_used = false))
  /\ (c = LOW <-> n = 0 \/ (n = 1 /\ meta_used = true /\ review_dates = [])).
Proof.
  intros n scene c. subst c. unfold confidence_from_dates.
  fold scene. fold n.
  assert (Hn : 0 <= n) by (subst n; lia).
  destruct (Z.leb_spec 1 n), (Z.leb_spec 2 n), (Z.eqb_spec n 1);
    destruct scene, meta_used, review_dates, mark_time_lines; simpl;
    repeat split; intros; try discriminate; try lia; try tauto;
    try (intuition (first [lia | congruence])).
Qed.

(** C2 (as the specification words it) fails: one metadata-derived date
    with no scene channel and no review date is LOW in the code, MEDIUM in
    the specification; one plain date that is neither scene-backed nor
    metadata-derived is MEDIUM in the code, LOW in the specification. *)
Lemma confidence_as_specified_differs :
  confidence_from_dates [ymd 2023 5 1] [] [] true [] = LOW
  /\ confidence_as_specified [ymd 2023 5 1] true [] = MEDIUM
  /\ confidence_from_dates [ymd 2023 5 1] [] [] false [] = MEDIUM
  /\ confidence_as_specified [ymd 2023 5 1] false [] = LOW.
Proof. repeat split; reflexivity. Qed.

Variable is_decimal : N -> bool.
Variable extract_dates_advanced : text -> option date -> option date -> list date.

Let build := build_time_anchor_candidates is_decimal extract_dates_advanced.


(** Every ranked candidate carries the in-period flag of its own date. *)
Lemma candidates_in_period (b r o l : list date) (s e : date) (top_k : Z)
    (ctx kind : text) (c : cand) :
  c ∈ candidates (build b r o l (Some s) (Some e) top_k ctx kind) ->
  c_in_period c = (s <=? c_date c) && (c_date c <=? e).
Proof.
  unfold build, build_time_anchor_candidates.
  destruct (foldl _ _ _) as [th ex].
  destruct (add _ _ _ _ _ _ _ Logistics) as [dc sc].
  case_bool_decide; simpl; [by intros ?%elem_of_nil|].
  intros Hc%subseteq_take.
  rewrite merge_sort_Permutation in Hc.
  apply list_elem_of_fmap in Hc as ([d z] & -> & _).
  reflexivity.
Qed.

(** C4. For a resolved period the conflict flag is set exactly when the
    ranked top-K list has a candidate dated inside the period and one dated
    outside it; and when it is set, the selected dates are the dates of the
    in-period candidates of the top-K, sorted and without repetition. *)
Theorem conflict_flag_iff_mixed_top
    (b r o l : list date) (s e : date) (top_k : Z) (ctx kind : text) :
  let p := build b r o l (Some s) (Some e) top_k ctx kind in
  (conflict_flag p = true <->
     (exists c, c ∈ candidates p /\ s <= c_date c <= e)
     /\ (exists c, c ∈ candidates p /\ ~ (s <= c_date c <= e)))
  /\ (conflict_flag p = true ->
      selected_dates p
      = sorted_set (map c_date
          (filter (fun c => s <= c_date c <= e) (candidates p)))).
Proof.
  intros p.
  pose proof (candidates_in_period b r o l s e top_k ctx kind) as Hin.
  fold p in Hin.
  assert (Hflag : forall c, c ∈ candidates p ->
            (c_in_period c = true <-> s <= c_date c <= e)).
  { intros c Hc. rewrite (Hin c Hc). rewrite andb_true_iff, !Z.leb_le. tauto. }
  assert (Hshape :
    conflict_flag p = existsb c_in_period (candidates p)
                      && existsb (fun c => negb (c_in_period c)) (candidates p)
    /\ (existsb c_in_period (candidates p) = true ->
        selected_dates p
        = sorted_set (map c_date
            (filter (fun c => c_in_period c = true) (candidates p))))).
  { subst p. unfold build, build_time_anchor_candidates.
    destruct (foldl _ _ _) as [th ex].
    destruct (add _ _ _ _ _ _ _ Logistics) as [dc sc].
    case_bool_decide; simpl; [done|].
    split; [done|]. intros Hex.
    by rewrite nonempty_filter_existsb, Hex. }
  destruct Hshape as [Hcf Hsel].
  split.
  - rewrite Hcf, andb_true_iff, !existsb_elem. split.
    + intros [(c & Hc & H1) (c' & Hc' & H2)]. split.
      * exists c. split; [done|]. by apply Hflag.
      * exists c'. split; [done|]. rewrite <- (Hflag c' Hc').
        destruct (c_in_period c'); [done|]. discriminate.
    + intros [(c & Hc & H1) (c' & Hc' & H2)]. split.
      * exists c. split; [done|]. by apply Hflag.
      * exists c'. split; [done|]. rewrite <- (Hflag c' Hc') in H2.
        by destruct (c_in_period c').
  - intros Hconf. rewrite Hcf, andb_true_iff in Hconf.
    rewrite (Hsel (proj1 Hconf)).
    f_equal. f_equal. by apply filter_ext_elem.
Qed.
End ResolverProps.

(** A concrete case of C4: a base date inside the period and a base date
    before it; the conflict is flagged and only the in-period date is kept. *)
Lemma conflict_flag_example :
  let p := Resolver.build_time_anchor_candidates is_ascii_digit (fun _ _ _ => [])
             [ymd 2023 1 5; ymd 2020 1 1] [] [] []
             (Some (ymd 2022 1 1)) (Some (ymd 2024 1 1)) 5 [] [] in
  Resolver.conflict_flag p = true
  /\ Resolver.selected_dates p = [ymd 2023 1 5].
Proof.
  intros p.
  assert (H : Resolver.conflict_flag p = true) by (vm_compute; reflexivity).
  split; [exact H|]. subst p.
  rewrite (proj2 (conflict_flag_iff_mixed_top is_ascii_digit (fun _ _ _ => [])
                    [ymd 2023 1 5; ymd 2020 1 1] [] [] []
                    (ymd 2022 1 1) (ymd 2024 1 1) 5 [] []) H).
  vm_compute. reflexivity.
Defined.

(** C10 (the code raises). A context line with a month-day date reaches
    [infer_year_for_month_day] before the test for empty candidate lists.
    Under the period 0001-03-01 to 0001-06-01 the date 1月5日 has no year 0,
    falls outside the period in year 1, and the test for a near date then
    subtracts 365 days from the period start: [OverflowError].  Under the
    period 9999-06-01 to 9999-09-01 the same test adds 365 days to the
    period end. *)
Theorem month_day_near_first_date_overflows (today_year : Z) :
  Segments.valid_date 0 1 5 = false
  /\ Years.infer_year_for_month_day today_year 1 5
       (Some (ymd 1 3 1)) (Some (ymd 1 6 1)) = Years.Overflow
  /\ Years.infer_year_for_month_day today_year 1 5
       (Some (ymd 9999 6 1)) (Some (ymd 9999 9 1)) = Years.Overflow.
Proof. repeat split; vm_compute; reflexivity. Qed.

(** ** The noise normalizer *)

Section NormalizerProps.
Import Normalizer.
Local Open Scope N_scope.

(** Case analysis of a character against the keys of the translation table. *)
Ltac by_table c :=
  destruct (N.eqb_spec c 79) as [->|?]; [|
  destruct (N.eqb_spec c 111) as [->|?]; [|
  destruct (N.eqb_spec c 73) as [->|?]; [|
  destruct (N.eqb_spec c 108) as [->|?]; [|
  destruct (N.eqb_spec c 124) as [->|?]; [|
  destruct (N.eqb_spec c 83) as [->|?]; [|
  destruct (N.eqb_spec c 115) as [->|?]; [|
  destruct (N.eqb_spec c 66) as [->|?]; [|
  assert (trans c = c) by
    (unfold trans;
     repeat match goal with
            | H : c <> _ |- _ => apply N.eqb_neq in H; rewrite !H; clear H
            end; reflexivity)]]]]]]]].



Lemma trans_unit_free (s : text) : unit_free s -> unit_free (map trans s).
Proof.
  unfold unit_free. intros Hs. rewrite Forall_map.
  eapply Forall_impl; [exact Hs|]. intros c Hc.
  simpl. by_table c; try compute_done. congruence.
Qed.

(** A matched prefix holds every character of the pattern. *)
Lemma starts_with_elem (p s : text) (x : N) :
  starts_with p s = true -> x ∈ p -> x ∈ s.
Proof.
  revert s. induction p as [|a p IH]; intros s H Hx.
  - by apply elem_of_nil in Hx.
  - destruct s as [|b s]; [done|]. simpl in H.
    apply andb_true_iff in H as [Hab Hp]. apply N.eqb_eq in Hab. subst b.
    apply elem_of_cons in Hx as [->|Hx]; [by left|right; by apply IH].
Qed.

Lemma replace_absent (old new s : text) (x : N) :
  x ∈ old -> x ∉ s -> replace old new s = s.
Proof.
  intros Hx. unfold replace. induction s as [|c s IH]; intros Hs; [done|].
  simpl. destruct (starts_with old (c :: s)) eqn:E.
  - exfalso. apply Hs. by eapply starts_with_elem.
  - f_equal. apply IH. intros H. apply Hs. by right.
Qed.

Lemma run_prefix (p : N -> bool) (n : nat) (s : text) (k : nat) :
  (0 < k <= run p n s)%nat -> exists c, c ∈ s /\ p c = true.
Proof.
  destruct n as [|n], s as [|c s]; simpl; try lia.
  destruct (p c) eqn:E; [|lia]. intros _. exists c. split; [by left|done].
Qed.

Lemma try_from_Some (rest : text -> option (list nat)) (lo n : nat) (s : text)
    (ks : list nat) :
  try_from rest lo n s = Some ks ->
  exists k ks', ks = k :: ks' /\ (lo <= k <= n)%nat /\ rest (drop k s) = Some ks'.
Proof.
  induction n as [|n IH]; simpl.
  - case_bool_decide; [|done].
    destruct (rest (drop 0 s)) eqn:E; [|done]. intros [= <-].
    eexists _, _. split; [done|]. split; [lia|done].
  - case_bool_decide as Hlo.
    + destruct (rest (drop (S n) s)) eqn:E.
      * intros [= <-]. eexists _, _. split; [done|]. split; [lia|done].
      * case_bool_decide; [|done]. intros Hrec.
        destruct (IH Hrec) as (k & ks' & -> & Hk & Hr).
        exists k, ks'. split; [done|]. split; [lia|done].
    + case_bool_decide; [lia|done].
Qed.

(** A successful match shows, for each atom that consumes at least one
    character, a character of its class in the subject. *)
Lemma match_atoms_needs (atoms : list atom) (s : text) (ks : list nat) (a : atom) :
  match_atoms atoms s = Some ks -> a ∈ atoms -> (1 <= lo a)%nat ->
  exists c, c ∈ s /\ cls a c = true.
Proof.
  revert s ks. induction atoms as [|b atoms IH]; intros s ks H Ha Hlo.
  - by apply elem_of_nil in Ha.
  - simpl in H. apply try_from_Some in H as (k & ks' & -> & Hk & Hr).
    apply elem_of_cons in Ha as [->|Ha].
    + apply (run_prefix (cls b) (hi b) s k). lia.
    + destruct (IH _ _ Hr Ha Hlo) as (c & Hc & Hp).
      exists c. split; [|done].
      rewrite <- (take_drop k s). apply elem_of_app. by right.
Qed.

Lemma re_sub_no_match (atoms : text -> list atom)
    (repl : text -> list nat -> text) (s : text) (a : text -> atom) :
  (forall t, a t ∈ atoms t) -> (forall t, (1 <= lo (a t))%nat) ->
  (forall t c, c ∈ s -> cls (a t) c = false) ->
  forall t, re_sub (atoms t) repl 0 s = s.
Proof.
  intros Ha Hlo Hcls t. induction s as [|c s IH]; [done|].
  simpl. destruct (match_atoms (atoms t) (c :: s)) as [ks|] eqn:E.
  - exfalso.
    destruct (match_atoms_needs _ _ _ _ E (Ha t) (Hlo t)) as (x & Hx & Hp).
    by rewrite (Hcls t x Hx) in Hp.
  - f_equal. apply IH. intros t' x Hx. apply Hcls. by right.
Qed.



Variable is_decimal : N -> bool.

(** On a text without date-unit characters the normalizer is the digit
    mapping followed by the whitespace collapse. *)
Lemma normalize_unit_free (s : text) :
  unit_free s ->
  normalize_ocr_date_text is_decimal s
  = collapse_ws false (normalize_ocr_digits s).
Proof.
  intros Hs. apply trans_unit_free in Hs.
  unfold normalize_ocr_date_text, normalize_ocr_digits.
  set (t := map trans s) in *.
  assert (Hn : forall x, x ∈ [c_nian; c_yue; c_ri; c_hao] -> x ∉ t).
  { intros x Hx Hxt. unfold unit_free in Hs. rewrite Forall_forall in Hs.
    by apply (Hs x Hxt). }
  assert (Hnian : c_nian ∉ t) by (apply Hn; compute_done).
  assert (Hyue : c_yue ∉ t) by (apply Hn; compute_done).
  assert (Hri : c_ri ∉ t) by (apply Hn; compute_done).
  assert (Hhao : c_hao ∉ t) by (apply Hn; compute_done).
  rewrite (replace_absent (u "人年") _ t c_nian) by (done || compute_done).
  rewrite (replace_absent (u "入年") _ t c_nian) by (done || compute_done).
  rewrite (replace_absent (u "年年") _ t c_nian) by (done || compute_done).
  rewrite (replace_absent (u "月月") _ t c_yue) by (done || compute_done).
  rewrite (replace_absent (u "日日") _ t c_ri) by (done || compute_done).
  rewrite (re_sub_no_match (re_year is_decimal) _ t (fun _ => lit c_nian)).
  2:{ intros x. unfold re_year. repeat constructor. }
  2:{ intros x. simpl. lia. }
  2:{ intros _ c Hc. simpl. apply N.eqb_neq. intros ->. done. }
  rewrite (re_sub_no_match re_month _ t (fun _ => lit c_yue)).
  2:{ intros x. unfold re_month. repeat constructor. }
  2:{ intros x. simpl. lia. }
  2:{ intros _ c Hc. simpl. apply N.eqb_neq. intros ->. done. }
  rewrite (re_sub_no_match re_day _ t
             (fun _ => Atom (fun c => (c =? c_ri) || (c =? c_hao)) 1 1)).
  2:{ intros x. unfold re_day. repeat constructor. }
  2:{ intros x. simpl. lia. }
  2:{ intros _ c Hc. simpl. apply orb_false_iff.
      split; apply N.eqb_neq; intros ->; done. }
  reflexivity.
Qed.

End NormalizerProps.

(** *** Date-shaped texts *)

Section NormalizerDates.
Local Open Scope N_scope.

Lemma unit_cases (c : N) :
  is_unit c = true -> c = c_nian \/ c = c_yue \/ c = c_ri \/ c = c_hao.
Proof.
  unfold is_unit. rewrite !orb_true_iff, !N.eqb_eq. tauto.
Qed.

Lemma unit_plain (c : N) :
  is_unit c = true -> is_space c = false /\ is_ascii_digit c = false.
Proof.
  intros H. destruct (unit_cases c H) as [-> | [-> | [-> | ->]]];
    split; vm_compute; reflexivity.
Qed.


Lemma space_not_unit (c : N) : is_space c = true -> is_unit c = false.
Proof.
  intros H. destruct (is_unit c) eqn:E; [|done].
  apply unit_plain in E as [E _]. congruence.
Qed.


(** *** The matcher *)








(** *** Texts with attached units *)

Section Attached.
Variables tight loose : N -> bool.
Hypothesis tight_unit : forall c, tight c = true -> is_unit c = true.
Hypothesis loose_unit : forall c, loose c = true -> is_unit c = true.













End Attached.






(** *** The month and the day pattern *)

Section DigitUnit.
Variable excl : list N.
Variable ucls : N -> bool.
Variable X : N.
Variable txt : text.
Hypothesis ucls_unit : forall c, ucls c = true -> is_unit c = true.
Hypothesis ucls_excl : forall c, ucls c = true -> c ∈ excl.
Hypothesis X_unit : is_unit X = true.

Let repl (m : text) (ks : list nat) : text := keep_then (hd O ks) X m.



Section Pass.
Variables t l : N -> bool.
Hypothesis t_unit : forall c, t c = true -> is_unit c = true.
Hypothesis l_unit : forall c, l c = true -> is_unit c = true.


End Pass.
End DigitUnit.

(** *** The year pattern *)

Section Year.
Variable is_decimal : N -> bool.
Variable txt : text.
Variables t l : N -> bool.

Let repl (m : text) (ks : list nat) : text := keep_then 4 c_nian m.



End Year.



(** *** Two passes over a date-shaped text *)

Section TwoPasses.
Variable is_decimal : N -> bool.





End TwoPasses.
End NormalizerDates.


(** Outside the date-shaped texts a second pass can change the text in
    other ways too: a 日 after 号 is doubled by the first pass and collapsed by
    the second. *)
Lemma day_after_number_sign :
  normalize_ocr_date_text is_ascii_digit (u "5号日") = u "5日日"
  /\ normalize_ocr_date_text is_ascii_digit (u "5日日") = u "5日".
Proof. split; vm_compute; reflexivity. Qed.


(** ** The deduplication engine *)

Section DedupProps.
Import Dedup.

Lemma bars_app (a b : text) : bars (a ++ b) = (bars a + bars b)%nat.
Proof. unfold bars. by rewrite filter_app, length_app. Qed.

Lemma bars_bar : bars [bar] = 1%nat.
Proof. reflexivity. Qed.

Lemma bars_none (s : text) : Forall (fun c => c <> bar) s -> bars s = 0%nat.
Proof.
  unfold bars. induction 1 as [|c s Hc _ IH]; [done|].
  by rewrite filter_cons_False.
Qed.

Lemma digits_from_no_bar (fuel : nat) (n : N) (acc : text) :
  Forall (fun c => c <> bar) acc ->
  Forall (fun c => c <> bar) (digits_from fuel n acc).
Proof.
  revert n acc. induction fuel as [|fuel IH]; intros n acc Hacc; [done|].
  simpl.
  assert (Hd : Forall (fun c => c <> bar) ((48 + n mod 10)%N :: acc)).
  { constructor; [|done]. unfold bar.
    pose proof (N.mod_lt n 10 ltac:(lia)). lia. }
  destruct (n <? 10)%N; [done|]. by apply IH.
Qed.

Lemma str_of_Z_no_bar (z : Z) : bars (str_of_Z z) = 0%nat.
Proof.
  apply bars_none. unfold str_of_Z.
  destruct (z <? 0).
  - constructor; [unfold bar; lia|]. by apply digits_from_no_bar.
  - by apply digits_from_no_bar.
Qed.

Lemma normalize_for_dedup_no_bar (s : text) :
  Forall (fun c => c <> bar) (normalize_for_dedup s).
Proof.
  unfold normalize_for_dedup. apply Forall_forall. intros c Hc.
  apply list_elem_of_filter in Hc as [Hw _]. intros ->. discriminate Hw.
Qed.

Variable extract_dates_advanced : text -> option date -> option date -> list date.
Variable pdf_page_count : text -> Z.
Variable sha1_hex : text -> text.

Let raw := dedup_raw extract_dates_advanced pdf_page_count.
Let signature := dedup_signature extract_dates_advanced pdf_page_count sha1_hex.
Let fallback := fallback_tuple extract_dates_advanced pdf_page_count.
Let content := content_form extract_dates_advanced.

Lemma bars_fallback (pdf t : text) :
  bars (fallback pdf t)
  = (bars (path_stem pdf) + bars (time_fp extract_dates_advanced t) + 3)%nat.
Proof.
  unfold fallback, fallback_tuple. cbn [join].
  rewrite !bars_app, !str_of_Z_no_bar, !bars_bar. lia.
Qed.

Lemma bars_content (t : text) :
  bars (content t) = (bars (time_fp extract_dates_advanced t) + 1)%nat.
Proof.
  unfold content, content_form. cbn [join].
  rewrite !bars_app, bars_bar, (bars_none (take _ _)); [lia|].
  apply Forall_take, normalize_for_dedup_no_bar.
Qed.

(** The two signature inputs never coincide: the fallback tuple holds at
    least two more separators than the content form. *)
Lemma fallback_is_not_content (pdf t : text) : fallback pdf t <> content t.
Proof.
  intros H. apply (f_equal bars) in H.
  rewrite bars_fallback, bars_content in H. lia.
Qed.

(** C7. The signature is the hash of the fallback tuple (name stem, page
    count, normalized length, date fingerprint) exactly when the normalized
    text is shorter than 80 characters, and of the normalized text cut at
    20000 characters with the date fingerprint exactly when it is not; the
    fingerprint joins at most three dates. *)
Theorem dedup_signature_input (pdf t : text) :
  let n := Z.of_nat (length (normalize_for_dedup t)) in
  signature pdf t = sha1_hex (raw pdf t)
  /\ (raw pdf t = fallback pdf t <-> n < 80)
  /\ (raw pdf t = content t <-> 80 <= n)
  /\ time_fp extract_dates_advanced t
     = join [bar] (map isoformat (take 3 (extract_dates_advanced t None None)))
  /\ (length (take 3 (extract_dates_advanced t None None)) <= 3)%nat.
Proof.
  intros n.
  assert (Hraw : raw pdf t = if n <? 80 then fallback pdf t else content t).
  { unfold raw, dedup_raw, fallback, fallback_tuple, content, content_form.
    fold n. destruct (n <? 80); simpl; by rewrite <- ?app_assoc. }
  split; [reflexivity|]. split; [|split; [|split; [reflexivity|]]].
  - rewrite Hraw. destruct (Z.ltb_spec n 80); split; intros; try done; try lia.
    exfalso. by eapply fallback_is_not_content.
  - rewrite Hraw. destruct (Z.ltb_spec n 80); split; intros; try done; try lia.
    exfalso. by eapply fallback_is_not_content.
  - rewrite length_take. lia.
Qed.
End DedupProps.

(** ** The risk-scoring engine *)

Section RiskProps.
Import Risk.

Variable upper : text -> text.
Variable parse_date_str : text -> option date.
Variable date_matches : text -> list date.

Let infer := infer_time_anchor_row upper parse_date_str date_matches.
Let validity := field_validity upper parse_date_str date_matches.

(** C8 (as the code has it). Without an override in the Mark Presence
    Validity column, mark_presence is VALID exactly when the mark-shown
    flag normalizes to Y and the mark-name confidence is empty, HIGH,
    MEDIUM or N/A; otherwise it is INVALID. *)
Theorem mark_presence_validity (r : row) :
  validity_of_text (upper (get_str r "Mark Presence Validity")) = None ->
  (validity r F_mark_presence = VALID <->
     get_yesno upper r "Mark Shown (Y/N)" = u "Y"
     /\ upper (get_str r "Mark Name Confidence")
        ∈ [[]; u "HIGH"; u "MEDIUM"; u "N/A"])
  /\ (validity r F_mark_presence = VALID \/ validity r F_mark_presence = INVALID).
Proof.
  intros Hraw. unfold validity, field_validity. cbn [validity_column].
  rewrite Hraw.
  unfold text_eqb, text_in.
  repeat case_bool_decide; simpl; split; try tauto; split;
    intros; try discriminate; tauto.
Qed.




End RiskProps.


(** C8 (as the specification words it) fails: a row that shows the mark and
    has no mark-name confidence is VALID, although its confidence is neither
    HIGH nor MEDIUM. *)
Lemma mark_presence_blank_confidence :
  Risk.validity_of_text
    (ascii_upper (Risk.get_str Scenarios.row_mark "Mark Presence Validity")) = None
  /\ Risk.get_yesno ascii_upper Scenarios.row_mark "Mark Shown (Y/N)" = u "Y"
  /\ text_in (ascii_upper (Risk.get_str Scenarios.row_mark "Mark Name Confidence"))
             [u "HIGH"; u "MEDIUM"] = false
  /\ Risk.field_validity ascii_upper Scenarios.no_parse Scenarios.no_matches
       Scenarios.row_mark Risk.F_mark_presence = Risk.VALID.
Proof. repeat split; vm_compute; reflexivity. Qed.

(** A concrete case of C8: the same row, through the theorem. *)
Lemma mark_presence_validity_example :
  Risk.validity_of_text
    (ascii_upper (Risk.get_str Scenarios.row_mark "Mark Presence Validity")) = None
  /\ Risk.field_validity ascii_upper Scenarios.no_parse Scenarios.no_matches
       Scenarios.row_mark Risk.F_mark_presence = Risk.VALID.
Proof.
  assert (H : Risk.validity_of_text
                (ascii_upper (Risk.get_str Scenarios.row_mark
                                "Mark Presence Validity")) = None)
    by (vm_compute; reflexivity).
  split; [exact H|].
  apply (proj1 (mark_presence_validity ascii_upper Scenarios.no_parse
                  Scenarios.no_matches Scenarios.row_mark H)).
  split; [vm_compute; reflexivity|]. vm_compute. left.
Defined.

Section DiagnosticsProps.
Import Risk.

Variable upper : text -> text.
Variable parse_date_str : text -> option date.
Variable date_matches : text -> list date.
Variable evidence_id_display : text -> Z -> text.
Variable cfg : rules.

Let diagnose :=
  build_defense_diagnostics upper parse_date_str date_matches
    evidence_id_display cfg.
Let tally_of := tally_rows upper parse_date_str date_matches.
Let infer := infer_time_anchor_row upper parse_date_str date_matches.
Let in_period := row_in_period upper parse_date_str date_matches.

(** A counter of the loop is the number of rows that raise it. *)
Lemma counter_is_count (f : tally -> Z) (P : row -> bool)
    (ps pe : option date) (l : list row) (acc : tally) :
  (forall a b, f (tally_add a b) = f a + f b) ->
  (forall r, f (row_tally upper parse_date_str date_matches ps pe r)
             = one_if (P r)) ->
  f (foldl (fun acc r =>
              tally_add acc (row_tally upper parse_date_str date_matches ps pe r))
           acc l)
  = f acc + Z.of_nat (length (filter (fun r => P r = true) l)).
Proof.
  intros Hadd Hrow. revert acc.
  induction l as [|r l IH]; intros acc; simpl; [lia|].
  rewrite IH, Hadd, Hrow. destruct (P r) eqn:E.
  - rewrite filter_cons_True by done. simpl. lia.
  - rewrite filter_cons_False by congruence. simpl. lia.
Qed.

Lemma in_period_has_anchor (ps pe : option date) (r : row) :
  in_period ps pe r = true ->
  has_anchor upper parse_date_str date_matches r = true.
Proof.
  unfold in_period, row_in_period, has_anchor, Risk.infer.
  by repeat case_match.
Qed.

Lemma highmed_count (ps pe : option date) (rows : list row) :
  in_period_highmed (tally_of ps pe rows)
  = Z.of_nat (length (highmed_rows upper parse_date_str date_matches ps pe rows)).
Proof.
  unfold tally_of, tally_rows, highmed_rows.
  rewrite (counter_is_count in_period_highmed
             (fun r => scored_in_period upper parse_date_str date_matches ps pe r
                       && bool_decide (a_confidence (infer r) ∈ [HIGH; MEDIUM])));
    [done|done|].
  intros r. simpl. f_equal. unfold scored_in_period, valid, allowed_row, Risk.infer.
  pose proof (in_period_has_anchor ps pe r) as Han. unfold in_period in Han.
  destruct (row_in_period _ _ _ ps pe r) eqn:Ein.
  - rewrite (Han eq_refl).
    by destruct (time_anchor_allowed_row upper r), (bool_decide (_ = VALID)).
  - by rewrite !andb_false_r.
Qed.

Lemma low_count (ps pe : option date) (rows : list row) :
  in_period_low (tally_of ps pe rows)
  = Z.of_nat (length (low_rows upper parse_date_str date_matches ps pe rows)).
Proof.
  unfold tally_of, tally_rows, low_rows.
  rewrite (counter_is_count in_period_low
             (fun r => scored_in_period upper parse_date_str date_matches ps pe r
                       && negb (bool_decide (a_confidence (infer r) ∈ [HIGH; MEDIUM]))));
    [done|done|].
  intros r. simpl. f_equal. unfold scored_in_period, valid, allowed_row, Risk.infer.
  pose proof (in_period_has_anchor ps pe r) as Han. unfold in_period in Han.
  destruct (row_in_period _ _ _ ps pe r) eqn:Ein.
  - rewrite (Han eq_refl).
    by destruct (time_anchor_allowed_row upper r), (bool_decide (_ = VALID)).
  - by rewrite !andb_false_r.
Qed.

Lemma reference_count (ps pe : option date) (rows : list row) :
  in_period_reference (tally_of ps pe rows)
  = Z.of_nat (length (reference_rows upper parse_date_str date_matches ps pe rows)).
Proof.
  unfold tally_of, tally_rows, reference_rows.
  by rewrite (counter_is_count in_period_reference
                (fun r => negb (allowed_row upper r
                                && valid upper parse_date_str date_matches r F_date)
                          && row_in_period upper parse_date_str date_matches ps pe r)).
Qed.

Lemma length_zero_iff_nil {A} (l : list A) : Z.of_nat (length l) = 0 <-> l = [].
Proof. destruct l; simpl; split; intros; try done; lia. Qed.

(** C1 (as the code has it). For a resolved period, G1b is set exactly when
    no scored row (coverage-allowed, date field VALID) has a HIGH or MEDIUM
    anchor overlapping the period, and moreover either no scored row has a
    lower-confidence anchor overlapping it, or some row outside the scored
    lane overlaps it. *)
Theorem G1b_iff_no_scored_coverage (rows : list row) (s e : date) :
  gate_flags (diagnose rows (Some s) (Some e)) G1b = true <->
  highmed_rows upper parse_date_str date_matches (Some s) (Some e) rows = []
  /\ (low_rows upper parse_date_str date_matches (Some s) (Some e) rows = []
      \/ reference_rows upper parse_date_str date_matches (Some s) (Some e) rows
         <> []).
Proof.
  unfold gate_flags, diagnose, build_defense_diagnostics, flag. simpl.
  fold (tally_of (Some s) (Some e) rows).
  rewrite highmed_count, low_count, reference_count.
  rewrite <- !length_zero_iff_nil.
  set (h := Z.of_nat (length (highmed_rows _ _ _ _ _ _))).
  set (l := Z.of_nat (length (low_rows _ _ _ _ _ _))).
  set (f := Z.of_nat (length (reference_rows _ _ _ _ _ _))).
  assert (0 <= f) by (subst f; lia).
  destruct (Z.eqb_spec h 0), (Z.eqb_spec l 0), (Z.ltb_spec 0 f); simpl;
    split; intros; try done; try lia.
Qed.


End DiagnosticsProps.

(** C1 (as the specification words it) fails: one coverage-allowed row
    whose LOW-confidence range lies inside the period does not clear G1b,
    because a LOW anchor leaves the date field INVALID and the row is counted
    as a reference row only. *)
Lemma G1b_set_despite_low_anchor :
  let rows := [Scenarios.row_low] in
  let ps := fst Scenarios.period_2022_2024 in
  let pe := snd Scenarios.period_2022_2024 in
  Risk.gate_flags
    (Risk.build_defense_diagnostics ascii_upper Scenarios.no_parse
       Scenarios.no_matches Scenarios.plain_id Risk.default_rules rows ps pe)
    Risk.G1b = true
  /\ Risk.a_confidence
       (Risk.infer_time_anchor_row ascii_upper Scenarios.no_parse
          Scenarios.no_matches Scenarios.row_low) = LOW
  /\ length (Risk.covering_as_specified ascii_upper Scenarios.no_parse
               Scenarios.no_matches ps pe rows) = 1%nat.
Proof. repeat split; vm_compute; reflexivity. Qed.


(** ** Rows with blank timestamps *)

Section BlankTimestamps.
Variable upper : text -> text.
Variable parse_date_str : text -> option date.
Variable date_matches : text -> list date.

(** On the rows of [Risk.row] the two readings of [infer_time_anchor_row]
    agree. *)
Lemma get_plain (r : Risk.row) (col : string) :
  NaTRows.get (NaTRows.Cell <$> r) col = NaTRows.Cell <$> Risk.get r col.
Proof. unfold NaTRows.get, Risk.get. apply lookup_fmap. Qed.

Lemma get_str_plain (r : Risk.row) (col : string) :
  NaTRows.get_str (NaTRows.Cell <$> r) col = Risk.get_str r col.
Proof.
  unfold NaTRows.get_str, Risk.get_str. rewrite get_plain.
  by destruct (Risk.get r col).
Qed.

Lemma min_days (s e : date) :
  NaTRows.min (NaTRows.Day s) (NaTRows.Day e)
  = NaTRows.Returned (NaTRows.Day (Z.min s e)).
Proof.
  unfold NaTRows.min, NaTRows.lt, NaTRows.bind.
  destruct (Z.ltb_spec e s); f_equal; f_equal; lia.
Qed.

Lemma max_days (s e : date) :
  NaTRows.max (NaTRows.Day s) (NaTRows.Day e)
  = NaTRows.Returned (NaTRows.Day (Z.max s e)).
Proof.
  unfold NaTRows.max, NaTRows.gt, NaTRows.lt, NaTRows.bind.
  destruct (Z.ltb_spec s e); f_equal; f_equal; lia.
Qed.

Lemma default_plain (d : Risk.cell) (g : option Risk.cell) :
  default (NaTRows.Cell d) (NaTRows.Cell <$> g) = NaTRows.Cell (default d g).
Proof. by destruct g. Qed.

Lemma first_plain (g1 g2 : option Risk.cell) :
  match NaTRows.Cell <$> g1 with
  | Some c => c
  | None => default (NaTRows.Cell Risk.CNone) (NaTRows.Cell <$> g2)
  end
  = NaTRows.Cell (match g1 with Some c => c | None => default Risk.CNone g2 end).
Proof. destruct g1; [done|]. apply default_plain. Qed.

Lemma infer_time_anchor_row_plain (r : Risk.row) :
  NaTRows.infer_time_anchor_row upper parse_date_str date_matches
    (NaTRows.Cell <$> r)
  = NaTRows.Returned
      (NaTRows.of_anchor
         (Risk.infer_time_anchor_row upper parse_date_str date_matches r)).
Proof.
  unfold NaTRows.infer_time_anchor_row, Risk.infer_time_anchor_row.
  rewrite !get_plain, !get_str_plain, !first_plain, default_plain.
  cbn [NaTRows.to_date_obj].
  destruct (Risk.to_date_obj parse_date_str
              match Risk.get r "Evidence Date Start" with
              | Some c => c
              | None => default Risk.CNone (Risk.get r "Date Start")
              end) as [s|];
    destruct (Risk.to_date_obj parse_date_str
                match Risk.get r "Evidence Date End" with
                | Some c => c
                | None => default Risk.CNone (Risk.get r "Date End")
                end) as [e|];
    destruct (Risk.to_date_obj parse_date_str
                (default Risk.CNone (Risk.get r "Formation Date"))) as [f|].
  all: try (destruct (Risk.parse_range_from_text _ _ _) as [[?|] [?|]]).
  all: cbn -[u Z.min Z.max Z.abs Z.ltb Z.leb or_else NaTRows.min NaTRows.max].
  all: rewrite ?min_days, ?max_days.
  all: cbn -[u Z.min Z.max Z.abs Z.ltb Z.leb or_else].
  all: try reflexivity.
  all: match goal with
       | |- context [if ?a <=? ?b then NaTRows.Returned _ else _] =>
           destruct (a <=? b)
       end; reflexivity.
Qed.

(** C9 (the code raises). An evidence set that holds a counted row with a
    start date and a blank end makes the row loop of
    [build_defense_diagnostics] raise [TypeError], whatever the other rows
    and the period are: [min] compares the date with [NaT]. *)
Theorem blank_end_raises (before after : list NaTRows.row) :
  NaTRows.counted_anchors upper parse_date_str date_matches
    (before ++ Scenarios.row_blank_end :: after)
  = NaTRows.TypeError.
Proof.
  induction before as [|r before IH].
  - assert (H : NaTRows.infer_time_anchor_row upper parse_date_str date_matches
             Scenarios.row_blank_end = NaTRows.TypeError)
      by (vm_compute; reflexivity).
    assert (Hid : nonempty (NaTRows.get_str Scenarios.row_blank_end "Evidence ID")
                  = true) by (vm_compute; reflexivity).
    simpl. rewrite Hid, H. reflexivity.
  - simpl. rewrite IH.
    destruct (nonempty _); [|reflexivity].
    by destruct (NaTRows.infer_time_anchor_row _ _ _ r).
Qed.
End BlankTimestamps.

(** C5 (the code breaks the order). For a row whose two explicit date cells
    are blank, the anchor is the explicit range from [NaT] to [NaT] with the
    confidence HIGH: both endpoints are present, and the start is not below
    or equal to the end. *)
Theorem blank_range_anchor_unordered :
  NaTRows.infer_time_anchor_row ascii_upper Scenarios.no_parse
    Scenarios.no_matches Scenarios.row_blank_range
  = NaTRows.Returned
      (NaTRows.Anchor None (Some NaTRows.NaT) (Some NaTRows.NaT)
         (u "EXPLICIT_RANGE(NaT ~ NaT)") HIGH false)
  /\ NaTRows.le NaTRows.NaT NaTRows.NaT = NaTRows.Returned false.
Proof. split; vm_compute; reflexivity. Qed.

(** ** The adaptive scan controller *)


Section ControllerProps.
Import Controller.

Variable lower : text -> text.
Variable ocr_pdf_pages : text -> Z -> Z -> text.
Variable clean_ocr_text : text -> text.
Variable should_upgrade_to_full_by_content : text -> text -> bool.
Variable infer_case_info : text -> gmap string text.
Variable extract_dates_advanced : text -> option date -> option date -> list date.
Variable pdf_page_count : text -> Z.
Variable files : list text.
Variables normal_pages notice_pages dpi notice_dpi : Z.
Variable prefilled_texts : gmap text text.
Variable scan_mode_by_file : gmap text text.










Let score (g : stage) (p : text) : Z :=
  scan_text_signal_score extract_dates_advanced
    (default [] (scan_texts (st g) !! p)) (mark_hint g) (goods_hint g).









End ControllerProps.



(** * Further properties of the risk-scoring engine *)

Section RiskExtras.
Import Risk.

Variable upper : text -> text.
Variable parse_date_str : text -> option date.
Variable date_matches : text -> list date.
Variable evidence_id_display : text -> Z -> text.
Variable cfg : rules.

Let infer := infer_time_anchor_row upper parse_date_str date_matches.
Let tally_of := tally_rows upper parse_date_str date_matches.
Let allowed := time_anchor_allowed_row upper.
Let diagnose :=
  build_defense_diagnostics upper parse_date_str date_matches
    evidence_id_display cfg.

(** X1. The overlap test does not depend on the order of its two ranges, is
    false as soon as an endpoint is missing, and for two ordered ranges holds
    exactly when some day belongs to both. *)
Theorem overlap_shared_day (a1 a2 b1 b2 : date) :
  a1 <= a2 -> b1 <= b2 ->
  (overlap (Some a1) (Some a2) (Some b1) (Some b2) = true
   <-> exists d, a1 <= d <= a2 /\ b1 <= d <= b2)
  /\ (forall x y z w, overlap x y z w = overlap z w x y)
  /\ (forall x y z, overlap None x y z = false /\ overlap x None y z = false
                    /\ overlap x y None z = false /\ overlap x y z None = false).
Proof.
  intros Ha Hb. split; [|split].
  - unfold overlap. rewrite negb_true_iff, orb_false_iff, !Z.ltb_ge. split.
    + intros [H1 H2]. exists (Z.max a1 b1). lia.
    + intros (d & H1 & H2). lia.
  - intros [x|] [y|] [z|] [w|]; simpl; try reflexivity. by rewrite orb_comm.
  - intros x y z. by destruct x, y, z.
Qed.

(** X2. A row is flagged as a contradiction only when it carries both
    explicit range dates; its formation date then lies more than 30 days
    before the start or more than 30 days after the end of the anchor. *)
Theorem contradiction_needs_explicit_range (r : row) :
  contradiction (infer r) = true ->
  exists f a b,
    formation_date (infer r) = Some f
    /\ anchor_start (infer r) = Some a /\ anchor_end (infer r) = Some b
    /\ a <= b /\ (f < a - 30 \/ b + 30 < f)
    /\ is_Some (to_date_obj parse_date_str
                  (match get r "Evidence Date Start" with
                   | Some c => c
                   | None => default CNone (get r "Date Start")
                   end))
    /\ is_Some (to_date_obj parse_date_str
                  (match get r "Evidence Date End" with
                   | Some c => c
                   | None => default CNone (get r "Date End")
                   end)).
Proof.
  unfold infer, infer_time_anchor_row.
  destruct (to_date_obj parse_date_str (match get r "Evidence Date Start" with
                                        | Some c => c
                                        | None => default CNone (get r "Date Start")
                                        end)) as [s|] eqn:Es;
    destruct (to_date_obj parse_date_str (match get r "Evidence Date End" with
                                          | Some c => c
                                          | None => default CNone (get r "Date End")
                                          end)) as [e|] eqn:Ee;
    destruct (to_date_obj parse_date_str (default CNone (get r "Formation Date")))
      as [f|] eqn:Ef; simpl;
    try (destruct (parse_range_from_text _ _ _) as [[?|] [?|]]; simpl);
    try discriminate;
    intros H; rewrite !andb_true_iff, negb_true_iff, andb_false_iff in H;
    destruct H as [[H1 H2] H3]; rewrite !Z.leb_gt in H1;
    apply Z.ltb_lt in H2, H3; try lia.
  exists f, (Z.min s e), (Z.max s e).
  repeat split; try done; try lia; by eexists.
Qed.
(** X3. The targets kept for scoring are a sublist of the targets the row
    claims; T1 and T5 are never filtered; and a kept T4, T3, T2 or T6 has
    its backing field (date; goods; mark presence; amount and party) VALID. *)
Theorem scored_targets_backed (r : row) :
  let scored := targets_for_scoring upper parse_date_str date_matches r in
  let ok := fun k => field_validity upper parse_date_str date_matches r k = VALID in
  scored `sublist_of` claimed_targets r
  /\ (forall i, i ∈ [1; 5] -> (i ∈ scored <-> i ∈ claimed_targets r))
  /\ (4 ∈ scored -> ok F_date)
  /\ (3 ∈ scored -> ok F_goods)
  /\ (2 ∈ scored -> ok F_mark_presence)
  /\ (6 ∈ scored -> ok F_amount /\ ok F_party).
Proof.
  intros scored ok. subst scored ok. unfold targets_for_scoring.
  split; [apply sublist_filter|].
  split.
  - intros i Hi. rewrite list_elem_of_filter.
    assert (i = 1 \/ i = 5) as [-> | ->]
      by (rewrite !elem_of_cons, elem_of_nil in Hi; tauto); simpl; tauto.
  - split; [|split; [|split]];
      intros [Hk _]%list_elem_of_filter; simpl in Hk;
      rewrite ?andb_true_iff, ?bool_decide_eq_true in Hk; tauto.
Qed.

(** Additive functions of the counters add up over the counted rows. *)
Lemma tally_counts (f : tally -> Z) (P : row -> bool)
    (ps pe : option date) (rows : list row) :
  f tally_zero = 0 ->
  (forall a b, f (tally_add a b) = f a + f b) ->
  (forall r, f (row_tally upper parse_date_str date_matches ps pe r) = one_if (P r)) ->
  f (tally_of ps pe rows)
  = Z.of_nat (length (filter (fun r => P r = true)
                             (counted_rows rows))).
Proof.
  intros H0 Hadd Hrow. unfold tally_of, tally_rows.
  by rewrite (counter_is_count upper parse_date_str date_matches f P), H0.
Qed.

(** X4. The four time buckets partition the coverage-allowed rows: every
    counted row that is allowed falls in exactly one of unknown-time,
    in-period high/medium, in-period low and out-of-period; the last three
    together never exceed the scored rows, which never exceed the allowed
    rows. *)
Theorem time_buckets_partition (ps pe : option date) (rows : list row) :
  let t := tally_of ps pe rows in
  let n_allowed :=
    Z.of_nat (length (filter (fun r => allowed r = true)
                             (counted_rows rows))) in
  unknown_time t + in_period_highmed t + in_period_low t + out_period t = n_allowed
  /\ in_period_highmed t + in_period_low t + out_period t <= eligible_time_rows t
  /\ eligible_time_rows t <= n_allowed
  /\ 0 <= unknown_time t.
Proof.
  intros t n_allowed. subst t n_allowed.
  assert (Hsum :
    unknown_time (tally_of ps pe rows) + in_period_highmed (tally_of ps pe rows)
    + in_period_low (tally_of ps pe rows) + out_period (tally_of ps pe rows)
    = Z.of_nat (length (filter (fun r => allowed r = true)
                               (counted_rows rows)))).
  { apply (tally_counts
             (fun t => unknown_time t + in_period_highmed t
                       + in_period_low t + out_period t) allowed);
      [done|intros; simpl; lia|].
    intros r. simpl. unfold allowed, allowed_row, valid.
    destruct (time_anchor_allowed_row upper r), (bool_decide _), (has_anchor _ _ _ r),
      (row_in_period _ _ _ ps pe r), (bool_decide (_ ∈ _)); reflexivity. }
  assert (Hgap :
    eligible_time_rows (tally_of ps pe rows)
    - (in_period_highmed (tally_of ps pe rows) + in_period_low (tally_of ps pe rows)
       + out_period (tally_of ps pe rows))
    = Z.of_nat (length (filter
        (fun r => allowed r
                  && valid upper parse_date_str date_matches r F_date
                  && negb (has_anchor upper parse_date_str date_matches r) = true)
        (counted_rows rows)))).
  { apply (tally_counts
             (fun t => eligible_time_rows t
                       - (in_period_highmed t + in_period_low t + out_period t)));
      [done|intros; simpl; lia|].
    intros r. simpl. unfold allowed, allowed_row, valid.
    destruct (time_anchor_allowed_row upper r), (bool_decide _), (has_anchor _ _ _ r),
      (row_in_period _ _ _ ps pe r), (bool_decide (_ ∈ _)); reflexivity. }
  assert (Hunk :
    unknown_time (tally_of ps pe rows)
    - (eligible_time_rows (tally_of ps pe rows)
       - (in_period_highmed (tally_of ps pe rows) + in_period_low (tally_of ps pe rows)
          + out_period (tally_of ps pe rows)))
    = Z.of_nat (length (filter
        (fun r => allowed r
                  && negb (valid upper parse_date_str date_matches r F_date) = true)
        (counted_rows rows)))).
  { apply (tally_counts
             (fun t => unknown_time t
                       - (eligible_time_rows t
                          - (in_period_highmed t + in_period_low t + out_period t))));
      [done|intros; simpl; lia|].
    intros r. simpl. unfold allowed, allowed_row, valid.
    destruct (time_anchor_allowed_row upper r), (bool_decide _), (has_anchor _ _ _ r),
      (row_in_period _ _ _ ps pe r), (bool_decide (_ ∈ _)); reflexivity. }
  lia.
Qed.

(** X5. For each element (goods match, mark, subject, loop, verifiable
    source) the count over coverage-allowed rows never exceeds the count over
    all rows, and no count exceeds the number of counted rows. *)
Theorem allowed_counts_bounded (ps pe : option date) (rows : list row) :
  let t := tally_of ps pe rows in
  let n := Z.of_nat (length (counted_rows rows)) in
  0 <= goods_matched_allowed t <= goods_matched_total t
  /\ 0 <= mark_yes_allowed t <= mark_yes_total t
  /\ 0 <= subject_yes_allowed t <= subject_yes_total t
  /\ 0 <= loop_yes_allowed t <= loop_yes_total t
  /\ 0 <= verifiable_yes_allowed t <= verifiable_yes_total t
  /\ goods_matched_total t <= n /\ mark_yes_total t <= n
  /\ subject_yes_total t <= n /\ loop_yes_total t <= n
  /\ verifiable_yes_total t <= n /\ contradictions t <= n.
Proof.
  intros t n. subst t n.
  assert (Hall : forall (f : tally -> Z) (P : row -> bool),
            f tally_zero = 0 ->
            (forall a b, f (tally_add a b) = f a + f b) ->
            (forall r, f (row_tally upper parse_date_str date_matches ps pe r)
                       = one_if (P r)) ->
            0 <= f (tally_of ps pe rows)
            <= Z.of_nat (length (counted_rows rows))).
  { intros f P H0 Hadd Hrow. rewrite (tally_counts f P) by done.
    pose proof (length_filter (fun r => P r = true) (counted_rows rows)). lia. }
  assert (Hgap : forall (f g : tally -> Z) (P : row -> bool),
            f tally_zero = 0 -> g tally_zero = 0 ->
            (forall a b, f (tally_add a b) = f a + f b) ->
            (forall a b, g (tally_add a b) = g a + g b) ->
            (forall r, g (row_tally upper parse_date_str date_matches ps pe r)
                       - f (row_tally upper parse_date_str date_matches ps pe r)
                       = one_if (P r)) ->
            f (tally_of ps pe rows) <= g (tally_of ps pe rows)).
  { intros f g P H0 G0 Hf Hg Hrow.
    assert (E : g (tally_of ps pe rows) - f (tally_of ps pe rows)
                = Z.of_nat (length (filter (fun r => P r = true)
                                           (counted_rows rows)))).
    { apply (tally_counts (fun t => g t - f t) P); [lia| |done].
      intros a b. rewrite Hf, Hg. lia. }
    lia. }
  pose proof (Hall goods_matched_allowed _ eq_refl (fun _ _ => eq_refl)
                (fun _ => eq_refl)) as B1.
  pose proof (Hall mark_yes_allowed _ eq_refl (fun _ _ => eq_refl)
                (fun _ => eq_refl)) as B2.
  pose proof (Hall subject_yes_allowed _ eq_refl (fun _ _ => eq_refl)
                (fun _ => eq_refl)) as B3.
  pose proof (Hall loop_yes_allowed _ eq_refl (fun _ _ => eq_refl)
                (fun _ => eq_refl)) as B4.
  pose proof (Hall verifiable_yes_allowed _ eq_refl (fun _ _ => eq_refl)
                (fun _ => eq_refl)) as B5.
  pose proof (Hall goods_matched_total _ eq_refl (fun _ _ => eq_refl)
                (fun _ => eq_refl)) as B6.
  pose proof (Hall mark_yes_total _ eq_refl (fun _ _ => eq_refl)
                (fun _ => eq_refl)) as B7.
  pose proof (Hall subject_yes_total _ eq_refl (fun _ _ => eq_refl)
                (fun _ => eq_refl)) as B8.
  pose proof (Hall loop_yes_total _ eq_refl (fun _ _ => eq_refl)
                (fun _ => eq_refl)) as B9.
  pose proof (Hall verifiable_yes_total _ eq_refl (fun _ _ => eq_refl)
                (fun _ => eq_refl)) as B10.
  pose proof (Hall contradictions _ eq_refl (fun _ _ => eq_refl)
                (fun _ => eq_refl)) as B11.
  assert (goods_matched_allowed (tally_of ps pe rows)
          <= goods_matched_total (tally_of ps pe rows)) as G1.
  { eapply (Hgap goods_matched_allowed goods_matched_total
              (fun r => valid upper parse_date_str date_matches r F_goods
                        && text_in (upper (get_str r "Goods Match Level"))
                                   [u "G1"; u "G2"]
                        && negb (allowed r))); try done.
    intros r. simpl. unfold allowed, allowed_row.
    by destruct (_ && text_in _ _), (time_anchor_allowed_row upper r). }
  assert (mark_yes_allowed (tally_of ps pe rows)
          <= mark_yes_total (tally_of ps pe rows)) as G2.
  { eapply (Hgap mark_yes_allowed mark_yes_total
              (fun r => valid upper parse_date_str date_matches r F_mark_presence
                        && negb (allowed r))); try done.
    intros r. simpl. unfold allowed, allowed_row.
    by destruct (valid _ _ _ r F_mark_presence), (time_anchor_allowed_row upper r). }
  assert (subject_yes_allowed (tally_of ps pe rows)
          <= subject_yes_total (tally_of ps pe rows)) as G3.
  { eapply (Hgap subject_yes_allowed subject_yes_total
              (fun r => (text_eqb (get_yesno upper r "Subject Match (Y/N)") (u "Y")
                         || text_in (upper (get_str r "Entity Consistency"))
                                    [u "E1"; u "E2"])
                        && negb (allowed r))); try done.
    intros r. simpl. unfold allowed, allowed_row.
    by destruct (_ || text_in _ _), (time_anchor_allowed_row upper r). }
  assert (loop_yes_allowed (tally_of ps pe rows)
          <= loop_yes_total (tally_of ps pe rows)) as G4.
  { eapply (Hgap loop_yes_allowed loop_yes_total
              (fun r => text_eqb (get_yesno upper r "Commercial Loop (Y/N)") (u "Y")
                        && negb (allowed r
                                 && (negb (is_trade r)
                                     || valid upper parse_date_str date_matches r F_amount
                                        && valid upper parse_date_str date_matches r
                                             F_party)))); try done.
    intros r. simpl. unfold allowed, allowed_row.
    by destruct (text_eqb _ _), (time_anchor_allowed_row upper r), (is_trade r),
      (valid _ _ _ r F_amount), (valid _ _ _ r F_party). }
  assert (verifiable_yes_allowed (tally_of ps pe rows)
          <= verifiable_yes_total (tally_of ps pe rows)) as G5.
  { eapply (Hgap verifiable_yes_allowed verifiable_yes_total
              (fun r => text_eqb (get_yesno upper r "Original/Verifiable (Y/N)") (u "Y")
                        && negb (allowed r))); try done.
    intros r. simpl. unfold allowed, allowed_row.
    by destruct (text_eqb _ _), (time_anchor_allowed_row upper r). }
  lia.
Qed.
Lemma length_filter_zip_fst {A B} (f : A -> bool) (l : list A) (k : list B) :
  length l = length k ->
  length (filter (fun x => f x.1 = true) (zip l k))
  = length (filter (fun a => f a = true) l).
Proof.
  revert k. induction l as [|a l IH]; intros [|b k] Hlen; try done.
  simpl in Hlen. injection Hlen as Hlen. simpl.
  destruct (f a) eqn:E.
  - rewrite !filter_cons_True by done. simpl. by rewrite IH.
  - rewrite !filter_cons_False by (simpl; congruence). by rewrite IH.
Qed.

(** X6. Gate G1d lists one evidence id per row flagged as a contradiction:
    the list is as long as the contradiction counter, and the gate is set
    exactly when that counter is positive. *)
Theorem G1d_lists_contradictions (rows : list row) (ps pe : option date) :
  let d := diagnose rows ps pe in
  Z.of_nat (length (G1d (gate_details d))) = contradictions (summary d)
  /\ (gate_flags d G1d = true <-> 0 < contradictions (summary d)).
Proof.
  intros d.
  assert (Hlen : Z.of_nat (length (G1d (gate_details d)))
                 = contradictions (summary d)).
  { subst d. unfold diagnose, build_defense_diagnostics. simpl.
    fold (tally_of ps pe rows). unfold g1d_ids.
    rewrite length_fmap.
    rewrite (length_filter_zip_fst
               (fun r => contradiction
                           (Risk.infer upper parse_date_str date_matches r)))
      by (by rewrite length_imap).
    symmetry.
    apply (tally_counts contradictions
             (fun r => contradiction (Risk.infer upper parse_date_str date_matches r)));
      done. }
  split; [done|]. rewrite <- Hlen. unfold gate_flags, flag.
  destruct (G1d (gate_details d)); simpl; split; intros; try done; lia.
Qed.

(** X7. The period gates: G1a is set exactly when the period is unresolved,
    and then neither G1b nor G1c is set; G1c is set exactly when the period
    is resolved, no scored row has a HIGH or MEDIUM anchor in the period and
    some scored row has a lower one. *)
Theorem period_gates (rows : list row) (ps pe : option date) :
  let d := diagnose rows ps pe in
  (gate_flags d G1a = true <-> ps = None \/ pe = None)
  /\ (gate_flags d G1a = true ->
      gate_flags d G1b = false /\ gate_flags d G1c = false)
  /\ (gate_flags d G1c = true <->
      (exists s e, ps = Some s /\ pe = Some e)
      /\ highmed_rows upper parse_date_str date_matches ps pe rows = []
      /\ low_rows upper parse_date_str date_matches ps pe rows <> []).
Proof.
  intros d. subst d.
  unfold gate_flags, diagnose, build_defense_diagnostics, flag. simpl.
  fold (tally_of ps pe rows).
  rewrite (highmed_count upper parse_date_str date_matches),
          (low_count upper parse_date_str date_matches).
  rewrite <- !(length_zero_iff_nil (highmed_rows _ _ _ _ _ _)).
  rewrite <- !(length_zero_iff_nil (low_rows _ _ _ _ _ _)).
  set (h := Z.of_nat (length (highmed_rows _ _ _ _ _ _))).
  set (l := Z.of_nat (length (low_rows _ _ _ _ _ _))).
  assert (0 <= l) by (subst l; lia).
  destruct ps as [s|], pe as [e|]; simpl.
  - split; [|split].
    + split; [done|intros [?|?]; done].
    + done.
    + destruct (Z.eqb_spec h 0), (Z.eqb_spec l 0), (Z.ltb_spec 0 l); simpl;
        split; try done; try lia; try (intros (_ & ? & ?); lia).
      intros _. split; [by eexists _, _|lia].
  - split; [|split]; [split; auto|done|].
    split; [done|intros [(? & ? & ? & ?) _]; done].
  - split; [|split]; [split; auto|done|].
    split; [done|intros [(? & ? & ? & ?) _]; done].
  - split; [|split]; [split; auto|done|].
    split; [done|intros [(? & ? & ? & ?) _]; done].
Qed.

(** X8. With no counted row (an empty evidence set, or rows without an
    evidence id) the table is empty, the element gates G2, G3, G4 and G6 are
    set, G1d is not, G1b is set exactly when the period is resolved, and the
    risk level is the hard-fail level of the profile. *)
Theorem empty_evidence_set (rows : list row) (ps pe : option date) :
  counted_rows rows = [] ->
  let d := diagnose rows ps pe in
  evidence_rows d = []
  /\ gate_flags d G2 = true /\ gate_flags d G3 = true
  /\ gate_flags d G4 = true /\ gate_flags d G6 = true
  /\ gate_flags d G1d = false
  /\ gate_flags d G1b = resolved ps pe
  /\ risk_level_from_case cfg d = default (u "E") (hard_fail_level cfg).
Proof.
  intros Hempty d.
  assert (Ht : tally_of ps pe rows = tally_zero).
  { unfold tally_of, tally_rows. by rewrite Hempty. }
  assert (H2 : gate_flags d G2 = true).
  { subst d. unfold gate_flags, diagnose, build_defense_diagnostics, flag.
    cbn [gate_details]. fold (tally_of ps pe rows). by rewrite Ht. }
  assert (Hrisk : risk_level_from_case cfg d = default (u "E") (hard_fail_level cfg)).
  { clearbody d. unfold risk_level_from_case. cbv zeta. rewrite H2.
    destruct (gate_flags d G1a || gate_flags d G1b); [done|].
    by rewrite orb_true_l. }
  assert (Hflag : forall sel : gates -> list text,
            gate_flags d sel
            = nonempty (sel (gates_of upper parse_date_str date_matches
                               evidence_id_display cfg ps pe rows tally_zero))).
  { intros sel. subst d.
    unfold gate_flags, diagnose, build_defense_diagnostics, flag.
    cbn [gate_details]. fold (tally_of ps pe rows). by rewrite Ht. }
  split; [|split; [|split; [|split; [|split; [|split; [|split]]]]]].
  - subst d. unfold diagnose, build_defense_diagnostics. cbn [evidence_rows].
    by rewrite Hempty.
  - exact H2.
  - by rewrite Hflag.
  - by rewrite Hflag.
  - by rewrite Hflag.
  - rewrite Hflag. unfold gates_of. cbn [G1d]. unfold g1d_ids. by rewrite Hempty.
  - rewrite Hflag. unfold gates_of. cbn [G1b]. by destruct (resolved ps pe).
  - exact Hrisk.
Qed.

(** X9. [clamp] returns a value between 0 and 100 for every float, NaN and
    the infinities included. *)
Theorem clamp_within_bounds (x : float) :
  PrimFloat.leb 0 (clamp x) = true /\ PrimFloat.leb (clamp x) 100 = true.
Proof.
  assert (Hlt : forall a b, PrimFloat.ltb a b = true -> PrimFloat.leb a b = true).
  { intros a b. rewrite FloatAxioms.ltb_spec, FloatAxioms.leb_spec.
    unfold SpecFloat.SFltb, SpecFloat.SFleb.
    by destruct (SpecFloat.SFcompare _ _) as [[| |]|]. }
  unfold clamp.
  change (float_of_Z 100) with 100%float. change (float_of_Z 0) with 0%float.
  destruct (PrimFloat.ltb x 100) eqn:E1.
  - destruct (PrimFloat.ltb 0 x) eqn:E2; [by auto|by vm_compute].
  - by vm_compute.
Qed.
(** X10. When neither the hard-fail level nor any degrade level of the
    profile is A, a case rated A has none of the gates G1a, G1b, G2, G3, G4,
    G5 and G6 set (G1c and G1d do not bar the best tier). *)
Theorem level_A_clears_gates (d : diagnostics) :
  default (u "E") (hard_fail_level cfg) <> u "A" ->
  (forall key v, degrade_cfg cfg !! key = Some v -> v <> u "A") ->
  risk_level_from_case cfg d = u "A" ->
  gate_flags d G1a = false /\ gate_flags d G1b = false
  /\ gate_flags d G2 = false /\ gate_flags d G3 = false
  /\ gate_flags d G4 = false /\ gate_flags d G5 = false
  /\ gate_flags d G6 = false.
Proof.
  intros Hhard Hdeg.
  assert (Hd : forall key dflt, u dflt <> u "A" -> degrade cfg key dflt <> u "A").
  { intros key dflt Hne. unfold degrade.
    destruct (degrade_cfg cfg !! key) as [v|] eqn:E; simpl; [by eapply Hdeg|done]. }
  unfold risk_level_from_case. cbv zeta.
  destruct (gate_flags d G1a), (gate_flags d G1b), (gate_flags d G2),
    (gate_flags d G3), (gate_flags d G4), (gate_flags d G5), (gate_flags d G6);
    cbn [orb andb negb]; try (intros H; by destruct (Hhard H)); try done.
  all: destruct (meets_anchor_minimum cfg d); intros H; exfalso;
    revert H; apply Hd; by vm_compute.
Qed.

Lemma unresolved_not_in_period (ps pe : option date) (r : row) :
  resolved ps pe = false ->
  row_in_period upper parse_date_str date_matches ps pe r = false.
Proof. unfold row_in_period. by destruct ps, pe. Qed.

(** X11. On the diagnostics the engine builds, the submission verdict is
    FAIL exactly when no scored row has a HIGH or MEDIUM anchor in the
    period; it is PASS exactly when there is such a row, some allowed goods
    match, and G3 and G4 are clear; and a verdict other than FAIL implies
    that G1a and G1b are clear. *)
Theorem verdict_on_built_diagnostics (rows : list row) (ps pe : option date) :
  let d := diagnose rows ps pe in
  let v := (Verdict.derive_submission_verdict d).1 in
  (v = Verdict.FAIL <-> in_period_highmed (summary d) = 0)
  /\ (v = Verdict.PASS <->
      0 < in_period_highmed (summary d) /\ 0 < goods_matched_allowed (summary d)
      /\ gate_flags d G3 = false /\ gate_flags d G4 = false)
  /\ (v <> Verdict.FAIL -> gate_flags d G1a = false /\ gate_flags d G1b = false).
Proof.
  intros d v.
  assert (Hhm : in_period_highmed (summary d)
                = Z.of_nat (length (highmed_rows upper parse_date_str date_matches
                                      ps pe rows))).
  { subst d. unfold diagnose, build_defense_diagnostics. cbn [summary].
    apply highmed_count. }
  assert (Hres : 0 < in_period_highmed (summary d) -> resolved ps pe = true).
  { rewrite Hhm. destruct (resolved ps pe) eqn:E; [done|].
    unfold highmed_rows. intros Hpos. exfalso.
    assert (Hnil : forall l : list row, filter
              (fun r => scored_in_period upper parse_date_str date_matches ps pe r
                        && bool_decide
                             (a_confidence
                                (Risk.infer upper parse_date_str date_matches r)
                              ∈ [HIGH; MEDIUM]) = true) l = []).
    { induction l as [|r l IH]; [done|].
      rewrite filter_cons_False; [exact IH|].
      unfold scored_in_period. rewrite unresolved_not_in_period by done.
      by rewrite andb_false_r. }
    rewrite Hnil in Hpos. simpl in Hpos. lia. }
  assert (Hgates :
    gate_flags d G1a = negb (resolved ps pe)
    /\ (0 < in_period_highmed (summary d) -> gate_flags d G1b = false)
    /\ gate_flags d G2 = (goods_matched_allowed (summary d) =? 0)).
  { subst d. unfold gate_flags, diagnose, build_defense_diagnostics, flag.
    cbn [gate_details summary gates_of G1a G1b G2].
    fold (tally_of ps pe rows).
    split; [by destruct (resolved ps pe)|]. split.
    - intros Hpos. destruct (resolved ps pe); [|done].
      destruct (Z.eqb_spec (in_period_highmed (tally_of ps pe rows)) 0); [lia|done].
    - by destruct (_ =? 0). }
  destruct Hgates as (Ha & Hb & Hg2).
  assert (Hnn : 0 <= in_period_highmed (summary d)) by (rewrite Hhm; lia).
  subst v. unfold Verdict.derive_submission_verdict. cbv zeta.
  destruct (Z.ltb_spec 0 (in_period_highmed (summary d))) as [Hpos|Hzero].
  - rewrite Ha, (Hres Hpos), (Hb Hpos), Hg2.
    destruct (Z.ltb_spec 0 (goods_matched_allowed (summary d))),
      (gate_flags d G3), (gate_flags d G4),
      (Z.eqb_spec (goods_matched_allowed (summary d)) 0);
      cbn [andb orb negb fst]; repeat split; intros; try done; try lia;
      try (by destruct_and?).
  - cbn [andb fst]. repeat split; intros; try done; try lia.
Qed.
End RiskExtras.

(** A concrete case of X1: January 2023 against the years 2022 to 2024. *)
Lemma overlap_shared_day_example :
  ymd 2023 1 1 <= ymd 2023 1 31 /\ ymd 2022 1 1 <= ymd 2024 12 31
  /\ Risk.overlap (Some (ymd 2023 1 1)) (Some (ymd 2023 1 31))
       (Some (ymd 2022 1 1)) (Some (ymd 2024 12 31)) = true.
Proof.
  assert (H1 : ymd 2023 1 1 <= ymd 2023 1 31) by (vm_compute; discriminate).
  assert (H2 : ymd 2022 1 1 <= ymd 2024 12 31) by (vm_compute; discriminate).
  split; [exact H1|]. split; [exact H2|].
  apply (proj1 (overlap_shared_day _ _ _ _ H1 H2)).
  exists (ymd 2023 1 1). vm_compute. repeat split; discriminate.
Defined.

(** A concrete case of X2: the row whose formation date is 2023-06-30 while
    its explicit range is January 2023. *)
Lemma contradiction_example :
  let a := Risk.infer_time_anchor_row ascii_upper Scenarios.no_parse
             Scenarios.no_matches Scenarios.row_contradiction in
  Risk.contradiction a = true
  /\ exists f s e,
       Risk.formation_date a = Some f
       /\ Risk.anchor_start a = Some s /\ Risk.anchor_end a = Some e
       /\ s <= e /\ (f < s - 30 \/ e + 30 < f).
Proof.
  intros a.
  assert (Hc : Risk.contradiction a = true) by (vm_compute; reflexivity).
  split; [exact Hc|].
  destruct (contradiction_needs_explicit_range ascii_upper Scenarios.no_parse
              Scenarios.no_matches Scenarios.row_contradiction Hc)
    as (f & s & e & Hf & Hs & He & Hle & Hout & _).
  exists f, s, e. repeat split; assumption.
Defined.

(** A concrete case of X8: a casebook whose only row has no evidence id. *)
Lemma empty_evidence_set_example :
  let d := Risk.build_defense_diagnostics ascii_upper Scenarios.no_parse
             Scenarios.no_matches Scenarios.plain_id Risk.default_rules
             [Scenarios.row_no_id]
             (fst Scenarios.period_2022_2024) (snd Scenarios.period_2022_2024) in
  Risk.counted_rows [Scenarios.row_no_id] = []
  /\ Risk.evidence_rows d = []
  /\ Risk.gate_flags d Risk.G1b = true
  /\ Risk.risk_level_from_case Risk.default_rules d = u "E".
Proof.
  intros d.
  assert (He : Risk.counted_rows [Scenarios.row_no_id] = [])
    by (vm_compute; reflexivity).
  split; [exact He|].
  destruct (empty_evidence_set ascii_upper Scenarios.no_parse
              Scenarios.no_matches Scenarios.plain_id Risk.default_rules
              [Scenarios.row_no_id]
              (fst Scenarios.period_2022_2024) (snd Scenarios.period_2022_2024) He)
    as (H1 & _ & _ & _ & _ & _ & H7 & H8).
  split; [exact H1|]. split; [exact H7|]. exact H8.
Defined.

(** A concrete case of X10: under the built-in profile the complete trade row
    is rated A, so every barring gate is clear. *)
Lemma level_A_example :
  let d := Risk.build_defense_diagnostics ascii_upper Scenarios.no_parse
             Scenarios.no_matches Scenarios.plain_id Risk.default_rules
             [Scenarios.row_best]
             (fst Scenarios.period_2022_2024) (snd Scenarios.period_2022_2024) in
  Risk.risk_level_from_case Risk.default_rules d = u "A"
  /\ Risk.gate_flags d Risk.G1a = false /\ Risk.gate_flags d Risk.G1b = false
  /\ Risk.gate_flags d Risk.G2 = false /\ Risk.gate_flags d Risk.G3 = false
  /\ Risk.gate_flags d Risk.G4 = false /\ Risk.gate_flags d Risk.G5 = false
  /\ Risk.gate_flags d Risk.G6 = false.
Proof.
  intros d.
  assert (HA : Risk.risk_level_from_case Risk.default_rules d = u "A")
    by (vm_compute; reflexivity).
  split; [exact HA|].
  apply (level_A_clears_gates Risk.default_rules d).
  - vm_compute. discriminate.
  - intros key v Hv. vm_compute in Hv. discriminate.
  - exact HA.
Defined.

(** * Further properties of the scan controller *)

Section TextFacts.
Import Py.

Lemma starts_with_app (x b : text) : starts_with x (x ++ b) = true.
Proof. induction x as [|c x IH]; [done|]. simpl. by rewrite N.eqb_refl. Qed.

Lemma contains_app_r (x a : text) : contains x (a ++ x) = true.
Proof.
  induction a as [|c a IH]; simpl.
  - pose proof (starts_with_app x []) as Hx. rewrite app_nil_r in Hx.
    destruct x; simpl in *; [done|]. by rewrite Hx.
  - rewrite IH. apply orb_true_r.
Qed.

Lemma contains_refl (x : text) : contains x x = true.
Proof. apply (contains_app_r x []). Qed.

Lemma contains_app_l (x b : text) : contains x (x ++ b) = true.
Proof.
  destruct x as [|c x]; [by destruct b|].
  simpl. by rewrite N.eqb_refl, starts_with_app.
Qed.

Lemma lstrip_suffix (s : text) : exists k, s = k ++ lstrip s.
Proof.
  induction s as [|c s [k IH]]; [by exists []|]. simpl.
  destruct (is_space c); [|by exists []].
  exists (c :: k). simpl. by f_equal.
Qed.

Lemma lstrip_idem (s : text) : lstrip (lstrip s) = lstrip s.
Proof.
  induction s as [|c s IH]; [done|]. simpl.
  destruct (is_space c) eqn:E; [done|]. simpl. by rewrite E.
Qed.

Lemma lstrip_app (a b : text) : a <> [] -> lstrip a = a -> lstrip (a ++ b) = a ++ b.
Proof.
  destruct a as [|c a]; [done|]. intros _. simpl.
  destruct (is_space c); [|done].
  intros Heq. exfalso.
  destruct (lstrip_suffix a) as [k Hk].
  apply (f_equal length) in Heq. rewrite Hk in Heq at 2.
  simpl in Heq. rewrite length_app in Heq. lia.
Qed.

(** [strip] leaves no whitespace at either end. *)
Lemma strip_stripped (s : text) :
  lstrip (strip s) = strip s /\ lstrip (rev (strip s)) = rev (strip s).
Proof.
  unfold strip. rewrite rev_involutive. split; [|apply lstrip_idem].
  destruct (lstrip_suffix (rev (lstrip s))) as [k Hk].
  set (r := lstrip (rev (lstrip s))) in *.
  assert (Ht : lstrip s = rev r ++ rev k).
  { by rewrite <- rev_app_distr, <- Hk, rev_involutive. }
  destruct (rev r) as [|c q] eqn:Er; [done|].
  pose proof (lstrip_idem s) as Hi. rewrite Ht in Hi. simpl in Hi. simpl.
  destruct (is_space c); [|done].
  exfalso. destruct (lstrip_suffix (q ++ rev k)) as [k' Hk'].
  apply (f_equal length) in Hi. rewrite Hk' in Hi at 2.
  simpl in Hi. rewrite length_app in Hi. lia.
Qed.

Lemma strip_of_stripped (s : text) :
  lstrip s = s /\ lstrip (rev s) = rev s -> strip s = s.
Proof. intros [H1 H2]. unfold strip. by rewrite H1, H2, rev_involutive. Qed.

Lemma stripped_join (a m b : text) :
  lstrip a = a /\ lstrip (rev a) = rev a ->
  lstrip b = b /\ lstrip (rev b) = rev b ->
  a <> [] -> b <> [] ->
  lstrip (a ++ m ++ b) = a ++ m ++ b
  /\ lstrip (rev (a ++ m ++ b)) = rev (a ++ m ++ b).
Proof.
  intros [Ha1 Ha2] [Hb1 Hb2] Ha Hb. split.
  - by apply lstrip_app.
  - rewrite !rev_app_distr, <- app_assoc. apply lstrip_app; [|done].
    intros Hr. apply Hb. by rewrite <- (rev_involutive b), Hr.
Qed.

End TextFacts.

Section ControllerExtras.
Import Controller.

Variable extract_dates_advanced : text -> option date -> option date -> list date.

Let score := scan_text_signal_score extract_dates_advanced.

Lemma one_if_bounds (b : bool) : 0 <= one_if b <= 1.
Proof. destruct b; simpl; lia. Qed.

Lemma signal_score_bounds (src mark goods : text) : 0 <= score src mark goods <= 5.
Proof.
  unfold score, scan_text_signal_score.
  repeat match goal with
         | |- context [one_if ?b] =>
             let H := fresh "Hb" in
             pose proof (one_if_bounds b) as H; generalize dependent (one_if b)
         end.
  intros; lia.
Qed.

(** X12. The candidates for a rescan shrink and grow with the threshold: no
    file is picked for a threshold of 0 or less, every file is picked for a
    threshold above 5 (the score has five unit components), and the files
    picked for a threshold are among those picked for any larger one, in the
    same order. *)
Theorem pick_rescan_candidates_threshold
    (files : list text) (texts : gmap text text) (mark goods : text) :
  (forall m, m <= 0 ->
     pick_rescan_candidates extract_dates_advanced files texts mark goods m = [])
  /\ (forall m, 5 < m ->
     pick_rescan_candidates extract_dates_advanced files texts mark goods m = files)
  /\ (forall m n, m <= n ->
     sublist (pick_rescan_candidates extract_dates_advanced files texts mark goods m)
             (pick_rescan_candidates extract_dates_advanced files texts mark goods n)).
Proof.
  unfold pick_rescan_candidates. repeat split.
  - intros m Hm. induction files as [|p l IH]; [done|].
    rewrite filter_cons_False; [exact IH|].
    pose proof (signal_score_bounds (default [] (texts !! p)) mark goods).
    unfold score in *. lia.
  - intros m Hm. induction files as [|p l IH]; [done|].
    rewrite filter_cons_True; [by rewrite IH|].
    pose proof (signal_score_bounds (default [] (texts !! p)) mark goods).
    unfold score in *. lia.
  - intros m n Hmn. induction files as [|p l IH]; [done|].
    rewrite !filter_cons.
    destruct (decide (_ < m)) as [Hlt|Hge].
    + rewrite decide_True by lia. by constructor.
    + destruct (decide (_ < n)); [by constructor|exact IH].
Qed.

(** X13. When the cap is positive and smaller than the number of targets,
    the limited list has exactly [cap] entries, each of them one of the
    targets (counted with multiplicity), and it holds a file named as a chat
    image only when it holds every target that is not. *)
Theorem limit_rescan_targets_cap
    (targets : list text) (texts : gmap text text) (mark goods : text) (cap : Z) :
  0 < cap -> cap < Z.of_nat (length targets) ->
  let out := limit_rescan_targets extract_dates_advanced targets texts mark goods cap in
  let is_wechat p := contains (u "微信图片") (path_name p) in
  Z.of_nat (length out) = cap
  /\ out ⊆+ targets
  /\ (forall p q, p ∈ out -> is_wechat p = true ->
                  q ∈ targets -> is_wechat q = false -> q ∈ out).
Proof.
  intros Hpos Hcap out is_wechat. subst out. unfold limit_rescan_targets.
  destruct (Z.leb_spec cap 0) as [?|_]; [lia|].
  destruct (Z.leb_spec (Z.of_nat (length targets)) cap) as [?|_]; [lia|].
  cbn [orb]. cbv zeta.
  set (ordered := map snd (merge_sort _ _)).
  assert (Hperm : ordered ≡ₚ targets).
  { subst ordered. rewrite merge_sort_Permutation.
    change (map snd ?l) with (snd <$> l). rewrite fmap_imap.
    clear. induction targets as [|p l IH] using rev_ind; [done|].
    rewrite imap_app. simpl. by rewrite IH. }
  set (nw := filter (fun p => contains (u "微信图片") (path_name p) = false) ordered).
  set (wc := filter (fun p => contains (u "微信图片") (path_name p) = true) ordered).
  assert (Hlen : (length nw + length wc = length targets)%nat).
  { subst nw wc.
    rewrite (filter_split_length (fun p => contains (u "微信图片") (path_name p))).
    by rewrite Hperm. }
  assert (Hnw : nw ⊆+ targets).
  { rewrite <- Hperm. apply sublist_submseteq, sublist_filter. }
  assert (Hall : nw ++ wc ≡ₚ targets).
  { rewrite <- Hperm. subst nw wc. clear.
    induction ordered as [|x l IH]; [done|].
    rewrite !filter_cons.
    destruct (contains (u "微信图片") (path_name x)) eqn:E;
      repeat case_decide; simplify_eq.
    - rewrite <- Permutation_middle. by constructor.
    - simpl. by constructor. }
  destruct (Z.leb_spec cap (Z.of_nat (length nw))) as [Hfit|Hmore].
  - split; [rewrite length_take; lia|]. split.
    + etrans; [apply submseteq_take|exact Hnw].
    + intros p q Hp Hw. exfalso.
      apply elem_of_take in Hp as (i & Hp & _).
      apply list_elem_of_lookup_2 in Hp.
      apply list_elem_of_filter in Hp as [Hp _].
      subst is_wechat. simpl in Hw. congruence.
  - split; [rewrite length_app, length_take; lia|]. split.
    + rewrite <- Hall. apply submseteq_app; [done|apply submseteq_take].
    + intros p q _ _ Hq Hqw. apply elem_of_app. left.
      apply list_elem_of_filter. split; [done|]. by rewrite Hperm.
Qed.

(** X14. Merging scan texts is absorbing: the merged text has no surrounding
    whitespace, contains the stripped new text, and merging the same new
    text into it once more changes nothing. *)
Theorem merge_scan_text_absorbs (old_text new_text : text) :
  let merged := merge_scan_text old_text new_text in
  strip merged = merged
  /\ contains (strip new_text) merged = true
  /\ merge_scan_text merged new_text = merged.
Proof.
  intros merged.
  pose proof (strip_stripped old_text) as Ho.
  pose proof (strip_stripped new_text) as Hn.
  assert (Hshape :
    strip merged = merged /\ contains (strip new_text) merged = true
    /\ (strip new_text <> [] -> merged <> [])).
  { subst merged. unfold merge_scan_text. cbv zeta.
    destruct (nonempty (strip old_text)) eqn:Eo; cbn [negb].
    - destruct (nonempty (strip new_text)) eqn:En; cbn [negb].
      + destruct (contains (strip new_text) (strip old_text)) eqn:Ec.
        * split; [by apply strip_of_stripped|]. split; [done|].
          intros _. by apply nonempty_true.
        * split.
          { apply strip_of_stripped.
            apply stripped_join; try done; by apply nonempty_true. }
          split.
          { rewrite app_assoc. apply contains_app_r. }
          intros _. apply nonempty_true in Eo. by destruct (strip old_text).
      + apply nonempty_false in En. rewrite En.
        split; [by apply strip_of_stripped|]. split; [by destruct (strip old_text)|done].
    - split; [by apply strip_of_stripped|]. split; [apply contains_refl|done]. }
  destruct Hshape as (Hs & Hc & Hne).
  split; [exact Hs|]. split; [exact Hc|].
  unfold merge_scan_text at 1. cbv zeta. rewrite Hs.
  destruct (nonempty merged) eqn:Em; cbn [negb].
  - destruct (nonempty (strip new_text)); cbn [negb]; [|done]. by rewrite Hc.
  - apply nonempty_false in Em.
    destruct (strip new_text) as [|c r] eqn:En; [done|].
    exfalso. by apply Hne.
Qed.

(** X15. Merging case fields never loses one: a field filled in the primary
    dictionary keeps its value, a field filled only in the backup takes the
    backup value, the merged field is filled exactly when one of the two is,
    and no key is missing after the merge that was not missing before. *)
Theorem merge_case_info_keeps (primary backup : gmap string text) (k : string) :
  let merged := merge_case_info primary backup in
  (nonempty (case_get primary k) = true -> merged !! k = primary !! k)
  /\ (nonempty (case_get primary k) = false ->
      nonempty (case_get backup k) = true -> merged !! k = backup !! k)
  /\ nonempty (case_get merged k)
     = nonempty (case_get primary k) || nonempty (case_get backup k)
  /\ (k ∈ missing_case_keys merged -> k ∈ missing_case_keys primary).
Proof.
  intros merged.
  assert (Hk : merged !! k
               = match primary !! k, backup !! k with
                 | Some x, Some y =>
                     if negb (nonempty x) && nonempty y then Some y else Some x
                 | Some x, None => Some x
                 | None, Some y => if nonempty y then Some y else None
                 | None, None => None
                 end).
  { subst merged. unfold merge_case_info. rewrite lookup_merge.
    by destruct (primary !! k), (backup !! k). }
  assert (H1 : nonempty (case_get primary k) = true -> merged !! k = primary !! k).
  { rewrite Hk. unfold case_get.
    destruct (primary !! k) as [x|], (backup !! k) as [y|]; simpl; try done.
    by intros ->. }
  split; [exact H1|]. split; [|split].
  - rewrite Hk. unfold case_get.
    destruct (primary !! k) as [x|], (backup !! k) as [y|]; simpl; try done.
    + by intros -> ->.
    + by intros _ ->.
  - unfold case_get. rewrite Hk.
    destruct (primary !! k) as [x|], (backup !! k) as [y|]; simpl; try done.
    + destruct (nonempty x) eqn:Ex, (nonempty y) eqn:Ey; simpl; congruence.
    + by rewrite orb_false_r.
    + destruct (nonempty y) eqn:Ey; simpl; congruence.
  - unfold missing_case_keys. rewrite !list_elem_of_filter.
    intros [Hm Hin]. split; [|done].
    destruct (nonempty (case_get primary k)) eqn:E.
    + unfold case_get in *. by rewrite <- (H1 eq_refl).
    + apply nonempty_false in E. by rewrite E.
Qed.

End ControllerExtras.

(** * Properties of the duplicate filter *)

Section FilesExtras.
Import Files.

Variable extract_dates_advanced : text -> option date -> option date -> list date.
Variable pdf_page_count : text -> Z.
Variable sha1_hex : text -> text.
Variable scan_texts : gmap text text.

Let sigof := signature_of extract_dates_advanced pdf_page_count sha1_hex scan_texts.
Let run := dedup_run extract_dates_advanced pdf_page_count sha1_hex scan_texts.

(** What holds of the four containers after any number of turns. *)
Lemma dedup_run_invariant (files : list text) :
  let s := run files in
  sublist (unique_files s) files
  /\ NoDup (map sigof (unique_files s))
  /\ (forall sg c, sig_to_canonical s !! sg = Some c
                   <-> c ∈ unique_files s /\ sigof c = sg)
  /\ (forall p, p ∈ files -> is_Some (sig_to_canonical s !! sigof p))
  /\ (forall c ds, dup_map s !! c = Some ds ->
        c ∈ unique_files s
        /\ forall d, d ∈ ds -> d ∈ files /\ sigof d = sigof c)
  /\ (forall p, p ∈ files ->
        p ∈ unique_files s \/ exists c ds, dup_map s !! c = Some ds /\ p ∈ ds)
  /\ (forall c sg, sig_map s !! c = Some sg <-> c ∈ unique_files s /\ sg = sigof c).
Proof.
  induction files as [|p l IH] using rev_ind.
  - cbv zeta. simpl. repeat split; try done.
    + constructor.
    + intros [H _]. by apply elem_of_nil in H.
    + intros q H. by apply elem_of_nil in H.
    + intros q H. by apply elem_of_nil in H.
    + intros [H _]. by apply elem_of_nil in H.
  - cbv zeta in IH |- *. unfold run, dedup_run in *. rewrite foldl_app. simpl.
    set (s := foldl _ _ l) in *.
    destruct IH as (I1 & I2 & I3 & I4 & I5 & I6 & I7).
    unfold dedup_step. fold sigof.
    destruct (sig_to_canonical s !! sigof p) as [can|] eqn:Ecan.
    + (* a duplicate of [can] *)
      pose proof (proj1 (I3 _ _) Ecan) as [Hcan Hsig].
      cbn [unique_files sig_to_canonical dup_map sig_map].
      split; [by apply sublist_inserts_r|]. split; [done|]. split; [done|].
      split; [|split; [|split; [|done]]].
      * intros q Hq. apply elem_of_app in Hq as [Hq|Hq]; [by apply I4|].
        apply list_elem_of_singleton in Hq as ->. by rewrite Ecan.
      * intros c ds Hc. destruct (decide (c = can)) as [->|Hne].
        -- rewrite lookup_insert_eq in Hc. injection Hc as <-.
           split; [done|]. intros d Hd.
           apply elem_of_app in Hd as [Hd|Hd].
           ++ destruct (dup_map s !! can) as [ds0|] eqn:E0; simpl in Hd.
              ** destruct (I5 _ _ E0) as [_ H5]. destruct (H5 _ Hd) as [? ?].
                 split; [|done]. apply elem_of_app. by left.
              ** by apply elem_of_nil in Hd.
           ++ apply list_elem_of_singleton in Hd as ->.
              split; [|done]. apply elem_of_app. right. by apply list_elem_of_singleton.
        -- rewrite lookup_insert_ne in Hc by done.
           destruct (I5 _ _ Hc) as [? H5]. split; [done|].
           intros d Hd. destruct (H5 _ Hd) as [? ?].
           split; [|done]. apply elem_of_app. by left.
      * intros q Hq. apply elem_of_app in Hq as [Hq|Hq].
        -- destruct (I6 _ Hq) as [?|(c & ds & Hc & Hin)]; [by left|]. right.
           destruct (decide (c = can)) as [->|Hne].
           ++ exists can, (ds ++ [p]). rewrite lookup_insert_eq, Hc. simpl.
              split; [done|]. apply elem_of_app. by left.
           ++ exists c, ds. by rewrite lookup_insert_ne.
        -- apply list_elem_of_singleton in Hq as ->. right.
           exists can, (default [] (dup_map s !! can) ++ [p]).
           rewrite lookup_insert_eq. split; [done|].
           apply elem_of_app. right. by apply list_elem_of_singleton.
    + (* a new canonical file *)
      assert (Hfresh : forall c, c ∈ unique_files s -> sigof c <> sigof p).
      { intros c Hc Heq. assert (sig_to_canonical s !! sigof p = Some c) as Hx.
        { apply I3. by split. }
        congruence. }
      cbn [unique_files sig_to_canonical dup_map sig_map].
      split; [by apply sublist_app|].
      split.
      { rewrite map_app. apply NoDup_app. split; [done|]. split.
        - intros sg Hsg Hp. simpl in Hp. apply list_elem_of_singleton in Hp as ->.
          apply list_elem_of_fmap in Hsg as (c & Hc & Hin). by apply (Hfresh c).
        - simpl. apply NoDup_singleton. }
      split.
      { intros sg c. destruct (decide (sg = sigof p)) as [->|Hne].
        - rewrite lookup_insert_eq. split.
          + intros [= <-]. split; [|done]. apply elem_of_app. right.
            by apply list_elem_of_singleton.
          + intros [Hc Hs]. apply elem_of_app in Hc as [Hc|Hc].
            * by destruct (Hfresh c Hc).
            * by apply list_elem_of_singleton in Hc as ->.
        - rewrite lookup_insert_ne by done. rewrite I3. split.
          + intros [? ?]. split; [|done]. apply elem_of_app. by left.
          + intros [Hc Hs]. apply elem_of_app in Hc as [Hc|Hc]; [done|].
            apply list_elem_of_singleton in Hc as ->. congruence. }
      split.
      { intros q Hq. destruct (decide (sigof q = sigof p)) as [->|Hne].
        - by rewrite lookup_insert_eq.
        - rewrite lookup_insert_ne by done.
          apply elem_of_app in Hq as [Hq|Hq]; [by apply I4|].
          apply list_elem_of_singleton in Hq as ->. done. }
      split.
      { intros c ds Hc. destruct (decide (c = p)) as [->|Hne].
        - rewrite lookup_insert_eq in Hc. injection Hc as <-. split.
          + apply elem_of_app. right. by apply list_elem_of_singleton.
          + intros d Hd. by apply elem_of_nil in Hd.
        - rewrite lookup_insert_ne in Hc by done.
          destruct (I5 _ _ Hc) as [? H5]. split; [apply elem_of_app; by left|].
          intros d Hd. destruct (H5 _ Hd) as [? ?].
          split; [|done]. apply elem_of_app. by left. }
      split.
      { intros q Hq. apply elem_of_app in Hq as [Hq|Hq].
        - destruct (I6 _ Hq) as [?|(c & ds & Hc & Hin)].
          + left. apply elem_of_app. by left.
          + destruct (decide (c = p)) as [->|Hne].
            * destruct (I5 _ _ Hc) as [Hp _]. by destruct (Hfresh p Hp).
            * right. exists c, ds. by rewrite lookup_insert_ne.
        - left. apply elem_of_app. by right. }
      intros c sg. destruct (decide (c = p)) as [->|Hne].
      * rewrite lookup_insert_eq. split.
        -- intros [= <-]. split; [|done]. apply elem_of_app. right.
           by apply list_elem_of_singleton.
        -- by intros [_ ->].
      * rewrite lookup_insert_ne by done. rewrite I7. split.
        -- intros [? ?]. split; [|done]. apply elem_of_app. by left.
        -- intros [Hc ?]. apply elem_of_app in Hc as [Hc|Hc]; [done|].
           by apply list_elem_of_singleton in Hc.
Qed.

(** X16. The duplicate filter keeps the files of pairwise distinct signature,
    in their original order; every file has a kept file with its signature
    and is either kept or listed among the duplicates of a kept file; the
    duplicates listed under a kept file are input files with its signature;
    and the signature table holds exactly the kept files, each with its own
    signature. *)
Theorem deduplicate_scanned_files_invariants (files : list text) :
  let '(unique, dups, sigs) :=
    deduplicate_scanned_files extract_dates_advanced pdf_page_count sha1_hex
      scan_texts files in
  sublist unique files
  /\ NoDup (map sigof unique)
  /\ (forall p, p ∈ files -> exists c, c ∈ unique /\ sigof c = sigof p)
  /\ (forall p, p ∈ files ->
        p ∈ unique \/ exists c ds, dups !! c = Some ds /\ p ∈ ds)
  /\ (forall c ds, dups !! c = Some ds ->
        c ∈ unique /\ forall d, d ∈ ds -> d ∈ files /\ sigof d = sigof c)
  /\ (forall c sg, sigs !! c = Some sg <-> c ∈ unique /\ sg = sigof c).
Proof.
  unfold deduplicate_scanned_files. cbv zeta.
  destruct (dedup_run_invariant files) as (I1 & I2 & I3 & I4 & I5 & I6 & I7).
  fold run.
  split; [done|]. split; [done|]. split; [|done].
  intros p Hp. destruct (I4 p Hp) as [c Hc]. exists c. by apply I3.
Qed.

End FilesExtras.

(** * Properties of the channel conflict resolution *)

Section ConflictsExtras.
Import Resolver Conflicts.

Lemma sorted_set_elem (xs : list Z) (d : Z) : d ∈ sorted_set xs <-> d ∈ xs.
Proof.
  unfold sorted_set. rewrite merge_sort_Permutation. apply elem_of_remove_dups.
Qed.

Lemma sorted_set_increasing (xs : list Z) : StronglySorted Z.lt (sorted_set xs).
Proof.
  unfold sorted_set.
  pose proof (StronglySorted_merge_sort Z.le (remove_dups xs)) as Hs.
  assert (Hn : NoDup (merge_sort Z.le (remove_dups xs))).
  { rewrite merge_sort_Permutation. apply NoDup_remove_dups. }
  induction Hs as [|x l Hl IH Hall]; [constructor|].
  apply NoDup_cons in Hn as [Hx Hn].
  constructor; [by apply IH|].
  rewrite Forall_forall in Hall |- *. intros y Hy.
  specialize (Hall y Hy). assert (x <> y) by (intros ->; done). lia.
Qed.

Lemma nonempty_elem {A} (l : list A) : nonempty l = true <-> exists x, x ∈ l.
Proof.
  destruct l as [|a l]; simpl; split; try done.
  - intros [x Hx]. by apply elem_of_nil in Hx.
  - intros _. exists a. by left.
Qed.

Lemma dates_where_elem (f : Z -> bool) (w : gmap Z Z) (d : Z) :
  d ∈ dates_where f w <-> exists s, w !! d = Some s /\ f s = true.
Proof.
  unfold dates_where. rewrite list_elem_of_fmap. split.
  - intros ([k s] & -> & Hin). apply list_elem_of_filter in Hin as [Hf Hin].
    apply elem_of_map_to_list in Hin. by exists s.
  - intros (s & Hs & Hf). exists (d, s). split; [done|].
    apply list_elem_of_filter. split; [done|]. by apply elem_of_map_to_list.
Qed.

Lemma add_dates_keys (ps pe : option date) (ds : list date) (ch : channel)
    (t : tallies) (d : date) :
  is_Some (weighted (add_dates ps pe ds ch t) !! d)
  <-> d ∈ ds \/ is_Some (weighted t !! d).
Proof.
  unfold add_dates. revert t. induction ds as [|x ds IH]; intros t; simpl.
  - split; [by right|]. intros [H|H]; [by apply elem_of_nil in H|done].
  - rewrite IH. unfold add_date. cbn [weighted].
    rewrite elem_of_cons. destruct (decide (d = x)) as [->|Hne].
    + rewrite lookup_insert_eq. split; [by left; left|by right].
    + rewrite lookup_insert_ne by done. tauto.
Qed.

(** X17. The dates kept by the conflict resolution are strictly increasing
    and come from the four channels; none is kept only when no channel has a
    date; and when the period is known they never mix dates inside and
    outside the period. *)
Theorem resolve_time_conflicts_dates
    (base_dates review_dates order_dates logistics_dates : list date)
    (ps pe : option date) :
  let out :=
    (resolve_time_conflicts base_dates review_dates order_dates logistics_dates
       ps pe).1.1 in
  let given := base_dates ++ review_dates ++ order_dates ++ logistics_dates in
  StronglySorted Z.lt out
  /\ (forall d, d ∈ out -> d ∈ given)
  /\ (out = [] <-> given = [])
  /\ (forall s e, ps = Some s -> pe = Some e ->
        (forall d, d ∈ out -> s <= d <= e)
        \/ (forall d, d ∈ out -> ~ (s <= d <= e))).
Proof.
  intros out given. subst out. unfold resolve_time_conflicts. cbv zeta.
  set (t := add_dates ps pe logistics_dates Logistics _).
  assert (Hkeys : forall d, is_Some (weighted t !! d) <-> d ∈ given).
  { intros d. subst t given. rewrite !add_dates_keys. cbn [weighted].
    rewrite lookup_empty, !elem_of_app. rewrite is_Some_alt. tauto. }
  case_bool_decide as Hw.
  - cbn [fst]. split; [constructor|]. split; [by intros d Hd; apply elem_of_nil in Hd|].
    split.
    + split; [intros _|done]. destruct given as [|d g]; [done|]. exfalso.
      assert (is_Some (weighted t !! d)) as Hd by (apply Hkeys; by left).
      rewrite Hw, lookup_empty in Hd. by destruct Hd.
    + intros s e _ _. left. by intros d Hd; apply elem_of_nil in Hd.
  - set (high := dates_where (fun s => 5 <=? s) (weighted t)).
    set (positive := dates_where (fun s => 0 <? s) (weighted t)).
    set (every := dates_where (fun _ => true) (weighted t)).
    set (chosen := if nonempty high then high
                   else if nonempty positive then positive else every).
    assert (Hin : forall d, d ∈ chosen -> d ∈ given).
    { intros d Hd. apply Hkeys. subst chosen high positive every.
      repeat case_match; apply dates_where_elem in Hd as (s & -> & _); done. }
    assert (Hne : exists d, d ∈ chosen).
    { apply nonempty_elem. subst chosen.
      destruct (nonempty high) eqn:E1; [done|].
      destruct (nonempty positive) eqn:E2; [done|].
      apply nonempty_elem.
      destruct (map_to_list (weighted t)) as [|[k s] l] eqn:El.
      - apply map_to_list_empty_iff in El. done.
      - exists k. subst every. apply dates_where_elem. exists s. split; [|done].
        apply elem_of_map_to_list. rewrite El. by left. }
    set (preferred := sorted_set chosen).
    assert (Hpref : forall d, d ∈ preferred <-> d ∈ chosen)
      by (intros d; apply sorted_set_elem).
    assert (Hgiven_ne : given <> []).
    { destruct Hne as [d Hd]. apply Hin in Hd. intros Hg. rewrite Hg in Hd.
      by apply elem_of_nil in Hd. }
    destruct ps as [s|], pe as [e|];
      try (cbn [fst]; split; [apply sorted_set_increasing|];
           split; [intros d Hd; rewrite sorted_set_elem, Hpref in Hd; by apply Hin|];
           split; [|intros ? ? ? ?; discriminate];
           split; [|done]; intros Hnil; exfalso;
           destruct Hne as [d Hd]; rewrite <- Hpref, <- (sorted_set_elem preferred) in Hd;
           rewrite Hnil in Hd; by apply elem_of_nil in Hd).
    set (in_period := filter (fun d => inside s e d = true) preferred).
    set (out_period := filter (fun d => inside s e d = false) preferred).
    assert (Hinside : forall d, inside s e d = true <-> s <= d <= e).
    { intros d. unfold inside. rewrite andb_true_iff, !Z.leb_le. done. }
    destruct (nonempty in_period) eqn:Ei; cbn [andb].
    + destruct (nonempty out_period) eqn:Eo; cbn [fst].
      * split; [apply sorted_set_increasing|].
        split.
        { intros d Hd. rewrite sorted_set_elem in Hd. subst in_period.
          apply list_elem_of_filter in Hd as [_ Hd]. by apply Hin, Hpref. }
        split.
        { split; [|done]. intros Hnil. exfalso.
          apply nonempty_elem in Ei as [d Hd]. rewrite <- (sorted_set_elem in_period) in Hd.
          rewrite Hnil in Hd. by apply elem_of_nil in Hd. }
        intros s' e' [= <-] [= <-]. left. intros d Hd.
        rewrite sorted_set_elem in Hd. subst in_period.
        apply list_elem_of_filter in Hd as [Hd _]. by apply Hinside.
      * split; [apply sorted_set_increasing|].
        split; [intros d Hd; rewrite sorted_set_elem, Hpref in Hd; by apply Hin|].
        split.
        { split; [|done]. intros Hnil. exfalso.
          destruct Hne as [d Hd]. rewrite <- Hpref, <- (sorted_set_elem preferred) in Hd.
          rewrite Hnil in Hd. by apply elem_of_nil in Hd. }
        intros s' e' [= <-] [= <-]. left. intros d Hd.
        rewrite sorted_set_elem in Hd. apply Hinside.
        destruct (inside s e d) eqn:Ed; [done|]. exfalso.
        assert (d ∈ out_period) as Hx by (apply list_elem_of_filter; done).
        destruct out_period; [by apply elem_of_nil in Hx|done].
    + cbn [fst]. split; [apply sorted_set_increasing|].
      split; [intros d Hd; rewrite sorted_set_elem, Hpref in Hd; by apply Hin|].
      split.
      { split; [|done]. intros Hnil. exfalso.
        destruct Hne as [d Hd]. rewrite <- Hpref, <- (sorted_set_elem preferred) in Hd.
        rewrite Hnil in Hd. by apply elem_of_nil in Hd. }
      intros s' e' [= <-] [= <-]. right. intros d Hd Hrange.
      rewrite sorted_set_elem in Hd. apply Hinside in Hrange.
      assert (d ∈ in_period) as Hx by (apply list_elem_of_filter; done).
      destruct in_period; [by apply elem_of_nil in Hx|done].
Qed.

End ConflictsExtras.

(** * Properties of the page references *)

Section PagesExtras.
Import Pages.

#[local] Instance iv_le_trans : Transitive iv_le.
Proof. intros [a1 a2] [b1 b2] [c1 c2]. unfold iv_le. simpl. lia. Qed.

#[local] Instance iv_le_total : Total iv_le.
Proof. intros [a1 a2] [b1 b2]. unfold iv_le. simpl. lia. Qed.

Lemma merge_from_spec (rest : list (Z * Z)) :
  forall cur_s cur_e : Z,
  cur_s <= cur_e ->
  Forall (fun se => se.1 <= se.2) rest ->
  StronglySorted iv_le rest ->
  Forall (fun se => cur_s <= se.1) rest ->
  let out := merge_from cur_s cur_e rest in
  (forall n, (exists se, se ∈ out /\ se.1 <= n <= se.2)
             <-> cur_s <= n <= cur_e \/ exists se, se ∈ rest /\ se.1 <= n <= se.2)
  /\ Forall (fun se => se.1 <= se.2) out
  /\ Forall (fun se => cur_s <= se.1) out
  /\ StronglySorted (fun a b => a.2 + 1 < b.1) out.
Proof.
  induction rest as [|[s e] r IH]; intros cur_s cur_e Hcur Hwf Hsorted Hlow; simpl.
  - split; [|split; [|split]].
    + intros n. split.
      * intros (se & Hin & Hn). apply list_elem_of_singleton in Hin as ->. by left.
      * intros [Hn|(se & Hin & _)]; [|by apply elem_of_nil in Hin].
        exists (cur_s, cur_e). split; [by apply list_elem_of_singleton|done].
    + by repeat constructor.
    + repeat constructor. simpl. lia.
    + repeat constructor.
  - apply Forall_cons in Hwf as [Hse Hwf]. simpl in Hse.
    apply Forall_cons in Hlow as [Hs Hlow]. simpl in Hs.
    apply StronglySorted_inv in Hsorted as [Hsorted Hhead].
    assert (Hafter : Forall (fun se => s <= se.1) r).
    { eapply Forall_impl; [exact Hhead|]. intros [x y]. unfold iv_le. simpl. lia. }
    destruct (Z.leb_spec s (cur_e + 1)) as [Hjoin|Hgap].
    + destruct (IH cur_s (Z.max cur_e e) ltac:(lia) Hwf Hsorted Hlow)
        as (Hcov & Hok & Hst & Hsep).
      split; [|done]. intros n. rewrite Hcov. split.
      * intros [Hn|(se & Hin & Hn)].
        -- destruct (decide (n <= cur_e)); [left; lia|].
           right. exists (s, e). split; [by left|simpl; lia].
        -- right. exists se. split; [by right|done].
      * intros [Hn|(se & Hin & Hn)]; [left; lia|].
        apply elem_of_cons in Hin as [->|Hin]; [left; simpl in Hn; lia|].
        right. by exists se.
    + destruct (IH s e Hse Hwf Hsorted Hafter) as (Hcov & Hok & Hst & Hsep).
      split; [|split; [|split]].
      * intros n. split.
        -- intros (se & Hin & Hn). apply elem_of_cons in Hin as [->|Hin]; [by left|].
           right. destruct (proj1 (Hcov n)) as [Hx|(se' & Hin' & Hn')].
           ++ by exists se.
           ++ exists (s, e). split; [by left|done].
           ++ exists se'. split; [by right|done].
        -- intros [Hn|(se & Hin & Hn)].
           ++ exists (cur_s, cur_e). split; [by left|done].
           ++ destruct (proj2 (Hcov n)) as (se' & Hin' & Hn').
              { apply elem_of_cons in Hin as [->|Hin]; [by left|].
                right. by exists se. }
              exists se'. split; [by right|done].
      * by constructor.
      * constructor; [simpl; lia|].
        eapply Forall_impl; [exact Hst|]. intros [x y]. simpl. lia.
      * constructor; [done|].
        eapply Forall_impl; [exact Hst|]. intros [x y]. simpl. lia.
Qed.

(** X18. Merging page intervals keeps the set of pages: a page lies in a
    merged interval exactly when it lies in one of the given intervals (read
    in either order).  The merged intervals are well formed, and between any
    two of them, in their order, at least one page is left out. *)
Theorem merge_page_intervals_pages (intervals : list (Z * Z)) :
  let out := merge_page_intervals intervals in
  (forall n, (exists se, se ∈ out /\ se.1 <= n <= se.2) <-> covers intervals n)
  /\ Forall (fun se => se.1 <= se.2) out
  /\ StronglySorted (fun a b => a.2 + 1 < b.1) out.
Proof.
  intros out. subst out. unfold merge_page_intervals.
  set (normal := map (fun ab => (Z.min ab.1 ab.2, Z.max ab.1 ab.2)) intervals).
  pose proof (StronglySorted_merge_sort iv_le normal) as Hsorted.
  pose proof (merge_sort_Permutation iv_le normal) as Hperm.
  assert (Hwf : Forall (fun se => se.1 <= se.2) (merge_sort iv_le normal)).
  { rewrite Hperm. subst normal. apply Forall_forall. intros se Hin.
    apply list_elem_of_fmap in Hin as ([a b] & -> & _). simpl. lia. }
  assert (Hcov : forall n,
            (exists se, se ∈ merge_sort iv_le normal /\ se.1 <= n <= se.2)
            <-> covers intervals n).
  { intros n. unfold covers. split.
    - intros (se & Hin & Hn). rewrite Hperm in Hin. subst normal.
      apply list_elem_of_fmap in Hin as (ab & -> & Hin). by exists ab.
    - intros (ab & Hin & Hn). exists (Z.min ab.1 ab.2, Z.max ab.1 ab.2).
      split; [|done]. rewrite Hperm. subst normal.
      apply list_elem_of_fmap. by exists ab. }
  destruct (merge_sort iv_le normal) as [|[s e] r].
  - split; [|split; constructor]. intros n. rewrite <- Hcov. split.
    + intros (se & Hin & _). by apply elem_of_nil in Hin.
    + intros (se & Hin & _). by apply elem_of_nil in Hin.
  - apply Forall_cons in Hwf as [Hse Hwf]. simpl in Hse.
    apply StronglySorted_inv in Hsorted as [Hsorted Hhead].
    assert (Hafter : Forall (fun se => s <= se.1) r).
    { eapply Forall_impl; [exact Hhead|]. intros [x y]. unfold iv_le. simpl. lia. }
    destruct (merge_from_spec r s e Hse Hwf Hsorted Hafter) as (Hc & Hok & _ & Hsep).
    split; [|done]. intros n. rewrite <- Hcov, Hc. split.
    + intros [Hn|(se & Hin & Hn)].
      * exists (s, e). split; [by left|done].
      * exists se. split; [by right|done].
    + intros (se & Hin & Hn). apply elem_of_cons in Hin as [->|Hin]; [by left|].
      right. by exists se.
Qed.

End PagesExtras.

(** * Properties of the time gate of a file *)

Section GateExtras.
Import Gate.

Lemma hits_any (kws : list text) (src : text) :
  (1 <=? hits kws src) = any_in kws src.
Proof.
  unfold hits, any_in. rewrite <- nonempty_filter_existsb.
  destruct (filter _ kws) as [|k l]; [done|].
  simpl length. simpl nonempty. apply Z.leb_le. lia.
Qed.

(** X19. With the web verifiability inferred from the same text and key
    lines, only trade vouchers, shop pages and product pages can pass the time
    gate, and a shop page passes exactly when a strong channel (评价, 交易,
    物流) was used, or a strong keyword occurs, or at least two medium
    keywords occur and the anchor is system generated or a transaction date:
    the test for the tier S1 adds nothing. *)
Theorem time_gate_with_inferred_verifiability
    (kind text_ : text) (time_channels key_lines : list text) (anchor_type : text) :
  let w := infer_web_verifiability kind text_ key_lines in
  let src := gate_source text_ key_lines in
  let gate :=
    should_time_gate_evaluate kind text_ time_channels key_lines anchor_type w in
  (gate = true ->
   kind = u "交易凭证" \/ kind = u "线上店铺展示" \/ kind = u "商品展示页")
  /\ (kind = u "线上店铺展示" ->
      gate
      = existsb (fun ch => text_in ch [u "评价"; u "交易"; u "物流"]) time_channels
        || any_in WEB_VERIFIABILITY_STRONG src
        || ((2 <=? hits WEB_VERIFIABILITY_MEDIUM src)
            && text_in anchor_type [u "system_generated"; u "transaction_date"])).
Proof.
  intros w src gate. split.
  - subst gate. unfold should_time_gate_evaluate, text_eqb. cbv zeta.
    repeat case_bool_decide; try done; auto.
  - intros ->. subst gate w. unfold should_time_gate_evaluate, infer_web_verifiability.
    cbv zeta. fold src.
    assert (E1 : text_eqb (u "线上店铺展示") (u "程序文件") = false) by by vm_compute.
    assert (E2 : text_eqb (u "线上店铺展示") (u "交易凭证") = false) by by vm_compute.
    assert (E3 : text_eqb (u "线上店铺展示") (u "线上店铺展示") = true) by by vm_compute.
    assert (E4 : text_in (u "线上店铺展示") [u "线上店铺展示"; u "商品展示页"] = true)
      by by vm_compute.
    assert (S11 : text_eqb (u "S1") (u "S1") = true) by by vm_compute.
    assert (S21 : text_eqb (u "S2") (u "S1") = false) by by vm_compute.
    assert (S22 : text_eqb (u "S2") (u "S2") = true) by by vm_compute.
    assert (S31 : text_eqb (u "S3") (u "S1") = false) by by vm_compute.
    assert (S32 : text_eqb (u "S3") (u "S2") = false) by by vm_compute.
    rewrite E1, E2, E3, E4. cbn [negb].
    rewrite <- (hits_any WEB_VERIFIABILITY_STRONG src).
    set (strong := hits WEB_VERIFIABILITY_STRONG src).
    set (medium := hits WEB_VERIFIABILITY_MEDIUM src).
    set (C := existsb _ time_channels).
    set (A := text_in anchor_type _).
    destruct (Z.leb_spec 2 strong), (Z.leb_spec 1 strong), (Z.leb_spec 2 medium);
      try lia; cbn [orb]; rewrite ?S11, ?S21, ?S22, ?S31, ?S32;
      destruct C, A; reflexivity.
Qed.

(** X20. The tolerance for the first two or three characters of the mark
    name has no effect: for a known name that the text does not show, the
    confidence is MEDIUM when the mark-shown flag is Y and LOW otherwise,
    whether or not a prefix of the name occurs. *)
Theorem mark_name_confidence_ignores_prefix
    (mark_name text_ filename : text) (key_lines : list text) (flag : text) :
  let src := join [10%N] (filename :: take (Z.to_nat 8000) text_ :: key_lines) in
  let shown :=
    contains mark_name src
    || (nonempty (normalize_text mark_name)
        && contains (normalize_text mark_name) (normalize_text src)) in
  mark_name_confidence mark_name text_ filename key_lines flag
  = if negb (nonempty mark_name) || contains (u "待补") mark_name then NameUnknown
    else if shown then NameHigh
    else if text_eqb flag (u "Y") then NameMedium
    else NameLow.
Proof.
  intros src shown. unfold mark_name_confidence. cbv zeta.
  fold src. fold shown.
  destruct (negb (nonempty mark_name) || contains (u "待补") mark_name); [done|].
  destruct shown; [done|].
  by destruct (_ || _).
Qed.

End GateExtras.

(** A concrete case of X13: three targets, two of them chat images, and a
    cap of one. *)
Lemma limit_rescan_targets_example :
  let out := Controller.limit_rescan_targets Scenarios.case_dates
               Scenarios.case_files ∅ [] [] 1 in
  0 < 1 /\ 1 < Z.of_nat (length Scenarios.case_files)
  /\ Z.of_nat (length out) = 1 /\ out ⊆+ Scenarios.case_files.
Proof.
  intros out.
  assert (H0 : 0 < 1) by lia.
  assert (H1 : 1 < Z.of_nat (length Scenarios.case_files)) by (vm_compute; reflexivity).
  destruct (limit_rescan_targets_cap Scenarios.case_dates Scenarios.case_files
              ∅ [] [] 1 H0 H1) as (Hlen & Hsub & _).
  split; [exact H0|]. split; [exact H1|]. split; [exact Hlen|exact Hsub].
Defined.

(** * Further properties of the time-anchor resolver *)

Section ResolverExtras.
Import Resolver.

Variable is_decimal : N -> bool.
Variable extract_dates_advanced : text -> option date -> option date -> list date.

(** What one call of [add] does to the two dictionaries. *)
Lemma add_spec (ps pe : option date) (kind : text)
    (th : gmap Z anchor_kind) (ex : gmap Z bool) (ds : list Z) (ch : channel) :
  forall st : gmap Z (list channel) * gmap Z Z,
  let st' := add ps pe kind th ex st ds ch in
  (forall d, is_Some (st'.2 !! d) <-> d ∈ ds \/ is_Some (st.2 !! d))
  /\ (forall d c, c ∈ default [] (st'.1 !! d)
                  <-> (c = ch /\ d ∈ ds) \/ c ∈ default [] (st.1 !! d)).
Proof.
  unfold add. induction ds as [|x ds IH]; intros [dc sc]; simpl.
  - split.
    + intros d. split; [by right|]. intros [H|H]; [by apply elem_of_nil in H|done].
    + intros d c. split; [by right|].
      intros [[_ H]|H]; [by apply elem_of_nil in H|done].
  - match goal with |- context [foldl ?f ?s ds] => destruct (IH s) as [IH1 IH2] end.
    simpl in IH1, IH2. split.
    + intros d. rewrite IH1, elem_of_cons.
      destruct (decide (d = x)) as [->|Hne].
      * rewrite lookup_insert_eq. split; [by left; left|by right].
      * rewrite lookup_insert_ne by done. tauto.
    + intros d c. rewrite IH2, elem_of_cons.
      destruct (decide (d = x)) as [->|Hne].
      * rewrite lookup_insert_eq. simpl. case_bool_decide as Hold.
        -- intuition (subst; auto).
        -- rewrite elem_of_app, list_elem_of_singleton. intuition (subst; auto).
      * rewrite lookup_insert_ne by done. intuition (subst; auto).
Qed.

Lemma by_priority_elem (chs : list channel) (c : channel) :
  c ∈ by_priority chs <-> c ∈ chs.
Proof.
  unfold by_priority. rewrite list_elem_of_filter. split; [tauto|].
  intros H. split; [done|]. destruct c; repeat constructor.
Qed.

(** X21. The ranked candidates of the resolver: there are at most
    [max(1, top_k)] of them, no two for the same date; the channels of a
    candidate are exactly the channels whose date list holds its date, and
    there is at least one; the selected dates are strictly increasing and
    are dates of ranked candidates. *)
Theorem ranked_candidates
    (b r o l : list date) (ps pe : option date) (top_k : Z) (ctx kind : text) :
  let p := build_time_anchor_candidates is_decimal extract_dates_advanced
             b r o l ps pe top_k ctx kind in
  let dates_of ch :=
    match ch with Base => b | Review => r | Order => o | Logistics => l end in
  Z.of_nat (length (candidates p)) <= Z.max 1 top_k
  /\ NoDup (map c_date (candidates p))
  /\ (forall c, c ∈ candidates p ->
        c_channels c <> []
        /\ forall ch, ch ∈ c_channels c <-> c_date c ∈ dates_of ch)
  /\ StronglySorted Z.lt (selected_dates p)
  /\ (forall d, d ∈ selected_dates p -> exists c, c ∈ candidates p /\ c_date c = d).
Proof.
  intros p dates_of. subst p. unfold build_time_anchor_candidates.
  destruct (foldl _ _ _) as [th ex].
  pose proof (add_spec ps pe kind th ex b Base (∅, ∅)) as [Hs1 Hc1].
  set (st1 := add ps pe kind th ex (∅, ∅) b Base) in *.
  pose proof (add_spec ps pe kind th ex r Review st1) as [Hs2 Hc2].
  set (st2 := add ps pe kind th ex st1 r Review) in *.
  pose proof (add_spec ps pe kind th ex o Order st2) as [Hs3 Hc3].
  set (st3 := add ps pe kind th ex st2 o Order) in *.
  pose proof (add_spec ps pe kind th ex l Logistics st3) as [Hs4 Hc4].
  set (st4 := add ps pe kind th ex st3 l Logistics) in *.
  cbv zeta in Hs1, Hc1, Hs2, Hc2, Hs3, Hc3, Hs4, Hc4.
  assert (Hscore : forall d, is_Some (st4.2 !! d) -> exists ch, d ∈ dates_of ch).
  { intros d Hd. apply Hs4 in Hd as [Hd|Hd]; [by exists Logistics|].
    apply Hs3 in Hd as [Hd|Hd]; [by exists Order|].
    apply Hs2 in Hd as [Hd|Hd]; [by exists Review|].
    apply Hs1 in Hd as [Hd|Hd]; [by exists Base|].
    simpl in Hd. rewrite lookup_empty in Hd. by destruct Hd. }
  assert (Hchan : forall d ch, ch ∈ default [] (st4.1 !! d) <-> d ∈ dates_of ch).
  { intros d ch. rewrite Hc4, Hc3, Hc2, Hc1. simpl. rewrite lookup_empty. simpl.
    rewrite elem_of_nil. destruct ch; simpl; intuition (try discriminate; auto). }
  clearbody st4. clear Hs1 Hc1 Hs2 Hc2 Hs3 Hc3 Hs4 Hc4 st1 st2 st3.
  destruct st4 as [dc sc]. simpl in Hscore, Hchan.
  case_bool_decide as Hempty.
  { cbn [candidates selected_dates].
    split; [simpl; lia|]. split; [constructor|].
    split; [by intros c Hc; apply elem_of_nil in Hc|].
    split; [constructor|]. by intros d Hd; apply elem_of_nil in Hd. }
  cbv zeta. cbn [candidates selected_dates].
  set (rows := map (cand_row ps pe dc th ex) (map_to_list sc)).
  set (top := take (Z.to_nat (Z.max 1 top_k)) (merge_sort cand_le rows)).
  assert (Hdate : forall item, c_date (cand_row ps pe dc th ex item) = item.1).
  { by intros [d z]. }
  assert (Htop : sublist top (merge_sort cand_le rows)) by apply sublist_take.
  assert (Hrow : forall c, c ∈ top ->
            exists d z, sc !! d = Some z /\ c = cand_row ps pe dc th ex (d, z)).
  { intros c Hc. unfold top in Hc. apply subseteq_take in Hc.
    rewrite merge_sort_Permutation in Hc. subst rows.
    apply list_elem_of_fmap in Hc as ([d z] & -> & Hin).
    apply elem_of_map_to_list in Hin. by exists d, z. }
  split; [subst top; rewrite length_take; lia|].
  split.
  { apply (sublist_NoDup _ (c_date <$> merge_sort cand_le rows)).
    - rewrite merge_sort_Permutation. subst rows.
      change (NoDup (c_date <$> (cand_row ps pe dc th ex <$> map_to_list sc))).
      rewrite <- list_fmap_compose.
      erewrite list_fmap_ext; [apply (NoDup_fst_map_to_list sc)|].
      intros i [d z] _. reflexivity.
    - apply fmap_sublist. exact Htop. }
  split.
  { intros c Hc. destruct (Hrow c Hc) as (d & z & Hz & ->). simpl.
    assert (Hall : forall ch, ch ∈ by_priority (default [] (dc !! d))
                              <-> d ∈ dates_of ch).
    { intros ch. by rewrite by_priority_elem, Hchan. }
    split; [|exact Hall].
    destruct (Hscore d) as [ch Hch]; [by rewrite Hz|].
    apply Hall in Hch. intros Hnil. rewrite Hnil in Hch.
    by apply elem_of_nil in Hch. }
  split; [apply sorted_set_increasing|].
  intros d Hd. rewrite sorted_set_elem in Hd.
  apply list_elem_of_fmap in Hd as (c & -> & Hc).
  exists c. split; [|done].
  destruct (nonempty (filter _ top)); [|done].
  by apply list_elem_of_filter in Hc as [_ Hc].
Qed.

End ResolverExtras.

(** * The risk tiers of the built-in profile *)

Section DefaultProfile.
Import Risk.

(** X22. Under the built-in profile the risk level is one of A, B, C, D and
    E; it is E exactly when one of the gates G1a, G1b, G2, G3 and G4 is set;
    otherwise it is C or D when both G5 and G6 are set, and B or C when
    exactly one of them is. *)
Theorem default_profile_levels (d : diagnostics) :
  let lv := risk_level_from_case default_rules d in
  let gf := gate_flags d in
  let hard := gf G1a || gf G1b || gf G2 || gf G3 || gf G4 in
  lv ∈ map u ["A"; "B"; "C"; "D"; "E"]%string
  /\ (lv = u "E" <-> hard = true)
  /\ (hard = false -> gf G5 && gf G6 = true -> lv = u "C" \/ lv = u "D")
  /\ (hard = false -> xorb (gf G5) (gf G6) = true -> lv = u "B" \/ lv = u "C").
Proof.
  intros lv gf hard. subst lv hard gf.
  unfold risk_level_from_case, degrade. cbv zeta.
  change (hard_fail_level default_rules) with (@None text).
  change (degrade_cfg default_rules) with (∅ : gmap string text).
  rewrite !lookup_empty. cbn [default].
  assert (HA : u "A" ∈ map u ["A"; "B"; "C"; "D"; "E"]%string) by compute_done.
  assert (HB : u "B" ∈ map u ["A"; "B"; "C"; "D"; "E"]%string) by compute_done.
  assert (HC : u "C" ∈ map u ["A"; "B"; "C"; "D"; "E"]%string) by compute_done.
  assert (HD : u "D" ∈ map u ["A"; "B"; "C"; "D"; "E"]%string) by compute_done.
  assert (HE : u "E" ∈ map u ["A"; "B"; "C"; "D"; "E"]%string) by compute_done.
  assert (NA : u "A" <> u "E") by (vm_compute; discriminate).
  assert (NB : u "B" <> u "E") by (vm_compute; discriminate).
  assert (NC : u "C" <> u "E") by (vm_compute; discriminate).
  assert (ND : u "D" <> u "E") by (vm_compute; discriminate).
  destruct (gate_flags d G1a), (gate_flags d G1b), (gate_flags d G2),
    (gate_flags d G3), (gate_flags d G4); cbn [orb];
    try (split; [exact HE|]; split; [done|]; split; discriminate).
  destruct (gate_flags d G5), (gate_flags d G6); cbn [andb orb xorb];
    destruct (meets_anchor_minimum default_rules d);
    repeat match goal with
           | |- context [if ?b then _ else _] => destruct b
           end;
    (split; [assumption|]); (split; [split; [by intros ?|discriminate]|]);
    split; intros; try discriminate; auto.
Qed.

End DefaultProfile.

(** * What the signature does not see *)

Section DedupExtras.
Import Dedup.

Variable extract_dates_advanced : text -> option date -> option date -> list date.
Variable pdf_page_count : text -> Z.
Variable sha1_hex : text -> text.

Let signature := dedup_signature extract_dates_advanced pdf_page_count sha1_hex.

(** X23. Two scans with short text (fewer than 80 normalized characters)
    get the same signature as soon as their files have the same stem and the
    same page count, their normalized texts the same length and their first
    three dates agree: what the texts say is not compared. *)
Theorem short_texts_share_signature (pdf1 pdf2 t1 t2 : text) :
  Z.of_nat (length (normalize_for_dedup t1)) < 80 ->
  length (normalize_for_dedup t1) = length (normalize_for_dedup t2) ->
  path_stem pdf1 = path_stem pdf2 ->
  pdf_page_count pdf1 = pdf_page_count pdf2 ->
  take 3 (extract_dates_advanced t1 None None)
  = take 3 (extract_dates_advanced t2 None None) ->
  signature pdf1 t1 = signature pdf2 t2.
Proof.
  intros Hshort Hlen Hstem Hpages Hdates.
  unfold signature, dedup_signature, dedup_raw, time_fp. cbv zeta.
  rewrite <- Hlen, <- Hstem, <- Hpages, <- Hdates.
  destruct (Z.ltb_spec (Z.of_nat (length (normalize_for_dedup t1))) 80); [done|lia].
Qed.

(** X24. For a scan with at least 80 normalized characters the signature
    does not depend on the file, and two such scans whose normalized texts
    agree on their first 20000 characters and whose first three dates agree
    get the same signature. *)
Theorem long_texts_ignore_file (pdf1 pdf2 t1 t2 : text) :
  80 <= Z.of_nat (length (normalize_for_dedup t1)) ->
  80 <= Z.of_nat (length (normalize_for_dedup t2)) ->
  take (Z.to_nat 20000) (normalize_for_dedup t1)
  = take (Z.to_nat 20000) (normalize_for_dedup t2) ->
  take 3 (extract_dates_advanced t1 None None)
  = take 3 (extract_dates_advanced t2 None None) ->
  signature pdf1 t1 = signature pdf2 t2.
Proof.
  intros Hlong1 Hlong2 Htext Hdates.
  unfold signature, dedup_signature, dedup_raw, time_fp. cbv zeta.
  rewrite <- Htext, <- Hdates.
  destruct (Z.ltb_spec (Z.of_nat (length (normalize_for_dedup t1))) 80); [lia|].
  destruct (Z.ltb_spec (Z.of_nat (length (normalize_for_dedup t2))) 80); [lia|done].
Qed.

End DedupExtras.

(** A concrete case of X23: two one-page scans named [scan.pdf] in different
    folders, one reading 甲 and the other 乙. *)
Lemma short_texts_share_signature_example :
  Dedup.dedup_signature Scenarios.case_dates (fun _ => 1) (fun raw => raw)
    (u "a/scan.pdf") (u "甲")
  = Dedup.dedup_signature Scenarios.case_dates (fun _ => 1) (fun raw => raw)
      (u "b/scan.pdf") (u "乙").
Proof.
  apply (short_texts_share_signature Scenarios.case_dates (fun _ => 1)
           (fun raw => raw) (u "a/scan.pdf") (u "b/scan.pdf") (u "甲") (u "乙"));
    vm_compute; reflexivity.
Defined.

(** A concrete case of X24: the same eighty letters, with and without
    spaces, scanned from two files. *)
Lemma long_texts_ignore_file_example :
  Dedup.dedup_signature Scenarios.case_dates (fun _ => 1) (fun raw => raw)
    (u "a/one.pdf") (replicate 80 97%N)
  = Dedup.dedup_signature Scenarios.case_dates (fun _ => 1) (fun raw => raw)
      (u "b/two.pdf") (replicate 40 97%N ++ [32%N] ++ replicate 40 97%N).
Proof.
  apply (long_texts_ignore_file Scenarios.case_dates (fun _ => 1)
           (fun raw => raw) (u "a/one.pdf") (u "b/two.pdf")
           (replicate 80 97%N) (replicate 40 97%N ++ [32%N] ++ replicate 40 97%N));
    vm_compute; try reflexivity; discriminate.
Defined.

(** * Whitespace in the normalized date text *)

Section NormalizerExtras.

Variable is_decimal : N -> bool.

Lemma is_space_32 (c : N) : is_space c = false -> (32 =? c)%N = false.
Proof.
  intros Hc. destruct (N.eqb_spec 32 c) as [<-|]; [|done]. by vm_compute in Hc.
Qed.

Lemma collapse_ws_single (s : text) :
  forall in_run : bool,
  contains [32%N; 32%N] (collapse_ws in_run s) = false
  /\ (in_run = true -> starts_with [32%N] (collapse_ws in_run s) = false).
Proof.
  induction s as [|c s IH]; intros in_run; [by destruct in_run|].
  simpl collapse_ws. destruct (is_space c) eqn:Ec.
  - destruct in_run; [apply IH|].
    destruct (IH true) as [IH1 IH2]. split; [|done].
    cbn [contains starts_with]. rewrite IH1, orb_false_r.
    change (32 =? 32)%N with true. cbn [andb].
    specialize (IH2 eq_refl). cbn [starts_with] in IH2.
    destruct (collapse_ws true s) as [|x r]; [done|].
    by rewrite andb_true_r in IH2 |- *.
  - destruct (IH false) as [IH1 _].
    cbn [contains starts_with]. rewrite IH1, (is_space_32 c Ec). by split.
Qed.

(** X26. In the normalized date text every whitespace character is a plain
    space and no two spaces are adjacent. *)
Theorem normalize_output_spacing (s : text) :
  let out := normalize_ocr_date_text is_decimal s in
  Forall (fun c => is_space c = true -> c = 32%N) out
  /\ contains (u "  ") out = false.
Proof.
  intros out. subst out. unfold normalize_ocr_date_text. cbv zeta.
  match goal with |- context [collapse_ws false ?t] => generalize t end.
  intros t. split; [|apply collapse_ws_single].
  generalize false. induction t as [|c t IH]; intros b; [constructor|].
  simpl. destruct (is_space c) eqn:Ec.
  - destruct b; [apply IH|]. constructor; [done|apply IH].
  - constructor; [congruence|apply IH].
Qed.

End NormalizerExtras.

(** * The calendar *)

Section CalendarFacts.
Import Segments.

Lemma days_before_year_succ (y : Z) :
  days_before_year (y + 1) = days_before_year y + 365 + (if is_leap y then 1 else 0).
Proof.
  unfold days_before_year, is_leap. cbv zeta.
  replace (y + 1 - 1) with y by lia.
  destruct (Z.eqb_spec (y mod 4) 0), (Z.eqb_spec (y mod 100) 0),
    (Z.eqb_spec (y mod 400) 0); cbn [andb orb negb];
    Z.div_mod_to_equations; lia.
Qed.

(** Month lengths and offsets by leap flag. *)
Lemma days_in_month_leap (y m : Z) :
  days_in_month y m
  = days_in_month 1 m + (if (m =? 2) && is_leap y then 1 else 0).
Proof.
  unfold days_in_month. change (is_leap 1) with false.
  destruct (m =? 2); [|simpl; lia]. destruct (is_leap y); reflexivity.
Qed.

Lemma days_before_month_leap (y m : Z) :
  1 <= m <= 12 ->
  days_before_month y m
  = days_before_month 1 m + (if (2 <? m) && is_leap y then 1 else 0).
Proof.
  intros Hm.
  assert (Hcases : m = 1 \/ m = 2 \/ m = 3 \/ m = 4 \/ m = 5 \/ m = 6 \/ m = 7
                   \/ m = 8 \/ m = 9 \/ m = 10 \/ m = 11 \/ m = 12) by lia.
  unfold days_before_month.
  repeat (destruct Hcases as [->|Hcases]); try subst m;
    simpl; unfold days_in_month; simpl; destruct (is_leap y); reflexivity.
Qed.

(** The month and day that [ord2ymd] reads off the day of the year. *)
Let month_check (leap : bool) (n : Z) : bool :=
  let month := (n + 50) / 32 in
  let preceding :=
    days_before_month 1 month + (if (2 <? month) && leap then 1 else 0) in
  let '(m, dd) :=
    if n <? preceding then
      let month := month - 1 in
      let preceding :=
        preceding - (days_in_month 1 month
                     + (if (month =? 2) && leap then 1 else 0)) in
      (month, n - preceding + 1)
    else (month, n - preceding + 1) in
  (1 <=? m) && (m <=? 12) && (1 <=? dd)
  && (dd <=? days_in_month 1 m + (if (m =? 2) && leap then 1 else 0))
  && (days_before_month 1 m + (if (2 <? m) && leap then 1 else 0) + dd =? n + 1).

Lemma month_check_all (leap : bool) (n : Z) :
  0 <= n < 365 + (if leap then 1 else 0) -> month_check leap n = true.
Proof.
  intros Hn.
  assert (Hall : forallb (month_check leap) (map Z.of_nat (seq 0 366)) = true
                 \/ (leap = false /\ forallb (month_check leap) (map Z.of_nat (seq 0 365)) = true)).
  { destruct leap; [left|right; split; [done|]]; vm_compute; reflexivity. }
  assert (Hin : forall k, (k < 366)%nat -> Z.of_nat k ∈ map Z.of_nat (seq 0 366)).
  { intros k Hk. apply list_elem_of_fmap. exists k. split; [done|].
    apply list_elem_of_In, in_seq. lia. }
  assert (Hin' : forall k, (k < 365)%nat -> Z.of_nat k ∈ map Z.of_nat (seq 0 365)).
  { intros k Hk. apply list_elem_of_fmap. exists k. split; [done|].
    apply list_elem_of_In, in_seq. lia. }
  rewrite <- (Z2Nat.id n) by lia.
  destruct Hall as [Hall|[-> Hall]].
  - rewrite forallb_forall in Hall. apply Hall, list_elem_of_In, Hin. destruct leap; lia.
  - rewrite forallb_forall in Hall. apply Hall, list_elem_of_In, Hin'. lia.
Qed.

Lemma year_shape (q400 q100 q4 q1 : Z) :
  0 <= q100 <= 3 -> 0 <= q4 <= 24 -> 0 <= q1 <= 3 ->
  let y := q400 * 400 + 1 + q100 * 100 + q4 * 4 + q1 in
  days_before_year y = q400 * 146097 + q100 * 36524 + q4 * 1461 + q1 * 365
  /\ is_leap y = (q1 =? 3) && (negb (q4 =? 24) || (q100 =? 3)).
Proof.
  intros H100 H4 H1 y. subst y. split.
  - unfold days_before_year. cbv zeta. Z.div_mod_to_equations. lia.
  - unfold is_leap.
    destruct (Z.eqb_spec q1 3), (Z.eqb_spec q4 24), (Z.eqb_spec q100 3);
      cbn [andb orb negb];
      repeat match goal with
             | |- context [?a mod ?b =? 0] => destruct (Z.eqb_spec (a mod b) 0)
             end; cbn [andb orb negb]; try reflexivity;
      exfalso; Z.div_mod_to_equations; lia.
Qed.

Lemma ord2ymd_ymd (n : Z) :
  1 <= n ->
  let '(y, m, dd) := ord2ymd n in
  1 <= m <= 12 /\ 1 <= dd <= days_in_month y m /\ ymd y m dd = n.
Proof.
  intros Hn. unfold ord2ymd. cbv zeta.
  set (n0 := n - 1).
  set (q400 := n0 / 146097). set (r400 := n0 mod 146097).
  set (q100 := r400 / 36524). set (r100 := r400 mod 36524).
  set (q4 := r100 / 1461). set (r4 := r100 mod 1461).
  set (q1 := r4 / 365). set (r1 := r4 mod 365).
  assert (Hn0 : 0 <= n0) by (subst n0; lia).
  assert (E400 : n0 = 146097 * q400 + r400 /\ 0 <= r400 < 146097).
  { subst q400 r400. Z.div_mod_to_equations. lia. }
  assert (E100 : r400 = 36524 * q100 + r100 /\ 0 <= r100 < 36524).
  { subst q100 r100. Z.div_mod_to_equations. lia. }
  assert (E4 : r100 = 1461 * q4 + r4 /\ 0 <= r4 < 1461).
  { subst q4 r4. Z.div_mod_to_equations. lia. }
  assert (E1 : r4 = 365 * q1 + r1 /\ 0 <= r1 < 365).
  { subst q1 r1. Z.div_mod_to_equations. lia. }
  clearbody q400 r400 q100 r100 q4 r4 q1 r1.
  destruct E400 as [E400 B400], E100 as [E100 B100], E4 as [E4 B4], E1 as [E1 B1].
  assert (Hq100 : 0 <= q100 <= 4) by lia.
  assert (Hq4 : 0 <= q4 <= 24) by lia.
  assert (Hq1 : 0 <= q1 <= 4) by lia.
  destruct (Z.eqb_spec q1 4) as [Eq1|Nq1]; cbn [orb].
  - (* the last day of a leap year *)
    assert (Hq4' : q4 <= 23) by lia.
    assert (Hq100' : q100 <= 3) by lia.
    pose proof (year_shape q400 q100 q4 3 ltac:(lia) ltac:(lia) ltac:(lia)) as [Hd Hl].
    cbv zeta in Hd, Hl.
    replace (q400 * 400 + 1 + q100 * 100 + q4 * 4 + q1 - 1)
      with (q400 * 400 + 1 + q100 * 100 + q4 * 4 + 3) by lia.
    set (y := q400 * 400 + 1 + q100 * 100 + q4 * 4 + 3) in *.
    assert (Hleap : is_leap y = true).
    { rewrite Hl. destruct (Z.eqb_spec q4 24); [lia|]. reflexivity. }
    split; [lia|]. rewrite days_in_month_leap.
    change (days_in_month 1 12) with 31. change (12 =? 2) with false. cbn [andb].
    split; [lia|].
    unfold ymd. rewrite days_before_month_leap by lia. rewrite Hd, Hleap.
    change (days_before_month 1 12) with 334. change (2 <? 12) with true. cbn [andb].
    subst n0. lia.
  - destruct (Z.eqb_spec q100 4) as [Eq100|Nq100].
    + (* the last day of a 400-year cycle *)
      assert (r100 = 0) by lia. assert (q4 = 0) by lia. assert (q1 = 0) by lia.
      subst q100 r100 q4 q1.
      replace (q400 * 400 + 1 + 4 * 100 + 0 * 4 + 0 - 1)
        with ((q400 + 1) * 400 + 1 + 0 * 100 + 24 * 4 + 3 - 100) by lia.
      pose proof (year_shape q400 3 24 3 ltac:(lia) ltac:(lia) ltac:(lia)) as [Hd Hl].
      cbv zeta in Hd, Hl.
      replace ((q400 + 1) * 400 + 1 + 0 * 100 + 24 * 4 + 3 - 100)
        with (q400 * 400 + 1 + 3 * 100 + 24 * 4 + 3) by lia.
      set (y := q400 * 400 + 1 + 3 * 100 + 24 * 4 + 3) in *.
      assert (Hleap : is_leap y = true) by (rewrite Hl; reflexivity).
      split; [lia|]. rewrite days_in_month_leap.
    change (days_in_month 1 12) with 31. change (12 =? 2) with false. cbn [andb].
    split; [lia|].
      unfold ymd. rewrite days_before_month_leap by lia. rewrite Hd, Hleap.
      change (days_before_month 1 12) with 334. change (2 <? 12) with true. cbn [andb].
      subst n0. lia.
    + pose proof (year_shape q400 q100 q4 q1 ltac:(lia) ltac:(lia) ltac:(lia)) as [Hd Hl].
      cbv zeta in Hd, Hl.
      set (y := q400 * 400 + 1 + q100 * 100 + q4 * 4 + q1) in *.
      set (leap := (q1 =? 3) && (negb (q4 =? 24) || (q100 =? 3))) in *.
      pose proof (month_check_all leap r1) as Hm.
      unfold month_check in Hm. cbv zeta in Hm.
      destruct (r1 <? _).
      * set (m := (r1 + 50) / 32 - 1) in *.
        match type of Hm with
        | context [r1 - ?p + 1] => set (pre := p) in *
        end.
        specialize (Hm ltac:(destruct leap; lia)).
        rewrite !andb_true_iff, !Z.leb_le, Z.eqb_eq in Hm.
        destruct Hm as ((((Hm1 & Hm2) & Hd1) & Hd2) & Hsum).
        split; [lia|]. rewrite days_in_month_leap, Hl. split; [lia|].
        unfold ymd. rewrite days_before_month_leap by lia. rewrite Hd, Hl.
        subst n0. lia.
      * set (m := (r1 + 50) / 32) in *.
        match type of Hm with
        | context [r1 - ?p + 1] => set (pre := p) in *
        end.
        specialize (Hm ltac:(destruct leap; lia)).
        rewrite !andb_true_iff, !Z.leb_le, Z.eqb_eq in Hm.
        destruct Hm as ((((Hm1 & Hm2) & Hd1) & Hd2) & Hsum).
        split; [lia|]. rewrite days_in_month_leap, Hl. split; [lia|].
        unfold ymd. rewrite days_before_month_leap by lia. rewrite Hd, Hl.
        subst n0. lia.
Qed.

Lemma days_before_year_mono (y y' : Z) :
  y <= y' -> days_before_year y <= days_before_year y'.
Proof.
  intros H. replace y' with (y + Z.of_nat (Z.to_nat (y' - y))) by lia.
  induction (Z.to_nat (y' - y)) as [|k IH]; [by rewrite Z.add_0_r|].
  replace (y + Z.of_nat (S k)) with (y + Z.of_nat k + 1) by lia.
  rewrite days_before_year_succ. destruct (is_leap _); lia.
Qed.

Lemma month_table (leap : bool) (m m' : Z) :
  1 <= m <= 12 -> 1 <= m' <= 12 ->
  let off k := days_before_month 1 k + (if (2 <? k) && leap then 1 else 0) in
  let len k := days_in_month 1 k + (if (k =? 2) && leap then 1 else 0) in
  0 <= off m /\ off m + len m <= 365 + (if leap then 1 else 0)
  /\ (m < m' -> off m + len m <= off m').
Proof.
  intros Hm Hm' off len.
  assert (Hall :
    forallb (fun a =>
      (0 <=? off a) && (off a + len a <=? 365 + (if leap then 1 else 0))
      && forallb (fun b => implb (a <? b) (off a + len a <=? off b)) (seqZ 1 12))
      (seqZ 1 12) = true).
  { destruct leap; vm_compute; reflexivity. }
  rewrite forallb_forall in Hall.
  specialize (Hall m). rewrite <- list_elem_of_In, elem_of_seqZ in Hall.
  specialize (Hall ltac:(lia)).
  apply andb_true_iff in Hall as [Hall Hpair].
  apply andb_true_iff in Hall as [H0 H365].
  rewrite forallb_forall in Hpair.
  specialize (Hpair m'). rewrite <- list_elem_of_In, elem_of_seqZ in Hpair.
  specialize (Hpair ltac:(lia)).
  split; [lia|]. split; [lia|]. intros Hlt.
  destruct (Z.ltb_spec m m'); [|lia]. simpl in Hpair. lia.
Qed.

Lemma day_of_year_bounds (y m d : Z) :
  valid_month_day y m d = true ->
  days_before_year y + 1 <= ymd y m d <= days_before_year (y + 1).
Proof.
  unfold valid_month_day. rewrite !andb_true_iff, !Z.leb_le.
  intros (((Hm1 & Hm2) & Hd1) & Hd2).
  rewrite days_before_year_succ. unfold ymd.
  rewrite days_in_month_leap in Hd2.
  rewrite (days_before_month_leap y m) by lia.
  destruct (month_table (is_leap y) m m ltac:(lia) ltac:(lia)) as (H0 & H365 & _).
  cbv zeta in H0, H365. lia.
Qed.

Lemma ymd_injective (y m d y' m' d' : Z) :
  valid_month_day y m d = true -> valid_month_day y' m' d' = true ->
  ymd y m d = ymd y' m' d' -> y = y' /\ m = m' /\ d = d'.
Proof.
  intros Hv Hv' Heq.
  pose proof (day_of_year_bounds y m d Hv) as Hb.
  pose proof (day_of_year_bounds y' m' d' Hv') as Hb'.
  assert (y = y') as <-.
  { destruct (Z.lt_trichotomy y y') as [Hlt|[?|Hgt]]; [|done|].
    - pose proof (days_before_year_mono (y + 1) y' ltac:(lia)). lia.
    - pose proof (days_before_year_mono (y' + 1) y ltac:(lia)). lia. }
  split; [done|].
  unfold valid_month_day in Hv, Hv'.
  rewrite !andb_true_iff, !Z.leb_le in Hv, Hv'.
  destruct Hv as (((Hm1 & Hm2) & Hd1) & Hd2), Hv' as (((Hm1' & Hm2') & Hd1') & Hd2').
  unfold ymd in Heq.
  rewrite days_in_month_leap in Hd2, Hd2'.
  rewrite (days_before_month_leap y m), (days_before_month_leap y m') in Heq by lia.
  destruct (month_table (is_leap y) m m' ltac:(lia) ltac:(lia)) as (_ & _ & H1).
  destruct (month_table (is_leap y) m' m ltac:(lia) ltac:(lia)) as (_ & _ & H2).
  cbv zeta in H1, H2.
  assert (m = m') as <- by lia. lia.
Qed.

Lemma ymd_ord2ymd (y m d : Z) :
  1 <= y -> valid_month_day y m d = true -> ord2ymd (ymd y m d) = (y, m, d).
Proof.
  intros Hy Hv.
  pose proof (day_of_year_bounds y m d Hv) as Hb.
  pose proof (days_before_year_mono 1 y Hy) as H1.
  change (days_before_year 1) with 0 in H1.
  pose proof (ord2ymd_ymd (ymd y m d) ltac:(lia)) as Hr.
  destruct (ord2ymd (ymd y m d)) as [[y' m'] d'].
  destruct Hr as (Hm & Hd & Heq).
  assert (Hv' : valid_month_day y' m' d' = true).
  { unfold valid_month_day. rewrite !andb_true_iff, !Z.leb_le. lia. }
  destruct (ymd_injective _ _ _ _ _ _ Hv' Hv Heq) as (-> & -> & ->). done.
Qed.

Lemma ymd_year_mono (y y' m d : Z) :
  valid_month_day y m d = true -> valid_month_day y' m d = true ->
  y < y' -> ymd y m d < ymd y' m d.
Proof.
  intros Hv Hv' Hlt.
  pose proof (day_of_year_bounds y m d Hv) as Hb.
  pose proof (day_of_year_bounds y' m d Hv') as Hb'.
  pose proof (days_before_year_mono (y + 1) y' ltac:(lia)). lia.
Qed.

(** A date that leaves room for one more year lies in the years 1 to 9998. *)
Lemma year_range (d : Z) :
  1 <= d <= MAXORDINAL - 365 ->
  let '(y, m, dd) := ord2ymd d in
  1 <= y <= 9998 /\ valid_month_day y m dd = true /\ ymd y m dd = d.
Proof.
  intros Hd. pose proof (ord2ymd_ymd d ltac:(lia)) as Hr.
  destruct (ord2ymd d) as [[y m] dd]. destruct Hr as (Hm & Hdd & Hymd).
  assert (Hv : valid_month_day y m dd = true).
  { unfold valid_month_day. rewrite !andb_true_iff, !Z.leb_le. lia. }
  pose proof (day_of_year_bounds y m dd Hv) as Hb.
  split; [|done]. split.
  - destruct (Z.le_gt_cases 1 y) as [|Hlow]; [done|].
    pose proof (days_before_year_mono (y + 1) 1 ltac:(lia)) as H1.
    change (days_before_year 1) with 0 in H1. lia.
  - destruct (Z.le_gt_cases y 9998) as [|Hhigh]; [done|].
    pose proof (days_before_year_mono 9999 y ltac:(lia)) as H1.
    change (days_before_year 9999) with 3651694 in H1.
    unfold MAXORDINAL in Hd. lia.
Qed.

End CalendarFacts.

(** * The period segments *)

Section SegmentsExtras.
Import Segments.

(** One year later is 365 or 366 days later. *)
Lemma add_year_safe_next (d : Z) :
  1 <= d <= MAXORDINAL - 365 ->
  exists a, add_year_safe d 1 = Some a /\ d + 365 <= a <= d + 366.
Proof.
  intros Hd. pose proof (year_range d Hd) as Hr.
  unfold add_year_safe. destruct (ord2ymd d) as [[y m] dd].
  destruct Hr as (Hyear & Hv & Hymd).
  unfold valid_month_day in Hv. rewrite !andb_true_iff, !Z.leb_le in Hv.
  destruct Hv as (((Hm1 & Hm2) & Hd1) & Hdd).
  pose proof (days_before_year_succ y) as Hy.
  assert (Hleap2 : is_leap y = true -> is_leap (y + 1) = false).
  { unfold is_leap. intros H. apply andb_true_iff in H as [H _].
    apply Z.eqb_eq in H.
    destruct (Z.eqb_spec ((y + 1) mod 4) 0); [|done].
    exfalso. Z.div_mod_to_equations. lia. }
  rewrite days_in_month_leap in Hdd.
  pose proof (days_before_month_leap y m ltac:(lia)) as Hb.
  pose proof (days_before_month_leap (y + 1) m ltac:(lia)) as Hb1.
  unfold valid_date, valid_month_day. rewrite !(days_in_month_leap (y + 1)).
  unfold ymd in *.
  destruct (Z.leb_spec 1 (y + 1)); [|lia]. destruct (Z.leb_spec (y + 1) 9999); [|lia].
  destruct (Z.leb_spec 1 m); [|lia]. destruct (Z.leb_spec m 12); [|lia].
  destruct (Z.leb_spec 1 dd); [|lia]. cbn [andb].
  destruct (Z.leb_spec dd (days_in_month 1 m
                           + (if (m =? 2) && is_leap (y + 1) then 1 else 0)))
    as [Hfit|Hover].
  - eexists. split; [reflexivity|].
    rewrite Hy, Hb1. rewrite Hb in Hymd.
    destruct (is_leap y) eqn:Ely.
    + rewrite (Hleap2 eq_refl) in *. rewrite andb_false_r in *.
      destruct (2 <? m); cbn [andb] in *; lia.
    + rewrite andb_false_r in Hymd.
      destruct (is_leap (y + 1)), (2 <? m); cbn [andb] in *; lia.
  - (* only 29 February overflows *)
    assert (m = 2 /\ dd = 29 /\ is_leap y = true /\ is_leap (y + 1) = false)
      as (-> & -> & Ely & Ely1).
    { destruct (Z.eqb_spec m 2) as [->|Hne]; cbn [andb] in *; [|lia].
      change (days_in_month 1 2) with 28 in *.
      destruct (is_leap y) eqn:Ely; [|destruct (is_leap (y + 1)); lia].
      rewrite (Hleap2 eq_refl) in *. lia. }
    change (2 =? 2) with true. change (29 =? 29) with true. cbn [andb].
    change (days_in_month 1 2) with 28. rewrite Ely1. cbn [andb].
    change (1 <=? 2) with true. change (2 <=? 12) with true.
    change (1 <=? 28) with true. change (28 <=? 28 + 0) with true. cbn [andb].
    eexists. split; [reflexivity|].
    rewrite Hy, Ely. rewrite Hb, Ely in Hymd.
    rewrite (days_before_month_leap (y + 1) 2) by lia.
    change (2 <? 2) with false in *. cbn [andb] in *. lia.
Qed.

Lemma add_days_in_range (d n : Z) :
  1 <= d + n <= MAXORDINAL -> add_days d n = Some (d + n).
Proof.
  intros H. unfold add_days.
  destruct (Z.leb_spec 1 (d + n)); [|lia].
  destruct (Z.leb_spec (d + n) MAXORDINAL); [done|lia].
Qed.

Ltac seg_member H :=
  repeat (apply elem_of_cons in H as [->|H]); [..|by apply elem_of_nil in H].

(** X25. A resolved period that starts no later than it ends, and ends at
    least 366 days before the last date of the calendar, is cut into one to
    three segments P1, P2, P3 that partition it: every day of the period lies
    in a segment, the segments are non-empty, ordered and disjoint; P1 and P2
    span at most 366 days; a period shorter than 365 days has one segment,
    and three segments need a period of at least 730 days. *)
Theorem period_segments_partition (s e : Z) :
  1 <= s -> s <= e -> e + 366 <= MAXORDINAL ->
  exists segs,
    get_period_segments (Some s) (Some e) = Some segs
    /\ (forall day, s <= day <= e
                    <-> exists g, g ∈ segs /\ seg_start g <= day <= seg_end g)
    /\ Forall (fun g => seg_start g <= seg_end g) segs
    /\ StronglySorted (fun a b => seg_end a < seg_start b) segs
    /\ map seg_name segs `prefix_of` [P1; P2; P3]
    /\ Forall (fun g => seg_name g <> P3 -> seg_end g - seg_start g <= 365) segs
    /\ (e - s < 365 -> length segs = 1%nat)
    /\ (length segs = 3%nat -> 730 <= e - s).
Proof.
  intros Hs Hse Hmax. unfold get_period_segments.
  destruct (Z.ltb_spec e s) as [?|_]; [lia|].
  destruct (add_year_safe_next s ltac:(lia)) as (a1 & -> & Ha1). cbn [mbind option_bind].
  rewrite (add_days_in_range a1 (-1)) by lia. cbn [mbind option_bind]. cbv zeta.
  rewrite (add_days_in_range (Z.min (a1 + -1) e) 1) by lia. cbn [mbind option_bind].
  destruct (Z.leb_spec (Z.min (a1 + -1) e + 1) e) as [H2|H2].
  - destruct (add_year_safe_next (Z.min (a1 + -1) e + 1) ltac:(lia)) as (a2 & -> & Ha2).
    cbn [mbind option_bind].
    rewrite (add_days_in_range a2 (-1)) by lia. cbn [mbind option_bind].
    rewrite (add_days_in_range (Z.min (a2 + -1) e) 1) by lia. cbn [mbind option_bind].
    destruct (Z.leb_spec (Z.min (a2 + -1) e + 1) e) as [H3|H3].
    + eexists. split; [reflexivity|]. simpl.
      split; [|split; [|split; [|split; [|split; [|split]]]]].
      * intros day. split.
        -- intros Hday.
           destruct (decide (day <= Z.min (a1 + -1) e)).
           { eexists. split; [by left|]. simpl. lia. }
           destruct (decide (day <= Z.min (a2 + -1) e)).
           { eexists. split; [right; by left|]. simpl. lia. }
           eexists. split; [right; right; by left|]. simpl. lia.
        -- intros (g & Hg & Hday). seg_member Hg; simpl in Hday; lia.
      * repeat constructor; simpl; lia.
      * repeat constructor; simpl; lia.
      * done.
      * repeat constructor; simpl; intros; try done; lia.
      * lia.
      * lia.
    + eexists. split; [reflexivity|]. simpl.
      split; [|split; [|split; [|split; [|split; [|split]]]]].
      * intros day. split.
        -- intros Hday.
           destruct (decide (day <= Z.min (a1 + -1) e)).
           { eexists. split; [by left|]. simpl. lia. }
           eexists. split; [right; by left|]. simpl. lia.
        -- intros (g & Hg & Hday). seg_member Hg; simpl in Hday; lia.
      * repeat constructor; simpl; lia.
      * repeat constructor; simpl; lia.
      * by exists [P3].
      * repeat constructor; simpl; intros; lia.
      * lia.
      * done.
  - cbn [mbind option_bind]. rewrite (add_days_in_range e 1) by lia.
    cbn [mbind option_bind].
    destruct (Z.leb_spec (e + 1) e) as [?|_]; [lia|].
    eexists. split; [reflexivity|]. simpl.
    split; [|split; [|split; [|split; [|split; [|split]]]]].
    + intros day. split.
      * intros Hday. eexists. split; [by left|]. simpl. lia.
      * intros (g & Hg & Hday). seg_member Hg; simpl in Hday; lia.
    + repeat constructor; simpl; lia.
    + repeat constructor.
    + by exists [P2; P3].
    + repeat constructor; simpl; intros; lia.
    + done.
    + done.
Qed.

End SegmentsExtras.

(** A concrete case of X25: the years 2022 to 2024. *)
Lemma period_segments_example :
  1 <= ymd 2022 1 1 /\ ymd 2022 1 1 <= ymd 2024 12 31
  /\ ymd 2024 12 31 + 366 <= Segments.MAXORDINAL
  /\ exists segs,
       Segments.get_period_segments (Some (ymd 2022 1 1)) (Some (ymd 2024 12 31))
       = Some segs
       /\ length segs = 3%nat.
Proof.
  assert (H1 : 1 <= ymd 2022 1 1) by (vm_compute; discriminate).
  assert (H2 : ymd 2022 1 1 <= ymd 2024 12 31) by (vm_compute; discriminate).
  assert (H3 : ymd 2024 12 31 + 366 <= Segments.MAXORDINAL)
    by (vm_compute; discriminate).
  split; [exact H1|]. split; [exact H2|]. split; [exact H3|].
  destruct (period_segments_partition _ _ H1 H2 H3) as (segs & Hsegs & _).
  exists segs. split; [exact Hsegs|].
  vm_compute in Hsegs. injection Hsegs as <-. reflexivity.
Defined.

(** * The year of a date written without one *)

Section YearsExtras.
Import Segments Years.

Lemma last_sorted (l : list Z) :
  match last (merge_sort Z.le l) with
  | Some x => x ∈ l /\ forall y, y ∈ l -> y <= x
  | None => l = []
  end.
Proof.
  pose proof (StronglySorted_merge_sort Z.le l) as Hs.
  pose proof (merge_sort_Permutation Z.le l) as Hp.
  set (k := merge_sort Z.le l) in *. clearbody k.
  assert (Hk : match last k with
               | Some x => x ∈ k /\ forall y, y ∈ k -> y <= x
               | None => k = []
               end).
  { clear Hp. induction Hs as [|a k Hs IH Hall]; [done|].
    rewrite last_cons. destruct (last k) as [x|].
    - destruct IH as [Hx Hmax]. split; [by right|].
      intros y Hy. apply elem_of_cons in Hy as [->|Hy]; [|by apply Hmax].
      rewrite Forall_forall in Hall. by apply Hall.
    - subst k. split; [by left|].
      intros y Hy. apply list_elem_of_singleton in Hy. lia. }
  destruct (last k) as [x|].
  - destruct Hk as [Hx Hmax]. split; [by rewrite <- Hp|].
    intros y Hy. apply Hmax. by rewrite Hp.
  - subst k. by apply Permutation_nil_l in Hp.
Qed.

Variable today_year : Z.

(** X27. For a month and a day in range and a period with a year of margin
    on both sides of the calendar, the year inferred for a date written
    without one is the latest tried year that puts the date inside the period;
    when no tried year does, the latest that puts it within 365 days of the
    period; and the current year when none does either. *)
Theorem infer_year_latest (month day : Z) (s e : date) :
  1 <= month <= 12 -> 1 <= day <= 31 ->
  365 < s -> s <= e -> e + 365 <= MAXORDINAL ->
  let tried y :=
    year_of s - 1 <= y <= year_of e + 1 /\ valid_date y month day = true in
  let fits y := tried y /\ s <= ymd y month day <= e in
  let near y :=
    tried y /\ ~ (s <= ymd y month day <= e)
    /\ s - 365 <= ymd y month day <= e + 365 in
  exists yr,
    infer_year_for_month_day today_year month day (Some s) (Some e) = Year yr
    /\ ((exists y, fits y) -> fits yr /\ forall y, fits y -> y <= yr)
    /\ (~ (exists y, fits y) -> (exists y, near y) ->
        near yr /\ forall y, near y -> y <= yr)
    /\ (~ (exists y, fits y) -> ~ (exists y, near y) -> yr = today_year).
Proof.
  intros Hmonth Hday Hs Hse He tried fits near.
  unfold infer_year_for_month_day.
  destruct (Z.ltb_spec month 1); [lia|]. destruct (Z.ltb_spec 12 month); [lia|].
  destruct (Z.ltb_spec day 1); [lia|]. destruct (Z.ltb_spec 31 day); [lia|].
  cbn [orb]. destruct (Z.leb_spec s e); [|lia]. cbv zeta.
  set (years := seqZ _ _).
  set (dates := map _ (filter _ years)).
  assert (Hdates : forall d, d ∈ dates <-> exists y, tried y /\ d = ymd y month day).
  { intros d. subst dates. rewrite list_elem_of_fmap. split.
    - intros (y & -> & Hy). apply list_elem_of_filter in Hy as [Hv Hy].
      subst years. apply elem_of_seqZ in Hy. exists y. split; [|done].
      split; [lia|done].
    - intros (y & [Hy Hv] & ->). exists y. split; [done|].
      apply list_elem_of_filter. split; [done|]. subst years.
      apply elem_of_seqZ. lia. }
  assert (Hyear : forall y, tried y -> year_of (ymd y month day) = y).
  { intros y [_ Hv]. unfold valid_date in Hv.
    apply andb_true_iff in Hv as [Hy Hv]. apply andb_true_iff in Hy as [Hy _].
    apply Z.leb_le in Hy. unfold year_of. by rewrite ymd_ord2ymd. }
  assert (Hmono : forall y y', tried y -> tried y' ->
            ymd y month day <= ymd y' month day -> y <= y').
  { intros y y' [_ Hv] [_ Hv'] Hle. unfold valid_date in Hv, Hv'.
    apply andb_true_iff in Hv as [_ Hv]. apply andb_true_iff in Hv' as [_ Hv'].
    destruct (Z.le_gt_cases y y') as [|Hgt]; [done|].
    pose proof (ymd_year_mono y' y month day Hv' Hv ltac:(lia)). lia. }
  assert (Hbetween : forall a b d, between a b d = true <-> a <= d <= b).
  { intros a b d. unfold between. rewrite andb_true_iff, !Z.leb_le. done. }
  set (in_period := filter (fun d => between s e d = true) dates).
  set (rest := filter (fun d => between s e d = false) dates).
  assert (Hno : existsb (fun d => (s - 365 <? 1)
                   || ((s - 365 <=? d) && (MAXORDINAL <? e + 365))) rest = false).
  { apply not_true_is_false. rewrite existsb_exists. intros (d & _ & Hd).
    destruct (Z.ltb_spec (s - 365) 1); [lia|].
    destruct (Z.ltb_spec MAXORDINAL (e + 365)); [lia|].
    by rewrite andb_false_r in Hd. }
  rewrite Hno.
  set (near_period := filter (fun d => between (s - 365) (e + 365) d = true) rest).
  assert (Hin : forall d, d ∈ in_period <-> exists y, fits y /\ d = ymd y month day).
  { intros d. subst in_period. rewrite list_elem_of_filter, Hbetween, Hdates. split.
    - intros (Hd & y & Hy & ->). exists y. split; [split; [exact Hy|exact Hd]|reflexivity].
    - intros (y & [Hy Hd] & ->). split; [done|]. by exists y. }
  assert (Hnear : forall d, d ∈ near_period <-> exists y, near y /\ d = ymd y month day).
  { intros d. subst near_period rest.
    rewrite !list_elem_of_filter, Hbetween, Hdates. split.
    - intros (Hd & Hout & y & Hy & ->). exists y. split; [|done].
      split; [done|]. split; [|done]. intros Hx. apply Hbetween in Hx. congruence.
    - intros (y & (Hy & Hout & Hd) & ->). split; [done|]. split; [|by exists y].
      apply not_true_is_false. intros Hx. by apply Hbetween in Hx. }
  pose proof (last_sorted in_period) as Hlast1.
  pose proof (last_sorted near_period) as Hlast2.
  destruct (last (merge_sort Z.le in_period)) as [d1|].
  - destruct Hlast1 as [Hd1 Hmax].
    apply Hin in Hd1 as (y1 & Hfit & ->).
    exists (year_of (ymd y1 month day)). split; [done|].
    rewrite (Hyear y1) by apply Hfit.
    split; [|split].
    + intros _. split; [done|]. intros y Hy.
      apply Hmono; [apply Hy|apply Hfit|]. apply Hmax, Hin. exists y. split; [exact Hy|reflexivity].
    + intros Hnone. destruct Hnone. by exists y1.
    + intros Hnone. destruct Hnone. by exists y1.
  - assert (Hnofit : ~ exists y, fits y).
    { intros (y & Hy). assert (ymd y month day ∈ in_period) as Hx
        by (apply Hin; exists y; split; [exact Hy|reflexivity]).
      rewrite Hlast1 in Hx. by apply elem_of_nil in Hx. }
    destruct (last (merge_sort Z.le near_period)) as [d2|].
    + destruct Hlast2 as [Hd2 Hmax].
      apply Hnear in Hd2 as (y2 & Hn2 & ->).
      exists (year_of (ymd y2 month day)). split; [done|].
      rewrite (Hyear y2) by apply Hn2.
      split; [done|]. split.
      * intros _ _. split; [done|]. intros y Hy.
        apply Hmono; [apply Hy|apply Hn2|]. apply Hmax, Hnear. exists y. split; [exact Hy|reflexivity].
      * intros _ Hnone. destruct Hnone. by exists y2.
    + exists today_year. split; [done|]. split; [done|]. split; [|done].
      intros _ (y & Hy). assert (ymd y month day ∈ near_period) as Hx
        by (apply Hnear; exists y; split; [exact Hy|reflexivity]).
      rewrite Hlast2 in Hx. by apply elem_of_nil in Hx.
Qed.



End YearsExtras.

(** A concrete case of X27: 29 February against the years 2022 to 2024. *)
Lemma infer_year_example :
  exists yr,
    Years.infer_year_for_month_day 2026 2 29
      (Some (ymd 2022 1 1)) (Some (ymd 2024 12 31)) = Years.Year yr
    /\ yr = 2024.
Proof.
  destruct (infer_year_latest 2026 2 29 (ymd 2022 1 1) (ymd 2024 12 31))
    as (yr & Hyr & _); try (vm_compute; split; discriminate);
    try (vm_compute; discriminate); try (vm_compute; reflexivity).
  exists yr. split; [exact Hyr|].
  vm_compute in Hyr. by injection Hyr as <-.
Defined.
